(** * Eagle-Energy-Exporter: the payload decoder of [main.py]

    A shallow embedding of the decoding half of [main.py]: the two numeric
    helpers [utc2000_to_epoch] and [convert_hex_to_int], and the class
    [EagleParse] with its process-wide registry [_global_config].

    Conventions of the embedding.
    - Python [int] is [Z]; Python [str] is [string], read as a sequence of
      code points below 256 (for those, the whitespace and digit classes
      used by [int(text, base)] are written out in full).
    - An exception is a value of [exn]; a call that may raise returns a
      [result].  Methods that touch the registry thread it explicitly and
      hand it back on failure as well, since a mutation made before a
      [raise] stays in the class attribute.
    - [self._labels] and [self._state] are references to the dictionaries
      stored in [_global_config[device_mac_id]]; the embedding keeps the
      key and reads and writes through the registry, which is the same
      thing as long as entries are never replaced (they are not).
    - Python's [/] on integers returns the binary64 nearest to the exact
      quotient; the embedding keeps the exact quotient in [Q].  For
      operands that are signed 32-bit values ([int32]) the tests against
      1000 and -1000 agree with the rounded value, because a quotient
      outside the bound is at least 2^-31 away from it, and such a
      quotient neither overflows nor underflows ([scaled_margin],
      [scaled_nonzero_margin], [scaled_magnitude]).  Wider operands can
      make Python round onto a bound, underflow to 0.0 or raise
      [OverflowError], none of which the embedding shows: what is stated
      about the value or the success of a division is stated for [int32]
      operands. *)

From Stdlib Require Import ZArith QArith String Ascii List Lia.
From stdpp Require Import gmap strings.

Local Open Scope string_scope.
Local Open Scope Z_scope.

(** ** Exceptions and results *)

Inductive exn : Type :=
| UnicodeDecodeError
| ParseError
| ValueError
| TypeError
| AttributeError
| ZeroDivisionError
| KeyError
(** the [Exception] raised on line 172, with the fields its message
    prints: computed demand, multiplier, divisor, timestamp, raw_xml *)
| DemandOutOfRange (demand : Q) (multiplier divisor timestamp : Z)
                   (raw_xml : string).

Inductive result (A : Type) : Type :=
| Ok (a : A)
| Err (e : exn).
Arguments Ok {A} a.
Arguments Err {A} e.

Definition rbind {A B} (r : result A) (k : A -> result B) : result B :=
  match r with
  | Ok a => k a
  | Err e => Err e
  end.

Notation "'let?' x ':=' r 'in' k" := (rbind r (fun x => k))
  (at level 10, x name, r at level 100, k at level 200).

(** ** Python string primitives *)

Module Py.

Definition code (c : ascii) : Z := Z.of_N (N_of_ascii c).

(** Whitespace as [int] sees it, on one code point below 256: the C
    locale's space characters, and the two Latin-1 spaces that [int]
    turns into a blank before it parses. *)
Definition is_space (c : ascii) : bool :=
  let n := code c in
  ((9 <=? n) && (n <=? 13)) || (n =? 32) || (n =? 133) || (n =? 160).

(** The digit table of [int]: 0-9, then a-z and A-Z as 10..35; 37 for
    every other character. *)
Definition digit_value (c : ascii) : Z :=
  let n := code c in
  if (48 <=? n) && (n <=? 57) then n - 48
  else if (97 <=? n) && (n <=? 122) then n - 87
  else if (65 <=? n) && (n <=? 90) then n - 55
  else 37.

Fixpoint lstrip (s : string) : string :=
  match s with
  | String c s' => if is_space c then lstrip s' else s
  | EmptyString => s
  end.

Fixpoint all_space (s : string) : bool :=
  match s with
  | String c s' => is_space c && all_space s'
  | EmptyString => true
  end.

(** [s[n:]] for a non-negative [n]. *)
Fixpoint slice_from (n : nat) (s : string) : string :=
  match n, s with
  | S n', String _ s' => slice_from n' s'
  | _, _ => s
  end.

(** [s.rstrip(c)] for a one-character argument. *)
Fixpoint rstrip (c : ascii) (s : string) : string :=
  match s with
  | EmptyString => EmptyString
  | String a s' =>
      match rstrip c s' with
      | EmptyString => if Ascii.eqb a c then EmptyString
                       else String a EmptyString
      | r => String a r
      end
  end.

(** The run of digits and single underscores read by [int]: value read
    so far, number of digits, and what follows the run.  [prev] tells
    that the previous character was an underscore. *)
Fixpoint scan_digits (base : Z) (s : string) (prev : bool) (acc : Z)
         (n : nat) : option (Z * nat * string) :=
  match s with
  | EmptyString => if prev then None else Some (acc, n, s)
  | String c s' =>
      if Ascii.eqb c "_" then
        if prev then None else scan_digits base s' true acc n
      else if digit_value c <? base then
        scan_digits base s' false (acc * base + digit_value c) (S n)
      else if prev then None else Some (acc, n, s)
  end.

Definition starts_with_underscore (s : string) : bool :=
  match s with
  | String c _ => Ascii.eqb c "_"
  | EmptyString => false
  end.

(** the default of [sys.get_int_max_str_digits()] *)
Definition max_str_digits : nat := 4300.

Definition is_power_of_two (base : Z) : bool :=
  Z.land base (base - 1) =? 0.

Definition strip_sign (s : string) : Z * string :=
  match s with
  | String "+" s' => (1, s')
  | String "-" s' => (-1, s')
  | _ => (1, s)
  end.

(** After the sign, base 16 accepts [0x] or [0X], and one underscore
    right after it. *)
Definition strip_prefix (base : Z) (s : string) : string :=
  match s with
  | String "0" (String x s') =>
      if (base =? 16) && (Ascii.eqb x "x" || Ascii.eqb x "X") then
        match s' with
        | String "_" s'' => s''
        | _ => s'
        end
      else s
  | _ => s
  end.

(** [int(s, base)] for an explicit base 10 or 16; [None] is
    [ValueError]. *)
Definition int (s : string) (base : Z) : option Z :=
  let '(sign, s1) := strip_sign (lstrip s) in
  let s2 := strip_prefix base s1 in
  if starts_with_underscore s2 then None
  else
    match scan_digits base s2 false 0 0 with
    | None => None
    | Some (v, n, rest) =>
        if (n =? 0)%nat then None
        else if negb (is_power_of_two base) && (max_str_digits <? n)%nat
        then None
        else if all_space rest then Some (sign * v) else None
    end.

End Py.

(** ** Module-level helpers *)

Definition utc2000_to_epoch (seconds : Z) : Z :=
  let unix2000_time := 946684800 in
  seconds + unix2000_time.

Definition convert_hex_to_int (hex_num : string) : result Z :=
  match Py.int (Py.slice_from 2 hex_num) 16 with
  | None => Err ValueError
  | Some value =>
      if 0x80000000 <=? value then Ok (value - 0x100000000)
      else Ok value
  end.


(** [a / b] on two Python integers: the exact quotient (see the header).
    Python returns the binary64 nearest to it and raises [OverflowError]
    when that is out of range, which operands wider than 32 bits can
    cause; statements about the value or the success of a division are
    made for 32-bit operands ([int32] below). *)
Definition truediv (a b : Z) : result Q :=
  if b =? 0 then Err ZeroDivisionError
  else Ok (inject_Z a / inject_Z b)%Q.

(** [x > y] on rationals, as a boolean. *)
Definition Qgtb (x y : Q) : bool := negb (Qle_bool x y).

(** ** The element tree of [xml.etree.ElementTree] *)

#[warnings="-register-all"] Inductive Element : Type :=
  mkElement {
    tag : string;
    attrib : gmap string string;
    text : option string;
    children : list Element
  }.

Module ET.

(** Proper descendants in document order: what [elem.iter()] yields
    after [elem] itself. *)
Fixpoint descendants (e : Element) : list Element :=
  match e with
  | mkElement _ _ _ cs => flat_map (fun c => c :: descendants c) cs
  end.

Definition has_tag (t : string) (e : Element) : bool :=
  String.eqb (tag e) t.

(** [elem.find(".//T")] *)
Definition find_descendant (e : Element) (t : string) : option Element :=
  List.find (has_tag t) (descendants e).

(** [elem.find("T")]: direct children only *)
Definition find (e : Element) (t : string) : option Element :=
  List.find (has_tag t) (children e).

(** [elem.findtext(path, default)] once the element is looked up: the
    text of a match, the empty string when that text is [None]. *)
Definition text_or_default (found : option Element)
           (default : option string) : option string :=
  match found with
  | Some e => Some (match text e with Some s => s | None => "" end)
  | None => default
  end.

(** [bool(elem)] is [len(elem) != 0]. *)
Definition truthy (e : Element) : bool :=
  match children e with
  | [] => false
  | _ :: _ => true
  end.

(** [a or b] on two [find] results *)
Definition or_else (a b : option Element) : option Element :=
  match a with
  | Some e => if truthy e then a else b
  | None => b
  end.

End ET.

(** ** Registry, parser object and metric bundle *)

Record State : Type := mkState {
  device_info_received : bool;
  network_info_received : bool
}.

(** A label value is a string or [None] ([findtext(..., default=None)]). *)
Record Entry : Type := mkEntry {
  labels : gmap string (option string);
  state : State
}.

(** a number stored in [_metric]: an [int] or the result of [/] *)
Inductive num : Type :=
| PyInt (z : Z)
| PyFloat (q : Q).

(** [_labels] and [_state] hold the registry key whose dictionaries they
    alias; [_labels = None] is Python's [None], [_state = None] is the
    attribute never assigned. *)
Record EagleParse : Type := mkEagleParse {
  raw_xml : string;
  _metric : gmap string (gmap string num);
  _labels : option string;
  _state : option string;
  root : Element;
  timestamp : Z
}.

(** what [get_metric_labels] returns: [{}] or the three-key dictionary
    (the labels are those of the registry entry at the time of return) *)
Inductive metric_labels : Type :=
| Empty
| Bundle (metric : gmap string (gmap string num))
         (lbls : gmap string (option string)) (ts : Z).

Inductive gauge : Type :=
| summation_delivered_gauge
| summation_received_gauge
| instantaneous_demand_gauge.

(** one call [gauge.set(value, labels)] *)
Definition gauge_set : Type := gauge * num * gmap string (option string).

Definition set_timestamp (self : EagleParse) (t : Z) : EagleParse :=
  mkEagleParse (raw_xml self) (_metric self) (_labels self) (_state self)
               (root self) t.

Definition set_metric (self : EagleParse) (k : string)
           (v : gmap string num) : EagleParse :=
  mkEagleParse (raw_xml self) (<[k := v]> (_metric self)) (_labels self)
               (_state self) (root self) (timestamp self).

(** [self._labels[k] = v] through the alias [key] *)
Definition set_label (key k : string) (v : option string)
           (reg : gmap string Entry) : gmap string Entry :=
  alter (fun e => mkEntry (<[k := v]> (labels e)) (state e)) key reg.

Definition set_device_info_received (key : string)
           (reg : gmap string Entry) : gmap string Entry :=
  alter (fun e => mkEntry (labels e)
                    (mkState true (network_info_received (state e))))
        key reg.

Definition set_network_info_received (key : string)
           (reg : gmap string Entry) : gmap string Entry :=
  alter (fun e => mkEntry (labels e)
                    (mkState (device_info_received (state e)) true))
        key reg.

(** [convert_hex_to_int(section.find(name).text)] *)
Definition field_hex (section : Element) (name : string) : result Z :=
  match ET.find section name with
  | None => Err AttributeError
  | Some f =>
      match text f with
      | None => Err TypeError
      | Some s => convert_hex_to_int s
      end
  end.

(** [int(section.find(name).text, 16)] *)
Definition field_int16 (section : Element) (name : string) : result Z :=
  match ET.find section name with
  | None => Err AttributeError
  | Some f =>
      match text f with
      | None => Err TypeError
      | Some s =>
          match Py.int s 16 with
          | Some v => Ok v
          | None => Err ValueError
          end
      end
  end.

(** [x if x != 0 else 1] *)
Definition nonzero_or_one (x : Z) : Z := if x =? 0 then 1 else x.

(** ** The methods of [EagleParse] *)

Definition _parse_instantaneous_demand (self : EagleParse)
  : result EagleParse :=
  match ET.find_descendant (root self) "InstantaneousDemand" with
  | None => Ok self
  | Some instantaneous_demand =>
      let? demand := field_hex instantaneous_demand "Demand" in
      let? multiplier := field_hex instantaneous_demand "Multiplier" in
      let? divisor := field_hex instantaneous_demand "Divisor" in
      let? ts := field_int16 instantaneous_demand "TimeStamp" in
      let self := set_timestamp self (utc2000_to_epoch ts) in
      let multiplier := nonzero_or_one multiplier in
      let divisor := nonzero_or_one divisor in
      let? demand := truediv (demand * multiplier) divisor in
      if Qgtb demand (inject_Z 1000) || Qgtb (inject_Z (-1000)) demand
      then Err (DemandOutOfRange demand multiplier divisor
                                 (timestamp self) (raw_xml self))
      else Ok (set_metric self "instantaneous_demand"
                          {["demand" := PyFloat demand]})
  end.

Definition _parse_current_summation (self : EagleParse)
  : result EagleParse :=
  match ET.or_else (ET.find (root self) "CurrentSummationDelivered")
                   (ET.find (root self) "CurrentSummation") with
  | None => Ok self
  | Some current_summation =>
      let? summation_delivered :=
        field_hex current_summation "SummationDelivered" in
      let? summation_received :=
        field_hex current_summation "SummationReceived" in
      let? multiplier := field_hex current_summation "Multiplier" in
      let? divisor := field_hex current_summation "Divisor" in
      let? ts := field_int16 current_summation "TimeStamp" in
      let self := set_timestamp self (utc2000_to_epoch ts) in
      let multiplier := nonzero_or_one multiplier in
      let divisor := nonzero_or_one divisor in
      let? summation_delivered :=
        truediv (summation_delivered * multiplier) divisor in
      let? summation_received :=
        truediv (summation_received * multiplier) divisor in
      Ok (set_metric self "current_summation"
            (<["summation_delivered" := PyFloat summation_delivered]>
               {["summation_received" := PyFloat summation_received]}))
  end.

Definition _parse_device_info (self : EagleParse) (reg : gmap string Entry)
  : gmap string Entry * result EagleParse :=
  match ET.find_descendant (root self) "DeviceInfo" with
  | None => (reg, Ok self)
  | Some device_info =>
      match _state self with
      | None => (reg, Err AttributeError)
      | Some ks =>
          let reg := set_device_info_received ks reg in
          match _labels self with
          | None => (reg, Err TypeError)
          | Some kl =>
              let field name :=
                ET.text_or_default (ET.find device_info name) None in
              let reg := set_label kl "fw_version" (field "FWVersion") reg in
              let reg := set_label kl "hw_version" (field "HWVersion") reg in
              let reg :=
                set_label kl "manufacturer" (field "Manufacturer") reg in
              let reg := set_label kl "model_id" (field "ModelId") reg in
              (reg, Ok self)
          end
      end
  end.

Definition _parse_network_info (self : EagleParse) (reg : gmap string Entry)
  : gmap string Entry * result EagleParse :=
  match ET.find_descendant (root self) "NetworkInfo" with
  | None => (reg, Ok self)
  | Some network_info =>
      match _state self with
      | None => (reg, Err AttributeError)
      | Some ks =>
          let reg := set_network_info_received ks reg in
          match ET.text_or_default (ET.find network_info "LinkStrength")
                                   None with
          | None => (reg, Ok self)
          | Some link_strength =>
              match Py.int link_strength 16 with
              | None => (reg, Err ValueError)
              | Some link_strength =>
                  (reg, Ok (set_metric self "network_info"
                              {["link_strength" := PyInt link_strength]}))
              end
          end
      end
  end.

Definition parse (self : EagleParse) (reg : gmap string Entry)
  : gmap string Entry * result EagleParse :=
  match _parse_instantaneous_demand self with
  | Err e => (reg, Err e)
  | Ok self =>
      match _parse_current_summation self with
      | Err e => (reg, Err e)
      | Ok self =>
          match _parse_device_info self reg with
          | (reg, Err e) => (reg, Err e)
          | (reg, Ok self) => _parse_network_info self reg
          end
      end
  end.

Definition meter_sentinel : string := "0x0000000000000000".

Definition get_metric_labels (self : EagleParse) (reg : gmap string Entry)
  : gmap string Entry * result metric_labels :=
  match _labels self with
  | None => (reg, Ok Empty)
  | Some kl =>
      match _state self with
      | None => (reg, Err AttributeError)
      | Some ks =>
          match reg !! ks with
          | None => (reg, Err KeyError)
          | Some e =>
              if negb (device_info_received (state e))
                 || negb (network_info_received (state e))
              then (reg, Ok Empty)
              else
                let reg :=
                  match ET.text_or_default
                          (ET.find_descendant (root self) "MeterMacId")
                          None with
                  | Some meter_mac_id =>
                      if negb (String.eqb meter_mac_id "")
                         && negb (String.eqb meter_mac_id meter_sentinel)
                      then set_label kl "meter_mac_id" (Some meter_mac_id)
                                     reg
                      else reg
                  | None => reg
                  end in
                match reg !! kl with
                | None => (reg, Err KeyError)
                | Some e' =>
                    (reg, Ok (Bundle (_metric self) (labels e')
                                     (timestamp self)))
                end
          end
      end
  end.

(** the gauge calls of [publish] for one returned dictionary *)
Definition gauge_calls (ml : metric_labels) : result (list gauge_set) :=
  match ml with
  | Empty => Ok []
  | Bundle metric_data lbls _ =>
      let? summation :=
        match metric_data !! "current_summation"
              return result (list gauge_set) with
        | None => Ok []
        | Some d =>
            match d !! "summation_delivered", d !! "summation_received" with
            | Some sd, Some sr =>
                Ok [(summation_delivered_gauge, sd, lbls);
                    (summation_received_gauge, sr, lbls)]
            | _, _ => Err KeyError
            end
        end in
      let? demand :=
        match metric_data !! "instantaneous_demand"
              return result (list gauge_set) with
        | None => Ok []
        | Some d =>
            match d !! "demand" with
            | Some v => Ok [(instantaneous_demand_gauge, v, lbls)]
            | None => Err KeyError
            end
        end in
      Ok (summation ++ demand)%list
  end.

Definition publish (self : EagleParse) (reg : gmap string Entry)
  : gmap string Entry * result (metric_labels * list gauge_set) :=
  match parse self reg with
  | (reg, Err e) => (reg, Err e)
  | (reg, Ok self) =>
      match get_metric_labels self reg with
      | (reg, Err e) => (reg, Err e)
      | (reg, Ok ml) =>
          (reg, let? calls := gauge_calls ml in Ok (ml, calls))
      end
  end.

Section Library.

(** [bytes.decode("utf-8")] and [xml.etree.ElementTree.fromstring]:
    library code, [None] when they raise. *)
Variable decode : list Byte.byte -> option string.
Variable fromstring : string -> option Element.

(** [now] is [int(time.time())]; [prom_opt_labels] is the value of
    [json.loads(os.environ.get('PROMETHEUS_OPT_LABELS', '{}'))], a
    mapping from device identity to extra labels. *)
Definition __init__ (raw_xml : list Byte.byte) (client_host : string)
           (now : Z)
           (prom_opt_labels : gmap string (gmap string (option string)))
           (reg : gmap string Entry)
  : gmap string Entry * result EagleParse :=
  match decode raw_xml with
  | None => (reg, Err UnicodeDecodeError)
  | Some raw =>
      match fromstring raw with
      | None => (reg, Err ParseError)
      | Some root =>
          match Py.int (Py.rstrip "s"
                          (default "0" (attrib root !! "timestamp")))
                       10 with
          | None => (reg, Err ValueError)
          | Some t =>
              let timestamp := if t =? 0 then now else t in
              match ET.text_or_default
                      (ET.find_descendant root "DeviceMacId") None with
              | Some device_mac_id =>
                  if String.eqb device_mac_id "" then
                    (reg, Ok (mkEagleParse raw ∅ None None root timestamp))
                  else
                    let reg :=
                      match reg !! device_mac_id with
                      | Some _ => reg
                      | None =>
                          let labels : gmap string (option string) :=
                            <["device_mac_id" := Some device_mac_id]>
                              {["client_host" := Some client_host]} in
                          let labels :=
                            match prom_opt_labels !! device_mac_id with
                            | Some extra => extra ∪ labels
                            | None => labels
                            end in
                          <[device_mac_id :=
                              mkEntry labels (mkState false false)]> reg
                      end in
                    (reg, Ok (mkEagleParse raw ∅ (Some device_mac_id)
                                (Some device_mac_id) root timestamp))
              | None =>
                  (reg, Ok (mkEagleParse raw ∅ None None root timestamp))
              end
          end
      end
  end.

(** [ingest] without the HTTP wrapping: the registry afterwards, the
    gauge calls made, and the status code of the response. *)
Definition ingest (raw_xml : list Byte.byte) (client_host : string)
           (now : Z)
           (prom_opt_labels : gmap string (gmap string (option string)))
           (reg : gmap string Entry)
  : gmap string Entry * list gauge_set * Z :=
  match __init__ raw_xml client_host now prom_opt_labels reg with
  | (reg, Err _) => (reg, [], 200)
  | (reg, Ok eagle_parser) =>
      match publish eagle_parser reg with
      | (reg, Ok (_, calls)) => (reg, calls, 200)
      | (reg, Err _) => (reg, [], 200)
      end
  end.

End Library.

(** ** Reference notions for the statements *)

(** the position of [c] in [s], counted from [i] *)
Fixpoint index_from (c : ascii) (s : string) (i : Z) : option Z :=
  match s with
  | EmptyString => None
  | String a s' => if Ascii.eqb a c then Some i else index_from c s' (i + 1)
  end.

(** One hexadecimal digit, as the specification reads it: its place among
    the sixteen digits, in lower or in upper case. *)
Definition hex_digit (c : ascii) : option Z :=
  match index_from c "0123456789abcdef" 0 with
  | Some d => Some d
  | None => index_from c "0123456789ABCDEF" 0
  end.

(** The unsigned number a string of hexadecimal digits denotes, most
    significant digit first; [None] when a character is no digit. *)
Fixpoint hex_unsigned (ds : string) (acc : Z) : option Z :=
  match ds with
  | EmptyString => Some acc
  | String c ds' =>
      match hex_digit c with
      | Some d => hex_unsigned ds' (acc * 16 + d)
      | None => None
      end
  end.

Definition hex_char (d : Z) : ascii :=
  match String.get (Z.to_nat d) "0123456789abcdef" with
  | Some c => c
  | None => "0"%char
  end.

(** the [n] low hexadecimal digits of [u] *)
Fixpoint hex_digits (n : nat) (u : Z) : string :=
  match n with
  | O => EmptyString
  | S n' => (hex_digits n' (u / 16) ++ String (hex_char (u mod 16)) "")%string
  end.

(** 32-bit two's-complement encoding of a signed value, as the fixed-width
    hexadecimal string of the telemetry format. *)
Definition twos_complement_hex32 (v : Z) : string :=
  ("0x" ++ hex_digits 8 (v mod 2 ^ 32))%string.

(** The same parser object looking at another document. *)
Definition set_root (self : EagleParse) (r : Element) : EagleParse :=
  mkEagleParse (raw_xml self) (_metric self) (_labels self) (_state self)
               r (timestamp self).

(** What a section parser leaves behind that a caller can observe: the
    metrics and the timestamp, or the exception. *)
Definition outcome (r : result EagleParse)
  : result (gmap string (gmap string num) * Z) :=
  match r with
  | Ok p => Ok (_metric p, timestamp p)
  | Err e => Err e
  end.

(** The document [r] has an instantaneous-demand section whose four
    sub-fields decode to [raw], [m], [d] and [ts]. *)
Definition demand_fields (r : Element) (raw m d ts : Z) : Prop :=
  exists sec,
    ET.find_descendant r "InstantaneousDemand" = Some sec
    /\ field_hex sec "Demand" = Ok raw
    /\ field_hex sec "Multiplier" = Ok m
    /\ field_hex sec "Divisor" = Ok d
    /\ field_int16 sec "TimeStamp" = Ok ts.

(** the section [_parse_current_summation] works on *)
Definition summation_section (r : Element) : option Element :=
  ET.or_else (ET.find r "CurrentSummationDelivered")
             (ET.find r "CurrentSummation").

(** The document [r] has a summation section whose five sub-fields decode
    to [sd], [sr], [m], [d] and [ts]. *)
Definition summation_fields (r : Element) (sd sr m d ts : Z) : Prop :=
  exists sec,
    summation_section r = Some sec
    /\ field_hex sec "SummationDelivered" = Ok sd
    /\ field_hex sec "SummationReceived" = Ok sr
    /\ field_hex sec "Multiplier" = Ok m
    /\ field_hex sec "Divisor" = Ok d
    /\ field_int16 sec "TimeStamp" = Ok ts.

(** [b] is [a], or [a] is 0 and [b] is 1. *)
Definition zero_read_as_one (a b : Z) : Prop := a = b \/ (a = 0 /\ b = 1).

(** A signed 32-bit value: what [convert_hex_to_int] returns for a
    pattern below 2^32.  For operands in this range the exact quotient and
    the binary64 quotient of Python compare alike with 1000, -1000 and 0,
    and the division cannot overflow. *)
Definition int32 (z : Z) : Prop := - 2 ^ 31 <= z < 2 ^ 31.

(** [raw * multiplier / divisor] after zero-defaulting *)
Definition scaled (raw m d : Z) : Q :=
  (inject_Z (raw * nonzero_or_one m) / inject_Z (nonzero_or_one d))%Q.

(** ** Sample documents *)

Module Sample.

Definition leaf (t s : string) : Element := mkElement t ∅ (Some s) [].

Definition node (t : string) (cs : list Element) : Element :=
  mkElement t ∅ None cs.

Definition mac : string := "0xd8d5b9000000abcd".

(** stand-ins for the two library calls: every buffer decodes to the
    empty text, and every text parses to the given tree *)
Definition decode (_ : list Byte.byte) : option string := Some "".
Definition fromstring (r : Element) (_ : string) : option Element := Some r.

Definition demand_section (demand multiplier divisor ts : string)
  : Element :=
  node "InstantaneousDemand"
       [leaf "DeviceMacId" mac; leaf "MeterMacId" "0x00135003007c27b4";
        leaf "TimeStamp" ts; leaf "Demand" demand;
        leaf "Multiplier" multiplier; leaf "Divisor" divisor].

Definition summation (delivered received multiplier divisor ts : string)
  : Element :=
  node "CurrentSummation"
       [leaf "DeviceMacId" mac; leaf "MeterMacId" "0x00135003007c27b4";
        leaf "TimeStamp" ts; leaf "SummationDelivered" delivered;
        leaf "SummationReceived" received;
        leaf "Multiplier" multiplier; leaf "Divisor" divisor].

Definition device_info : Element :=
  node "DeviceInfo"
       [leaf "DeviceMacId" mac; leaf "FWVersion" "2.0.21";
        leaf "HWVersion" "1.2.7"; leaf "Manufacturer" "Rainforest"].

Definition network_info (link : string) : Element :=
  node "NetworkInfo"
       [leaf "DeviceMacId" mac; leaf "Status" "Connected";
        leaf "LinkStrength" link].

Definition rainforest (ts : string) (cs : list Element) : Element :=
  mkElement "rainforest" {["timestamp" := ts]} None cs.

(** root timestamp only, no section *)
Definition doc_bare : Element := rainforest "1000000000s" [].

(** a root timestamp that is no integer *)
Definition doc_bad_timestamp : Element := rainforest "12h" [].

(** demand 1 / 1000 *)
Definition doc_demand : Element :=
  rainforest "1700000000s"
    [demand_section "0x00000001" "0x00000001" "0x000003e8" "0x2b3c4d5e"].

(** demand 2000 with multiplier 1 and divisor 1 *)
Definition doc_demand_2000 : Element :=
  rainforest "1700000000s"
    [demand_section "0x000007d0" "0x00000001" "0x00000001" "0x2b3c4d5e"].

(** the same reading with multiplier and divisor 0 *)
Definition doc_demand_zero_scale : Element :=
  rainforest "1700000000s"
    [demand_section "0x00000005" "0x00000000" "0x00000000" "0x2b3c4d5e"].

Definition doc_demand_one_scale : Element :=
  rainforest "1700000000s"
    [demand_section "0x00000005" "0x00000001" "0x00000001" "0x2b3c4d5e"].

(** demand and summation with different section timestamps *)
Definition doc_both : Element :=
  rainforest "1700000000s"
    [demand_section "0x00000001" "0x00000001" "0x000003e8" "0x00000010";
     summation "0x00989680" "0x00000000" "0x00000001" "0x000003e8"
               "0x00000020"].

Definition doc_device_info : Element :=
  rainforest "1700000000s" [device_info].

Definition doc_network_info : Element :=
  rainforest "1700000000s" [network_info "0x64"].

(** device info, then a link strength that is no hexadecimal number *)
Definition doc_bad_link : Element :=
  rainforest "1700000000s" [device_info; network_info "strong"].

(** a device-info section in a document without [DeviceMacId] *)
Definition doc_anonymous_info : Element :=
  rainforest "1700000000s"
    [node "DeviceInfo" [leaf "FWVersion" "2.0.21"]].

(** a document without [DeviceMacId] and without info sections *)
Definition doc_anonymous : Element :=
  rainforest "1700000000s" [node "TimeCluster" [leaf "UTCTime" "0x1"]].

(** the registry entry of [mac] before and after both info sections *)
Definition entry_new : Entry :=
  mkEntry (<["device_mac_id" := Some mac]> {["client_host" := Some "10.0.0.7"]})
          (mkState false false).

Definition entry_ready : Entry :=
  mkEntry (<["device_mac_id" := Some mac]> {["client_host" := Some "10.0.0.7"]})
          (mkState true true).

Definition reg_new : gmap string Entry := {[mac := entry_new]}.
Definition reg_ready : gmap string Entry := {[mac := entry_ready]}.

(** a parser object for [mac] on the document [r] *)
Definition parser (r : Element) : EagleParse :=
  mkEagleParse "" ∅ (Some mac) (Some mac) r 1700000000.

End Sample.

(** the exception raised by the demand sanity check *)
Definition is_demand_error (e : exn) : Prop :=
  match e with
  | DemandOutOfRange _ _ _ _ _ => True
  | _ => False
  end.

(** [v] lies in the closed interval from -1000 to 1000 *)
Definition within_bound (v : Q) : Prop :=
  (inject_Z (-1000) <= v /\ v <= inject_Z 1000)%Q.

(** the labels after the four assignments of [_parse_device_info] *)
Definition device_info_labels (device_info : Element)
           (l : gmap string (option string)) : gmap string (option string) :=
  let field name := ET.text_or_default (ET.find device_info name) None in
  <["model_id" := field "ModelId"]>
    (<["manufacturer" := field "Manufacturer"]>
       (<["hw_version" := field "HWVersion"]>
          (<["fw_version" := field "FWVersion"]> l))).

(** the meter identity [get_metric_labels] looks up *)
Definition meter_mac_id (self : EagleParse) : option string :=
  ET.text_or_default (ET.find_descendant (root self) "MeterMacId") None.

(** Every metric group [publish] reads has the sub-metrics it reads. *)
Definition metric_complete (m : gmap string (gmap string num)) : Prop :=
  (forall d, m !! "current_summation" = Some d ->
             is_Some (d !! "summation_delivered")
             /\ is_Some (d !! "summation_received"))
  /\ (forall d, m !! "instantaneous_demand" = Some d ->
                is_Some (d !! "demand")).

(** ** Notions for the registry properties *)

(** [e'] carries on from [e]: a flag that was true is true, and every
    label key of [e] is still a key. *)
Definition entry_extends (e e' : Entry) : Prop :=
  (device_info_received (state e) = true ->
   device_info_received (state e') = true)
  /\ (network_info_received (state e) = true ->
      network_info_received (state e') = true)
  /\ (forall l, is_Some (labels e !! l) -> is_Some (labels e' !! l)).

(** Every entry of [reg] is in [reg'], carried on. *)
Definition registry_extends (reg reg' : gmap string Entry) : Prop :=
  forall k e,
    reg !! k = Some e -> exists e', reg' !! k = Some e' /\ entry_extends e e'.

(** The device a document is attributed to: the text of the first
    [DeviceMacId] below the root, when it is not empty (lines 121-122). *)
Definition payload_device (r : Element) : option string :=
  match ET.text_or_default (ET.find_descendant r "DeviceMacId") None with
  | Some device_mac_id =>
      if String.eqb device_mac_id "" then None else Some device_mac_id
  | None => None
  end.

(** the labels a gauge call carries *)
Definition call_labels (c : gauge_set) : gmap string (option string) :=
  snd c.

(** ** More sample documents *)

Module Sample2.

(** a document without a root timestamp *)
Definition doc_no_timestamp : Element :=
  Sample.node "rainforest"
    [Sample.demand_section "0x00000001" "0x00000001" "0x000003e8"
                           "0x2b3c4d5e"].

(** a [DeviceMacId] without text *)
Definition doc_empty_identity : Element :=
  Sample.rainforest "1700000000s"
    [Sample.node "DeviceInfo"
       [Sample.node "DeviceMacId" []; Sample.leaf "FWVersion" "2.0.21"]].

(** a summation section one level below the root's children *)
Definition doc_nested_summation : Element :=
  Sample.rainforest "1700000000s"
    [Sample.node "Envelope"
       [Sample.summation "0x00989680" "0x00000000" "0x00000001"
                         "0x000003e8" "0x00000020"]].

(** an empty [CurrentSummationDelivered] and nothing else *)
Definition doc_empty_delivered : Element :=
  Sample.rainforest "1700000000s"
    [Sample.node "CurrentSummationDelivered" []].

(** an empty [CurrentSummation] *)
Definition doc_empty_summation : Element :=
  Sample.rainforest "1700000000s" [Sample.node "CurrentSummation" []].

(** a demand section without its divisor *)
Definition doc_demand_no_divisor : Element :=
  Sample.rainforest "1700000000s"
    [Sample.node "InstantaneousDemand"
       [Sample.leaf "DeviceMacId" Sample.mac;
        Sample.leaf "TimeStamp" "0x2b3c4d5e";
        Sample.leaf "Demand" "0x00000001";
        Sample.leaf "Multiplier" "0x00000001"]].

(** a device-info section that has lost its firmware version *)
Definition doc_device_info_partial : Element :=
  Sample.rainforest "1700000000s"
    [Sample.node "DeviceInfo"
       [Sample.leaf "DeviceMacId" Sample.mac;
        Sample.leaf "HWVersion" "1.2.7"]].

(** a link strength and a section timestamp with the top bit set *)
Definition doc_high_bit : Element :=
  Sample.rainforest "1700000000s"
    [Sample.demand_section "0x00000001" "0x00000001" "0x000003e8"
                           "0xf0000000";
     Sample.network_info "0xffffffff"].

(** operator-supplied labels for [Sample.mac] *)
Definition opt_labels : gmap string (gmap string (option string)) :=
  {[Sample.mac := <["site" := Some "garage"]>
                    {["client_host" := Some "meter-1"]}]}.

(** the entry of [Sample.mac] after a device-info section *)
Definition entry_labelled : Entry :=
  mkEntry (<["fw_version" := Some "2.0.21"]>
             (<["device_mac_id" := Some Sample.mac]>
                {["client_host" := Some "10.0.0.7"]}))
          (mkState true false).

End Sample2.

(** ** Proof automation *)

(** Case analysis on the next [let?] of a section parser. *)
Ltac step_bind :=
  match goal with
  | |- context [rbind ?r _] =>
      let E := fresh "E" in destruct r eqn:E; cbn [rbind]
  | H : context [rbind ?r _] |- _ =>
      let E := fresh "E" in destruct r eqn:E; cbn [rbind] in H
  end.

(** Equality of two closed terms by evaluation of both sides. *)
Ltac vm_refl :=
  lazymatch goal with
  | |- ?l = ?r => exact (@eq_refl _ r <: l = r)
  end.

(** * Properties *)

(** ** Sanity checks on the primitives *)

Example convert_hex_to_int_1000 : convert_hex_to_int "0x000003e8" = Ok 1000.
Proof. reflexivity. Qed.

Example convert_hex_to_int_minus_one :
  convert_hex_to_int "0xFFFFFFFF" = Ok (-1).
Proof. reflexivity. Qed.

Example int_accepts_and_rejects :
  Py.int "12h" 10 = None /\ Py.int "" 10 = None /\ Py.int "1__0" 10 = None
  /\ Py.int " 0x_1f " 16 = Some 31 /\ Py.int "0x1f" 10 = None
  /\ Py.int "-007" 10 = Some (-7) /\ Py.int "1_000" 10 = Some 1000.
Proof. repeat split; reflexivity. Qed.

Example rstrip_all_trailing : Py.rstrip "s" "12sss" = "12".
Proof. reflexivity. Qed.

Example utc2000_to_epoch_zero : utc2000_to_epoch 0 = 946684800.
Proof. reflexivity. Qed.

(** The demand 1 / 1000 of a gated device is published. *)
Example publish_small_demand :
  exists l,
    publish (Sample.parser Sample.doc_demand) Sample.reg_ready
    = (set_label Sample.mac "meter_mac_id" (Some "0x00135003007c27b4")
                 Sample.reg_ready,
       Ok (Bundle {["instantaneous_demand"
                    := {["demand" := PyFloat (scaled 1 1 1000)]}]}
                  l (utc2000_to_epoch 0x2b3c4d5e),
           [(instantaneous_demand_gauge, PyFloat (scaled 1 1 1000), l)])).
Proof. eexists. vm_compute. reflexivity. Qed.

(** ** Signed hexadecimal decoding *)

Lemma hex_digit_table (c : ascii) (d : Z) :
  hex_digit c = Some d ->
  Py.digit_value c = d /\ 0 <= d < 16 /\ Ascii.eqb c "_" = false
  /\ Py.is_space c = false /\ c <> "+"%char /\ c <> "-"%char
  /\ c <> "x"%char /\ c <> "X"%char.
Proof.
  destruct c as [[] [] [] [] [] [] [] []]; vm_compute; intros H;
    try discriminate H; injection H as <-; repeat split; congruence.
Qed.

Lemma hex_unsigned_scan (ds : string) :
  forall acc n u,
    hex_unsigned ds acc = Some u ->
    Py.scan_digits 16 ds false acc n
    = Some (u, (n + String.length ds)%nat, EmptyString).
Proof.
  induction ds as [|c ds IH]; intros acc n u H; simpl in *.
  - injection H as <-. by rewrite Nat.add_0_r.
  - destruct (hex_digit c) as [d|] eqn:Hc; [|discriminate].
    destruct (hex_digit_table _ _ Hc) as (Hv & Hd & Hu & _).
    rewrite Hu, Hv.
    destruct (Z.ltb_spec d 16) as [_|]; [|lia].
    rewrite (IH _ (S n) _ H). do 3 f_equal. lia.
Qed.

Lemma hex_unsigned_lower (ds : string) :
  forall acc u, hex_unsigned ds acc = Some u -> 0 <= acc -> 0 <= u.
Proof.
  induction ds as [|c ds IH]; intros acc u H Hacc; simpl in *.
  - by injection H as <-.
  - destruct (hex_digit c) as [d|] eqn:Hc; [|discriminate].
    destruct (hex_digit_table _ _ Hc) as (_ & Hd & _).
    apply (IH _ _ H). lia.
Qed.

Lemma int16_of_hex_digits (ds : string) (u : Z) :
  ds <> EmptyString -> hex_unsigned ds 0 = Some u -> Py.int ds 16 = Some u.
Proof.
  intros Hne H. unfold Py.int.
  destruct ds as [|c ds]; [done|].
  pose proof H as H0. simpl in H0.
  destruct (hex_digit c) as [d|] eqn:Hc; [|discriminate].
  destruct (hex_digit_table _ _ Hc) as (_ & _ & Hu & Hs & Hp & Hm & _).
  assert (Hl : Py.lstrip (String c ds) = String c ds) by (simpl; by rewrite Hs).
  rewrite Hl.
  assert (Hsg : Py.strip_sign (String c ds) = (1, String c ds)).
  { destruct c as [[] [] [] [] [] [] [] []]; try reflexivity; congruence. }
  rewrite Hsg.
  assert (Hpre : Py.strip_prefix 16 (String c ds) = String c ds).
  { destruct ds as [|x ds]; [by destruct c as [[] [] [] [] [] [] [] []]|].
    simpl in H0. destruct (hex_digit x) as [dx|] eqn:Hx; [|discriminate].
    destruct (hex_digit_table _ _ Hx) as (_ & _ & _ & _ & _ & _ & Hx1 & Hx2).
    assert (Hxx : (Ascii.eqb x "x" || Ascii.eqb x "X")%bool = false).
    { destruct (Ascii.eqb_spec x "x"); [done|].
      by destruct (Ascii.eqb_spec x "X"). }
    destruct c as [[] [] [] [] [] [] [] []]; try reflexivity.
    unfold Py.strip_prefix. by rewrite Hxx. }
  rewrite Hpre. cbn [Py.starts_with_underscore]. rewrite Hu.
  rewrite (hex_unsigned_scan _ _ 0%nat _ H).
  cbn [String.length Nat.add Nat.eqb].
  cbn [Py.all_space]. replace (Py.is_power_of_two 16) with true by reflexivity.
  cbn [negb andb]. f_equal. lia.
Qed.

Lemma convert_hex_to_int_digits (ds : string) (u : Z) :
  ds <> EmptyString -> hex_unsigned ds 0 = Some u ->
  convert_hex_to_int ("0x" ++ ds)
  = Ok (if u <? 2 ^ 31 then u else u - 2 ^ 32).
Proof.
  intros Hne H. unfold convert_hex_to_int.
  change ("0x" ++ ds) with (String "0" (String "x" ds)).
  cbn [Py.slice_from].
  rewrite (int16_of_hex_digits _ _ Hne H).
  change 0x80000000 with (2 ^ 31). change 0x100000000 with (2 ^ 32).
  destruct (Z.leb_spec (2 ^ 31) u), (Z.ltb_spec u (2 ^ 31)); (done || lia).
Qed.

Lemma hex_unsigned_app (a b : string) :
  forall acc,
    hex_unsigned (a ++ b) acc
    = match hex_unsigned a acc with
      | Some x => hex_unsigned b x
      | None => None
      end.
Proof.
  induction a as [|c a IH]; intros acc; simpl; [done|].
  destruct (hex_digit c); [apply IH | done].
Qed.

Lemma hex_digit_char (d : Z) : 0 <= d < 16 -> hex_digit (hex_char d) = Some d.
Proof.
  intros Hd. rewrite <- (Z2Nat.id d) by lia.
  assert (Hlt : (Z.to_nat d < 16)%nat) by lia.
  generalize dependent (Z.to_nat d). clear Hd.
  intros n Hlt.
  do 16 (destruct n as [|n]; [reflexivity|]). lia.
Qed.

Lemma hex_unsigned_digits (n : nat) :
  forall u acc,
    0 <= u ->
    hex_unsigned (hex_digits n u) acc = Some (acc * 16 ^ Z.of_nat n
                                              + u mod 16 ^ Z.of_nat n).
Proof.
  induction n as [|n IH]; intros u acc Hu.
  - simpl. rewrite Z.mod_1_r. f_equal. lia.
  - cbn [hex_digits]. rewrite hex_unsigned_app.
    rewrite IH by (apply Z.div_pos; lia).
    cbn [hex_unsigned].
    rewrite hex_digit_char by (apply Z.mod_pos_bound; lia).
    f_equal. rewrite Nat2Z.inj_succ, Z.pow_succ_r by lia.
    rewrite (Z.rem_mul_r u 16 (16 ^ Z.of_nat n)) by lia. lia.
Qed.

Lemma hex_digits_nonempty (n : nat) (u : Z) :
  hex_digits (S n) u <> EmptyString.
Proof.
  cbn [hex_digits]. by destruct (hex_digits n (u / 16)).
Qed.

Lemma convert_hex_to_int_encode (v : Z) :
  - 2 ^ 31 <= v < 2 ^ 31 ->
  convert_hex_to_int (twos_complement_hex32 v) = Ok v.
Proof.
  intros Hv. unfold twos_complement_hex32.
  assert (Hu : 0 <= v mod 2 ^ 32 < 2 ^ 32) by (apply Z.mod_pos_bound; lia).
  rewrite (convert_hex_to_int_digits _ (v mod 2 ^ 32)).
  - f_equal. destruct (Z.ltb_spec (v mod 2 ^ 32) (2 ^ 31)) as [Hlt|Hge].
    + destruct (Z.lt_ge_cases v 0) as [Hneg|Hpos].
      * replace v with (v + 2 ^ 32 - 1 * 2 ^ 32) in Hlt by lia.
        rewrite Zminus_mod, Z_mod_mult, Z.sub_0_r, Z.mod_mod in Hlt by lia.
        rewrite Z.mod_small in Hlt; lia.
      * apply Z.mod_small. lia.
    + destruct (Z.lt_ge_cases v 0) as [Hneg|Hpos].
      * replace v with (v + 2 ^ 32 - 1 * 2 ^ 32) at 1 by lia.
        rewrite Zminus_mod, Z_mod_mult, Z.sub_0_r, Z.mod_mod by lia.
        rewrite Z.mod_small; lia.
      * rewrite Z.mod_small in Hge; lia.
  - apply hex_digits_nonempty.
  - rewrite hex_unsigned_digits by lia.
    change (16 ^ Z.of_nat 8) with (2 ^ 32).
    rewrite Z.mod_mod by lia. f_equal.
Qed.

(** C2.  For a string ["0x"] followed by hexadecimal digits that denote an
    unsigned 32-bit pattern [u], [convert_hex_to_int] returns [u] when
    [u < 2^31] and [u - 2^32] otherwise; the result is negative exactly
    when [u >= 0x80000000] and non-negative exactly when
    [u < 0x80000000]; and the result is the signed value whose 32-bit
    two's-complement encoding is [u]: encoding it and decoding again gives
    it back. *)
Theorem convert_hex_to_int_twos_complement (ds : string) (u : Z) :
  ds <> EmptyString -> hex_unsigned ds 0 = Some u -> u < 2 ^ 32 ->
  let v := if u <? 2 ^ 31 then u else u - 2 ^ 32 in
  convert_hex_to_int ("0x" ++ ds) = Ok v
  /\ (v < 0 <-> 0x80000000 <= u)
  /\ (0 <= v <-> u < 0x80000000)
  /\ - 2 ^ 31 <= v < 2 ^ 31
  /\ v mod 2 ^ 32 = u
  /\ convert_hex_to_int (twos_complement_hex32 v) = Ok v.
Proof.
  intros Hne H Hu v.
  pose proof (hex_unsigned_lower _ _ _ H (Z.le_refl 0)) as H0.
  assert (Hr : - 2 ^ 31 <= v < 2 ^ 31).
  { subst v. destruct (Z.ltb_spec u (2 ^ 31)); lia. }
  split; [by apply convert_hex_to_int_digits|].
  change 0x80000000 with (2 ^ 31).
  repeat split; try (subst v; destruct (Z.ltb_spec u (2 ^ 31)); lia).
  - subst v. destruct (Z.ltb_spec u (2 ^ 31)).
    + apply Z.mod_small; lia.
    + replace (u - 2 ^ 32) with (u + (-1) * 2 ^ 32) by lia.
      rewrite Z_mod_plus_full. apply Z.mod_small; lia.
  - by apply convert_hex_to_int_encode.
Qed.

Lemma convert_hex_to_int_twos_complement_witness :
  convert_hex_to_int "0xfffffc18" = Ok (-1000)
  /\ convert_hex_to_int (twos_complement_hex32 (-1000)) = Ok (-1000).
Proof.
  pose proof (convert_hex_to_int_twos_complement "fffffc18" 0xfffffc18) as H.
  destruct H as (H1 & _ & _ & _ & _ & H2);
    [discriminate | reflexivity | reflexivity |].
  split; [exact H1 | exact H2].
Defined.

(** ** Section parsers in closed form *)

Lemma nonzero_or_one_nonzero (x : Z) : nonzero_or_one x <> 0.
Proof. unfold nonzero_or_one. destruct (Z.eqb_spec x 0); lia. Qed.

Lemma truediv_nonzero_or_one (a d : Z) :
  truediv a (nonzero_or_one d)
  = Ok (inject_Z a / inject_Z (nonzero_or_one d))%Q.
Proof.
  unfold truediv.
  destruct (Z.eqb_spec (nonzero_or_one d) 0) as [H|]; [|done].
  by apply nonzero_or_one_nonzero in H.
Qed.

Lemma out_of_range_test (v : Q) :
  Qgtb v (inject_Z 1000) || Qgtb (inject_Z (-1000)) v = true
  <-> ~ within_bound v.
Proof.
  unfold Qgtb, within_bound.
  destruct (Qle_bool v (inject_Z 1000)) eqn:Hhi;
    destruct (Qle_bool (inject_Z (-1000)) v) eqn:Hlo; simpl.
  - apply Qle_bool_iff in Hhi, Hlo. split; [done | tauto].
  - split; [|done]. intros _ [Hl _]. apply Qle_bool_iff in Hl. congruence.
  - split; [|done]. intros _ [_ Hh]. apply Qle_bool_iff in Hh. congruence.
  - split; [|done]. intros _ [_ Hh]. apply Qle_bool_iff in Hh. congruence.
Qed.

Lemma demand_absent (self : EagleParse) :
  ET.find_descendant (root self) "InstantaneousDemand" = None ->
  _parse_instantaneous_demand self = Ok self.
Proof. intros H. unfold _parse_instantaneous_demand. by rewrite H. Qed.

Lemma demand_decoded (self : EagleParse) (raw m d ts : Z) :
  demand_fields (root self) raw m d ts ->
  _parse_instantaneous_demand self
  = if Qgtb (scaled raw m d) (inject_Z 1000)
       || Qgtb (inject_Z (-1000)) (scaled raw m d)
    then Err (DemandOutOfRange (scaled raw m d) (nonzero_or_one m)
                (nonzero_or_one d) (utc2000_to_epoch ts) (raw_xml self))
    else Ok (set_metric (set_timestamp self (utc2000_to_epoch ts))
               "instantaneous_demand"
               {["demand" := PyFloat (scaled raw m d)]}).
Proof.
  intros (sec & Hs & Hraw & Hm & Hd & Hts).
  unfold _parse_instantaneous_demand.
  rewrite Hs, Hraw, Hm, Hd, Hts. cbn [rbind].
  rewrite truediv_nonzero_or_one. cbn [rbind]. reflexivity.
Qed.

Lemma summation_absent (self : EagleParse) :
  summation_section (root self) = None ->
  _parse_current_summation self = Ok self.
Proof.
  unfold summation_section, _parse_current_summation. by intros ->.
Qed.

Lemma summation_decoded (self : EagleParse) (sd sr m d ts : Z) :
  summation_fields (root self) sd sr m d ts ->
  _parse_current_summation self
  = Ok (set_metric (set_timestamp self (utc2000_to_epoch ts))
          "current_summation"
          (<["summation_delivered" := PyFloat (scaled sd m d)]>
             {["summation_received" := PyFloat (scaled sr m d)]})).
Proof.
  intros (sec & Hs & Hsd & Hsr & Hm & Hd & Hts).
  unfold summation_section in Hs. unfold _parse_current_summation.
  rewrite Hs, Hsd, Hsr, Hm, Hd, Hts. cbn [rbind].
  rewrite !truediv_nonzero_or_one. cbn [rbind]. reflexivity.
Qed.

Lemma demand_frame (self p : EagleParse) :
  _parse_instantaneous_demand self = Ok p ->
  root p = root self /\ _labels p = _labels self /\ _state p = _state self
  /\ raw_xml p = raw_xml self.
Proof.
  unfold _parse_instantaneous_demand.
  destruct (ET.find_descendant _ _); [|by intros [= <-]].
  repeat step_bind; try discriminate.
  destruct (_ || _); [discriminate|]. by intros [= <-].
Qed.

Lemma summation_frame (self p : EagleParse) :
  _parse_current_summation self = Ok p ->
  root p = root self /\ _labels p = _labels self /\ _state p = _state self
  /\ raw_xml p = raw_xml self.
Proof.
  unfold _parse_current_summation.
  destruct (ET.or_else _ _); [|by intros [= <-]].
  repeat step_bind; try discriminate. by intros [= <-].
Qed.

(** The exceptions a missing or unreadable sub-field can raise. *)
Lemma field_hex_error (sec : Element) (name : string) (e : exn) :
  field_hex sec name = Err e ->
  e = AttributeError \/ e = TypeError \/ e = ValueError.
Proof.
  unfold field_hex, convert_hex_to_int.
  destruct (ET.find _ _); [|intros [= <-]; tauto].
  destruct (text _); [|intros [= <-]; tauto].
  destruct (Py.int _ _); [|intros [= <-]; tauto].
  by destruct (_ <=? _).
Qed.

Lemma field_int16_error (sec : Element) (name : string) (e : exn) :
  field_int16 sec name = Err e ->
  e = AttributeError \/ e = TypeError \/ e = ValueError.
Proof.
  unfold field_int16.
  destruct (ET.find _ _); [|intros [= <-]; tauto].
  destruct (text _); [|intros [= <-]; tauto].
  destruct (Py.int _ _); [done | intros [= <-]; tauto].
Qed.

Lemma demand_error_cases (self : EagleParse) (e : exn) :
  _parse_instantaneous_demand self = Err e ->
  (e = AttributeError \/ e = TypeError \/ e = ValueError)
  \/ exists raw m d ts,
      demand_fields (root self) raw m d ts
      /\ ~ within_bound (scaled raw m d)
      /\ e = DemandOutOfRange (scaled raw m d) (nonzero_or_one m)
               (nonzero_or_one d) (utc2000_to_epoch ts) (raw_xml self).
Proof.
  intros H.
  destruct (ET.find_descendant (root self) "InstantaneousDemand")
    as [sec|] eqn:Hs; [|by rewrite demand_absent in H].
  destruct (field_hex sec "Demand") as [raw|e1] eqn:Hraw.
  2:{ unfold _parse_instantaneous_demand in H. rewrite Hs, Hraw in H.
      injection H as <-. left. by eapply field_hex_error. }
  destruct (field_hex sec "Multiplier") as [m|e1] eqn:Hm.
  2:{ unfold _parse_instantaneous_demand in H. rewrite Hs, Hraw, Hm in H.
      injection H as <-. left. by eapply field_hex_error. }
  destruct (field_hex sec "Divisor") as [d|e1] eqn:Hd.
  2:{ unfold _parse_instantaneous_demand in H.
      rewrite Hs, Hraw, Hm, Hd in H.
      injection H as <-. left. by eapply field_hex_error. }
  destruct (field_int16 sec "TimeStamp") as [ts|e1] eqn:Hts.
  2:{ unfold _parse_instantaneous_demand in H.
      rewrite Hs, Hraw, Hm, Hd, Hts in H.
      injection H as <-. left. by eapply field_int16_error. }
  assert (Hf : demand_fields (root self) raw m d ts) by (by exists sec).
  rewrite (demand_decoded _ _ _ _ _ Hf) in H.
  destruct (_ || _) eqn:Hout; [|discriminate].
  injection H as <-. right. exists raw, m, d, ts.
  split; [done|]. split; [by apply out_of_range_test | done].
Qed.

Lemma summation_error_cases (self : EagleParse) (e : exn) :
  _parse_current_summation self = Err e ->
  e = AttributeError \/ e = TypeError \/ e = ValueError.
Proof.
  intros H.
  destruct (summation_section (root self)) as [sec|] eqn:Hs;
    [|by rewrite summation_absent in H].
  unfold summation_section in Hs. unfold _parse_current_summation in H.
  rewrite Hs in H.
  destruct (field_hex sec "SummationDelivered") as [sd|e1] eqn:Hsd;
    cbn [rbind] in H;
    [|injection H as <-; by eapply field_hex_error].
  destruct (field_hex sec "SummationReceived") as [sr|e1] eqn:Hsr;
    cbn [rbind] in H;
    [|injection H as <-; by eapply field_hex_error].
  destruct (field_hex sec "Multiplier") as [m|e1] eqn:Hm;
    cbn [rbind] in H;
    [|injection H as <-; by eapply field_hex_error].
  destruct (field_hex sec "Divisor") as [d|e1] eqn:Hd;
    cbn [rbind] in H;
    [|injection H as <-; by eapply field_hex_error].
  destruct (field_int16 sec "TimeStamp") as [ts|e1] eqn:Hts;
    cbn [rbind] in H;
    [|injection H as <-; by eapply field_int16_error].
  rewrite !truediv_nonzero_or_one in H. discriminate.
Qed.

Lemma device_info_result (self : EagleParse) (reg : gmap string Entry) :
  (exists reg', _parse_device_info self reg = (reg', Ok self))
  \/ (_parse_device_info self reg = (reg, Err AttributeError)
      /\ _state self = None)
  \/ (exists reg', _parse_device_info self reg = (reg', Err TypeError)
      /\ _labels self = None).
Proof.
  unfold _parse_device_info.
  destruct (ET.find_descendant _ _); [|eauto].
  destruct (_state self); [|eauto].
  destruct (_labels self); eauto.
Qed.

Lemma network_info_frame (self p : EagleParse) (reg reg' : gmap string Entry) :
  _parse_network_info self reg = (reg', Ok p) ->
  root p = root self /\ _labels p = _labels self /\ _state p = _state self
  /\ raw_xml p = raw_xml self /\ timestamp p = timestamp self.
Proof.
  unfold _parse_network_info.
  destruct (ET.find_descendant _ _); [|by intros [= <- <-]].
  destruct (_state self) eqn:Hst; [|discriminate].
  destruct (ET.text_or_default _ _); [|by intros [= <- <-]].
  destruct (Py.int _ _); [|discriminate]. by intros [= <- <-].
Qed.

Lemma network_info_error (self : EagleParse) (reg reg' : gmap string Entry)
      (e : exn) :
  _parse_network_info self reg = (reg', Err e) ->
  e = AttributeError \/ e = ValueError.
Proof.
  unfold _parse_network_info.
  destruct (ET.find_descendant _ _); [|discriminate].
  destruct (_state self); [|intros [= <- <-]; tauto].
  destruct (ET.text_or_default _ _); [|discriminate].
  destruct (Py.int _ _); [discriminate | intros [= <- <-]; tauto].
Qed.

(** Only the demand section raises the sanity-check exception, and [parse]
    passes it on with the registry as it found it. *)
Lemma parse_demand_error (self : EagleParse) (reg reg' : gmap string Entry)
      (e : exn) :
  parse self reg = (reg', Err e) -> is_demand_error e ->
  _parse_instantaneous_demand self = Err e /\ reg' = reg.
Proof.
  unfold parse. intros H He.
  destruct (_parse_instantaneous_demand self) as [p1|e1] eqn:H1;
    [|by injection H as <- <-].
  destruct (_parse_current_summation p1) as [p2|e2] eqn:H2.
  2:{ injection H as <- <-.
      destruct (summation_error_cases _ _ H2) as [-> | [-> | ->]]; done. }
  destruct (device_info_result p2 reg)
    as [[r3 H3]|[[H3 _]|[r3 [H3 _]]]]; rewrite H3 in H.
  - destruct (network_info_error _ _ _ _ H) as [-> | ->]; done.
  - by injection H as <- <-.
  - by injection H as <- <-.
Qed.

(** ** Quotients of 32-bit operands *)

(** A quotient of integers as one fraction with a positive denominator. *)
Lemma quotient_forms (n d : Z) :
  d <> 0 ->
  (inject_Z n / inject_Z d == Qmake (n * Z.sgn d) (Z.to_pos (Z.abs d)))%Q.
Proof.
  intros Hd. destruct d as [|p|p]; [done| |];
    unfold Qdiv, Qmult, Qinv, Qeq, inject_Z; simpl; lia.
Qed.

Lemma nonzero_or_one_int32 (a : Z) : int32 a -> int32 (nonzero_or_one a).
Proof. unfold nonzero_or_one, int32. destruct (a =? 0); lia. Qed.

(** With a 32-bit divisor a quotient outside the bound misses it by at
    least 2^-31, far more than the spacing 2^-43 of the binary64 numbers
    next to 1000: the rounded quotient is outside as well, and a quotient
    inside rounds to a number inside, 1000 and -1000 being binary64
    numbers. *)
Lemma scaled_margin (raw m d : Z) :
  int32 d -> ~ within_bound (scaled raw m d) ->
  (inject_Z 1000 + (1 # 2 ^ 31) <= scaled raw m d
   \/ scaled raw m d <= inject_Z (-1000) - (1 # 2 ^ 31))%Q.
Proof.
  intros Hd Hout. unfold scaled in *.
  apply nonzero_or_one_int32 in Hd.
  pose proof (nonzero_or_one_nonzero d) as Hnz.
  generalize dependent (nonzero_or_one d). intros d' Hd' Hout Hnz.
  generalize dependent (raw * nonzero_or_one m). intros n Hout.
  unfold int32 in Hd'.
  destruct (Qlt_le_dec (inject_Z 1000) (inject_Z n / inject_Z d')) as [Hhi|Hhi].
  - left. rewrite quotient_forms in * by done.
    unfold Qlt, Qle, Qplus, inject_Z in *. simpl in *.
    destruct d' as [|p|p]; [done| |]; simpl in *; lia.
  - destruct (Qlt_le_dec (inject_Z n / inject_Z d') (inject_Z (-1000)))
      as [Hlo|Hlo].
    + right. rewrite quotient_forms in * by done.
      unfold Qlt, Qle, Qminus, Qplus, Qopp, inject_Z in *. simpl in *.
      destruct d' as [|p|p]; [done| |]; simpl in *; lia.
    + destruct Hout. by split.
Qed.

(** With a 32-bit divisor a non-zero raw reading gives a quotient of
    magnitude at least 2^-31, a normal binary64 number: the rounded
    quotient is not zero either. *)
Lemma scaled_nonzero_margin (raw m d : Z) :
  int32 d -> raw <> 0 ->
  ((1 # 2 ^ 31) <= scaled raw m d \/ scaled raw m d <= - (1 # 2 ^ 31))%Q.
Proof.
  intros Hd Hraw. unfold scaled.
  apply nonzero_or_one_int32 in Hd.
  pose proof (nonzero_or_one_nonzero d) as Hnz.
  pose proof (nonzero_or_one_nonzero m) as Hm.
  assert (Hn : raw * nonzero_or_one m <> 0) by lia.
  generalize dependent (nonzero_or_one d). intros d' Hd' Hnz.
  generalize dependent (raw * nonzero_or_one m). intros n Hn.
  unfold int32 in Hd'.
  destruct (Z_lt_le_dec 0 (n * Z.sgn d')) as [Hpos|Hneg].
  - left. rewrite quotient_forms by done. unfold Qle. simpl.
    destruct d' as [|p|p]; [done| |]; simpl in *; lia.
  - right. rewrite quotient_forms by done. unfold Qle, Qopp. simpl.
    destruct d' as [|p|p]; [done| |]; simpl in *; lia.
Qed.

(** With a 32-bit reading and multiplier the quotient is at most 2^62 in
    magnitude, far inside the binary64 range: the division cannot
    overflow. *)
Lemma scaled_magnitude (raw m d : Z) :
  int32 raw -> int32 m ->
  (inject_Z (- 2 ^ 62) <= scaled raw m d <= inject_Z (2 ^ 62))%Q.
Proof.
  intros Hraw Hm. unfold scaled.
  apply nonzero_or_one_int32 in Hm.
  pose proof (nonzero_or_one_nonzero d) as Hnz.
  generalize dependent (nonzero_or_one d). intros d' Hnz.
  assert (Hn : - 2 ^ 62 <= raw * nonzero_or_one m <= 2 ^ 62)
    by (unfold int32 in *; nia).
  generalize dependent (raw * nonzero_or_one m). intros n Hn.
  rewrite quotient_forms by done. unfold Qle, inject_Z. simpl.
  destruct d' as [|p|p]; [done| |]; simpl in *; nia.
Qed.

(** ** The demand sanity bound *)

(** C4.  For a payload whose instantaneous-demand section decodes to the
    signed 32-bit values [raw], [m] and [d] and to the timestamp [ts],
    decoding fails with the out-of-range exception if and only if
    [raw * m / d], after zero-defaulting of [m] and [d], lies outside the
    closed interval from -1000 to 1000; the failure happens before the
    demand metric is stored, so nothing is published; inside the interval
    the metric is recorded; and a summation section of signed 32-bit
    values is accepted whatever these values are.  For such operands the
    quotient is at most 2^62 in magnitude and, when outside the interval,
    outside by at least 2^-31, so that the binary64 number Python computes
    exists and lies on the same side of both bounds. *)
Theorem demand_sanity_bound (self : EagleParse) (reg : gmap string Entry)
        (raw m d ts : Z) :
  demand_fields (root self) raw m d ts ->
  int32 raw -> int32 m -> int32 d ->
  let v := scaled raw m d in
  let err := DemandOutOfRange v (nonzero_or_one m) (nonzero_or_one d)
               (utc2000_to_epoch ts) (raw_xml self) in
  ((exists reg' e, parse self reg = (reg', Err e) /\ is_demand_error e)
   <-> ~ within_bound v)
  /\ (~ within_bound v ->
      _parse_instantaneous_demand self = Err err
      /\ publish self reg = (reg, Err err))
  /\ (within_bound v ->
      exists p, _parse_instantaneous_demand self = Ok p
                /\ _metric p !! "instantaneous_demand"
                   = Some {["demand" := PyFloat v]})
  /\ (forall self' sd sr m' d' ts',
        summation_fields (root self') sd sr m' d' ts' ->
        int32 sd -> int32 sr -> int32 m' -> int32 d' ->
        (exists p, _parse_current_summation self' = Ok p
                   /\ _metric p !! "current_summation"
                      = Some (<["summation_delivered"
                                := PyFloat (scaled sd m' d')]>
                                {["summation_received"
                                  := PyFloat (scaled sr m' d')]}))
        /\ (inject_Z (- 2 ^ 62) <= scaled sd m' d' <= inject_Z (2 ^ 62))%Q
        /\ (inject_Z (- 2 ^ 62) <= scaled sr m' d' <= inject_Z (2 ^ 62))%Q)
  /\ (~ within_bound v ->
      (inject_Z 1000 + (1 # 2 ^ 31) <= v
       \/ v <= inject_Z (-1000) - (1 # 2 ^ 31))%Q)
  /\ (inject_Z (- 2 ^ 62) <= v <= inject_Z (2 ^ 62))%Q.
Proof.
  intros Hf Hraw Hm Hdiv v err.
  pose proof (demand_decoded _ _ _ _ _ Hf) as Hd. fold v in Hd. fold err in Hd.
  assert (Hout : ~ within_bound v ->
                 _parse_instantaneous_demand self = Err err
                 /\ publish self reg = (reg, Err err)).
  { intros Hv. apply out_of_range_test in Hv. rewrite Hv in Hd.
    split; [done|]. unfold publish, parse. by rewrite Hd. }
  split; [split|split; [|split; [|split; [|split]]]].
  - intros (reg' & e & Hp & He).
    destruct (parse_demand_error _ _ _ _ Hp He) as [H1 _].
    destruct (demand_error_cases _ _ H1)
      as [[-> | [-> | ->]]|(raw' & m0 & d0 & ts0 & _ & _ & ->)];
      try done.
    intros Hin. rewrite Hd in H1.
    destruct (_ || _) eqn:Ht; [|discriminate].
    by apply out_of_range_test in Ht.
  - intros Hv. exists reg, err. split; [|done].
    destruct (Hout Hv) as [H1 _]. unfold parse. by rewrite H1.
  - exact Hout.
  - intros Hv. destruct (_ || _) eqn:Ht in Hd.
    + by apply out_of_range_test in Ht.
    + eexists. split; [exact Hd|]. cbn. apply lookup_insert_eq.
  - intros self' sd sr m' d' ts' Hs Hsd Hsr Hm' _.
    split; [|split; by apply scaled_magnitude].
    eexists. split; [by apply summation_decoded|]. cbn.
    apply lookup_insert_eq.
  - by apply scaled_margin.
  - by apply scaled_magnitude.
Qed.

Lemma demand_sanity_bound_witness :
  publish (Sample.parser Sample.doc_demand_2000) Sample.reg_new
  = (Sample.reg_new,
     Err (DemandOutOfRange (scaled 2000 1 1) 1 1
            (utc2000_to_epoch 0x2b3c4d5e) "")).
Proof.
  assert (Hf : demand_fields (root (Sample.parser Sample.doc_demand_2000))
                             2000 1 1 0x2b3c4d5e).
  { eexists. repeat split; reflexivity. }
  apply (demand_sanity_bound _ Sample.reg_new _ _ _ _ Hf);
    [unfold int32; lia | unfold int32; lia | unfold int32; lia |].
  intros [_ Hhi]. vm_compute in Hhi. by apply Hhi.
Defined.

(** ** Zero multiplier and divisor *)

Lemma nonzero_or_one_zero_one (a b : Z) :
  zero_read_as_one a b -> nonzero_or_one a = nonzero_or_one b.
Proof. by intros [-> | [-> ->]]. Qed.

Lemma scaled_zero_one (raw m d m' d' : Z) :
  zero_read_as_one m m' -> zero_read_as_one d d' ->
  scaled raw m d = scaled raw m' d'.
Proof.
  intros Hm Hd. unfold scaled.
  by rewrite (nonzero_or_one_zero_one _ _ Hm), (nonzero_or_one_zero_one _ _ Hd).
Qed.

Lemma inject_Z_nonzero (a : Z) : a <> 0 -> ~ (inject_Z a == 0)%Q.
Proof. unfold Qeq. simpl. lia. Qed.

Lemma scaled_nonzero (raw m d : Z) : raw <> 0 -> ~ (scaled raw m d == 0)%Q.
Proof.
  intros Hraw H0. unfold scaled in H0.
  pose proof (nonzero_or_one_nonzero m) as Hm.
  pose proof (nonzero_or_one_nonzero d) as Hd.
  apply (inject_Z_nonzero (raw * nonzero_or_one m)); [lia|].
  rewrite <- (Qmult_div_r (inject_Z (raw * nonzero_or_one m))
                          (inject_Z (nonzero_or_one d)))
    by (by apply inject_Z_nonzero).
  rewrite H0. apply Qmult_0_r.
Qed.

Lemma section_parsers_never_divide_by_zero (self : EagleParse) :
  _parse_instantaneous_demand self <> Err ZeroDivisionError
  /\ _parse_current_summation self <> Err ZeroDivisionError.
Proof.
  split; intros H.
  - destruct (demand_error_cases _ _ H)
      as [[? | [? | ?]]|(? & ? & ? & ? & _ & _ & ?)]; discriminate.
  - destruct (summation_error_cases _ _ H) as [? | [? | ?]]; discriminate.
Qed.

(** C5.  In a demand section and in a summation section alike, a
    multiplier or a divisor that decodes to 0 is read as 1, each on its
    own, before [raw * multiplier / divisor] is computed: a document whose
    multiplier or divisor is 0 gives the same metrics, timestamp or
    exception as the document that has 1 in its place; neither section
    parser ever raises a division by zero; and for signed 32-bit readings,
    multipliers and divisors the value recorded is that quotient, the
    summation section is accepted, and a non-zero raw reading never gives
    the value zero: its quotient is at least 2^-31 and at most 2^62 in
    magnitude, so that the binary64 number Python computes exists and is
    not zero either. *)
Theorem zero_scale_reads_as_one :
  (forall (self : EagleParse) (root' : Element) raw m d m' d' ts,
      demand_fields (root self) raw m d ts ->
      demand_fields root' raw m' d' ts ->
      zero_read_as_one m m' -> zero_read_as_one d d' ->
      outcome (_parse_instantaneous_demand self)
      = outcome (_parse_instantaneous_demand (set_root self root')))
  /\ (forall (self : EagleParse) (root' : Element) sd sr m d m' d' ts,
      summation_fields (root self) sd sr m d ts ->
      summation_fields root' sd sr m' d' ts ->
      zero_read_as_one m m' -> zero_read_as_one d d' ->
      outcome (_parse_current_summation self)
      = outcome (_parse_current_summation (set_root self root')))
  /\ (forall self : EagleParse,
      _parse_instantaneous_demand self <> Err ZeroDivisionError
      /\ _parse_current_summation self <> Err ZeroDivisionError)
  /\ (forall (self p : EagleParse) raw m d ts,
      demand_fields (root self) raw m d ts ->
      int32 raw -> int32 m -> int32 d ->
      _parse_instantaneous_demand self = Ok p ->
      let v := (inject_Z (raw * (if m =? 0 then 1 else m))
                / inject_Z (if d =? 0 then 1 else d))%Q in
      _metric p !! "instantaneous_demand" = Some {["demand" := PyFloat v]}
      /\ (raw <> 0 ->
          ~ (v == 0)%Q /\ ((1 # 2 ^ 31) <= v \/ v <= - (1 # 2 ^ 31))%Q)
      /\ (inject_Z (- 2 ^ 62) <= v <= inject_Z (2 ^ 62))%Q)
  /\ (forall (self : EagleParse) sd sr m d ts,
      summation_fields (root self) sd sr m d ts ->
      int32 sd -> int32 sr -> int32 m -> int32 d ->
      let value x := (inject_Z (x * (if m =? 0 then 1 else m))
                / inject_Z (if d =? 0 then 1 else d))%Q in
      exists p,
        _parse_current_summation self = Ok p
        /\ _metric p !! "current_summation"
           = Some (<["summation_delivered" := PyFloat (value sd)]>
                     {["summation_received" := PyFloat (value sr)]})
        /\ (forall x, x = sd \/ x = sr ->
            (x <> 0 ->
             ~ (value x == 0)%Q
             /\ ((1 # 2 ^ 31) <= value x \/ value x <= - (1 # 2 ^ 31))%Q)
            /\ (inject_Z (- 2 ^ 62) <= value x <= inject_Z (2 ^ 62))%Q)).
Proof.
  split; [|split; [|split; [|split]]].
  - intros self root' raw m d m' d' ts H1 H2 Hm Hd.
    rewrite (demand_decoded _ _ _ _ _ H1).
    rewrite (demand_decoded (set_root self root') _ _ _ _ H2).
    rewrite (scaled_zero_one raw m d m' d' Hm Hd).
    rewrite (nonzero_or_one_zero_one _ _ Hm), (nonzero_or_one_zero_one _ _ Hd).
    by destruct (_ || _).
  - intros self root' sd sr m d m' d' ts H1 H2 Hm Hd.
    rewrite (summation_decoded _ _ _ _ _ _ H1).
    rewrite (summation_decoded (set_root self root') _ _ _ _ _ H2).
    by rewrite (scaled_zero_one sd m d m' d' Hm Hd),
      (scaled_zero_one sr m d m' d' Hm Hd).
  - apply section_parsers_never_divide_by_zero.
  - intros self p raw m d ts Hf Hraw Hm Hdiv Hp v.
    rewrite (demand_decoded _ _ _ _ _ Hf) in Hp.
    destruct (_ || _); [discriminate|]. injection Hp as <-.
    split; [cbn; apply lookup_insert_eq|].
    split; [|by apply (scaled_magnitude raw m d)].
    intros Hnz. split; [by apply scaled_nonzero|].
    by apply (scaled_nonzero_margin raw m d).
  - intros self sd sr m d ts Hf Hsd Hsr Hm Hdiv value.
    eexists. split; [by apply summation_decoded|].
    split; [cbn; apply lookup_insert_eq|].
    intros x Hx.
    assert (Hx32 : int32 x) by (by destruct Hx as [-> | ->]).
    split; [|by apply (scaled_magnitude x m d)].
    intros Hnz. split; [by apply scaled_nonzero|].
    by apply (scaled_nonzero_margin x m d).
Qed.

Lemma zero_scale_reads_as_one_witness :
  outcome (_parse_instantaneous_demand
             (Sample.parser Sample.doc_demand_zero_scale))
  = outcome (_parse_instantaneous_demand
               (Sample.parser Sample.doc_demand_one_scale)).
Proof.
  apply (proj1 zero_scale_reads_as_one
               (Sample.parser Sample.doc_demand_zero_scale)
               Sample.doc_demand_one_scale 5 0 0 1 1 0x2b3c4d5e).
  - eexists. repeat split; reflexivity.
  - eexists. repeat split; reflexivity.
  - right. split; reflexivity.
  - right. split; reflexivity.
Defined.

(** ** Timestamps *)

Lemma demand_timestamp (self p : EagleParse) :
  _parse_instantaneous_demand self = Ok p ->
  match ET.find_descendant (root self) "InstantaneousDemand" with
  | Some sec =>
      exists ts, field_int16 sec "TimeStamp" = Ok ts
                 /\ timestamp p = utc2000_to_epoch ts
  | None => timestamp p = timestamp self
  end.
Proof.
  unfold _parse_instantaneous_demand.
  destruct (ET.find_descendant _ _) as [sec|]; [|by intros [= <-]].
  repeat step_bind; try discriminate.
  destruct (_ || _); [discriminate|]. intros [= <-]. by eexists.
Qed.

Lemma summation_timestamp (self p : EagleParse) :
  _parse_current_summation self = Ok p ->
  match summation_section (root self) with
  | Some sec =>
      exists ts, field_int16 sec "TimeStamp" = Ok ts
                 /\ timestamp p = utc2000_to_epoch ts
  | None => timestamp p = timestamp self
  end.
Proof.
  unfold _parse_current_summation, summation_section.
  destruct (ET.or_else _ _) as [sec|]; [|by intros [= <-]].
  repeat step_bind; try discriminate. intros [= <-]. by eexists.
Qed.

(** A successful [parse] went through its four steps in order. *)
Lemma parse_ok_steps (self self' : EagleParse) (reg reg' : gmap string Entry) :
  parse self reg = (reg', Ok self') ->
  exists p1 p2 r3,
    _parse_instantaneous_demand self = Ok p1
    /\ _parse_current_summation p1 = Ok p2
    /\ _parse_device_info p2 reg = (r3, Ok p2)
    /\ _parse_network_info p2 r3 = (reg', Ok self').
Proof.
  unfold parse. intros H.
  destruct (_parse_instantaneous_demand self) as [p1|] eqn:H1;
    [|discriminate].
  destruct (_parse_current_summation p1) as [p2|] eqn:H2; [|discriminate].
  destruct (device_info_result p2 reg)
    as [[r3 H3]|[[H3 _]|[r3 [H3 _]]]]; rewrite H3 in H; try discriminate.
  by exists p1, p2, r3.
Qed.

Lemma parse_timestamp (self self' : EagleParse)
      (reg reg' : gmap string Entry) :
  parse self reg = (reg', Ok self') ->
  match summation_section (root self) with
  | Some sec =>
      exists ts, field_int16 sec "TimeStamp" = Ok ts
                 /\ timestamp self' = utc2000_to_epoch ts
  | None =>
      match ET.find_descendant (root self) "InstantaneousDemand" with
      | Some sec =>
          exists ts, field_int16 sec "TimeStamp" = Ok ts
                     /\ timestamp self' = utc2000_to_epoch ts
      | None => timestamp self' = timestamp self
      end
  end.
Proof.
  intros H.
  destruct (parse_ok_steps _ _ _ _ H) as (p1 & p2 & r3 & H1 & H2 & _ & H4).
  destruct (network_info_frame _ _ _ _ H4) as (_ & _ & _ & _ & Ht4).
  destruct (demand_frame _ _ H1) as (Hr1 & _).
  pose proof (demand_timestamp _ _ H1) as Hd.
  pose proof (summation_timestamp _ _ H2) as Hs.
  rewrite Hr1 in Hs. rewrite Ht4.
  destruct (summation_section (root self)); [done|].
  rewrite Hs. by destruct (ET.find_descendant (root self) _).
Qed.

Lemma bundle_timestamp (self : EagleParse) (reg reg' : gmap string Entry)
      m l t :
  get_metric_labels self reg = (reg', Ok (Bundle m l t)) ->
  t = timestamp self /\ m = _metric self.
Proof.
  unfold get_metric_labels.
  destruct (_labels self); [|discriminate].
  destruct (_state self); [|discriminate].
  destruct (reg !! _); [|discriminate].
  destruct (_ || _); [discriminate|].
  destruct (_ !! _); [|discriminate].
  by intros [= _ <- _ <-].
Qed.

(** C6.  After a successful [parse], the timestamp of the payload is
    [utc2000_to_epoch] of the [TimeStamp] of the summation section when
    there is one, else of the instantaneous-demand section when there is
    one (summation is parsed after demand, so it wins when both are
    there), else the document-level timestamp; and that is the timestamp
    the returned bundle carries. *)
Theorem section_timestamp_supersedes (self self' : EagleParse)
        (reg reg' : gmap string Entry) :
  parse self reg = (reg', Ok self') ->
  (forall sec,
      summation_section (root self) = Some sec ->
      exists ts, field_int16 sec "TimeStamp" = Ok ts
                 /\ timestamp self' = utc2000_to_epoch ts)
  /\ (summation_section (root self) = None ->
      forall sec,
        ET.find_descendant (root self) "InstantaneousDemand" = Some sec ->
        exists ts, field_int16 sec "TimeStamp" = Ok ts
                   /\ timestamp self' = utc2000_to_epoch ts)
  /\ (summation_section (root self) = None ->
      ET.find_descendant (root self) "InstantaneousDemand" = None ->
      timestamp self' = timestamp self)
  /\ (forall reg'' m l t,
        get_metric_labels self' reg' = (reg'', Ok (Bundle m l t)) ->
        t = timestamp self').
Proof.
  intros H. pose proof (parse_timestamp _ _ _ _ H) as Ht.
  repeat split.
  - intros sec Hsec. by rewrite Hsec in Ht.
  - intros Hnone sec Hsec. by rewrite Hnone, Hsec in Ht.
  - intros Hnone Hnone'. by rewrite Hnone, Hnone' in Ht.
  - intros reg'' m l t Hb. by apply bundle_timestamp in Hb as [-> _].
Qed.

Lemma section_timestamp_supersedes_witness :
  exists self',
    parse (Sample.parser Sample.doc_both) Sample.reg_ready
    = (Sample.reg_ready, Ok self')
    /\ timestamp self' = utc2000_to_epoch 0x20.
Proof.
  eexists. split; [reflexivity|].
  destruct (section_timestamp_supersedes
              (Sample.parser Sample.doc_both) _ Sample.reg_ready
              Sample.reg_ready eq_refl) as (Hs & _).
  destruct (Hs _ eq_refl) as (ts & Hts & ->).
  injection Hts as <-. reflexivity.
Defined.

(** ** Construction *)

(** What [__init__] does once the document is parsed and its timestamp
    attribute read. *)
Lemma init_parsed decode fromstring raw host now cfg
      (reg : gmap string Entry) s r n :
  decode raw = Some s -> fromstring s = Some r ->
  Py.int (Py.rstrip "s" (default "0" (attrib r !! "timestamp"))) 10
  = Some n ->
  exists reg1 self,
    __init__ decode fromstring raw host now cfg reg = (reg1, Ok self)
    /\ root self = r /\ raw_xml self = s /\ _metric self = ∅
    /\ timestamp self = (if n =? 0 then now else n)
    /\ _state self = _labels self
    /\ match _labels self with
       | None => reg1 = reg
       | Some k =>
           ET.text_or_default (ET.find_descendant r "DeviceMacId") None
           = Some k
           /\ is_Some (reg1 !! k)
           /\ (is_Some (reg !! k) -> reg1 = reg)
           /\ (reg !! k = None ->
               exists l, reg1 = <[k := mkEntry l (mkState false false)]> reg)
       end.
Proof.
  intros Hd Hf Hn. unfold __init__. rewrite Hd, Hf, Hn.
  destruct (ET.text_or_default _ _) as [k|]; [|by eexists _, _].
  destruct (String.eqb k ""); [by eexists _, _|].
  eexists _, _. split; [done|]. cbn. repeat split; try done.
  - destruct (reg !! k) eqn:Hk; [by rewrite Hk|]. by rewrite lookup_insert_eq.
  - by intros [e ->].
  - intros ->. by eexists.
Qed.

Lemma init_failure decode fromstring raw host now cfg
      (reg reg1 : gmap string Entry) e :
  __init__ decode fromstring raw host now cfg reg = (reg1, Err e) ->
  reg1 = reg.
Proof.
  unfold __init__.
  destruct (decode raw); [|by intros [= <-]].
  destruct (fromstring _); [|by intros [= <-]].
  destruct (Py.int _ _); [|by intros [= <-]].
  destruct (ET.text_or_default _ _); [|discriminate].
  by destruct (String.eqb _ _).
Qed.

(** C3, as the code has it.  When the root carries a timestamp attribute
    which, with its trailing [s] characters stripped, reads as the integer
    [n], the parser's timestamp is [n] itself, taken as Unix epoch seconds
    with no offset added, or the wall-clock time when [n] is 0; and
    [parse] keeps it when the document has neither a summation nor an
    instantaneous-demand section. *)
Theorem root_timestamp_epoch_seconds decode fromstring raw host now cfg
        (reg : gmap string Entry) s r a n :
  decode raw = Some s -> fromstring s = Some r ->
  attrib r !! "timestamp" = Some a ->
  Py.int (Py.rstrip "s" a) 10 = Some n ->
  exists reg1 self,
    __init__ decode fromstring raw host now cfg reg = (reg1, Ok self)
    /\ timestamp self = (if n =? 0 then now else n)
    /\ (forall reg2 self',
          parse self reg1 = (reg2, Ok self') ->
          summation_section r = None ->
          ET.find_descendant r "InstantaneousDemand" = None ->
          timestamp self' = (if n =? 0 then now else n)).
Proof.
  intros Hd Hf Ha Hn.
  destruct (init_parsed decode fromstring raw host now cfg reg s r n)
    as (reg1 & self & Hi & Hr & _ & _ & Ht & _); [done | done | |].
  { by rewrite Ha. }
  exists reg1, self. repeat split; [done | done |].
  intros reg2 self' Hp Hs Hdm.
  pose proof (parse_timestamp _ _ _ _ Hp) as Hpt.
  rewrite Hr, Hs, Hdm in Hpt. by rewrite Hpt.
Qed.

Lemma root_timestamp_epoch_seconds_witness :
  exists self,
    __init__ Sample.decode (Sample.fromstring Sample.doc_bare) []
             "10.0.0.7" 1762128000 ∅ ∅ = (∅, Ok self)
    /\ timestamp self = 1000000000.
Proof.
  destruct (root_timestamp_epoch_seconds
              Sample.decode (Sample.fromstring Sample.doc_bare) []
              "10.0.0.7" 1762128000 ∅ ∅ "" Sample.doc_bare
              "1000000000s" 1000000000)
    as (reg1 & self & Hi & Ht & _); try reflexivity.
  exists self. split; [|exact Ht].
  rewrite Hi. f_equal. vm_compute in Hi. by injection Hi as <- _.
Defined.

(** C3 as stated fails: the root timestamp ["1000000000s"] resolves to
    1000000000, not to 1000000000 + 946684800. *)
Lemma root_timestamp_offset_counterexample :
  exists self,
    __init__ Sample.decode (Sample.fromstring Sample.doc_bare) []
             "10.0.0.7" 1762128000 ∅ ∅ = (∅, Ok self)
    /\ attrib (root self) !! "timestamp" = Some "1000000000s"
    /\ Py.int (Py.rstrip "s" "1000000000s") 10 = Some 1000000000
    /\ parse self ∅ = (∅, Ok self)
    /\ timestamp self = 1000000000
    /\ timestamp self <> 1000000000 + 946684800.
Proof.
  eexists. split; [reflexivity|]. by repeat split.
Qed.

(** C10.  For a buffer that decodes and parses as XML, a root timestamp
    attribute that [int] does not accept once its trailing [s] characters
    are stripped makes the constructor raise [ValueError], the registry
    untouched; so a constructed parser had no timestamp attribute or one
    that reads as an integer.  ["12h"] and the empty value are such
    attributes. *)
Theorem init_requires_integer_timestamp decode fromstring raw host now cfg
        (reg : gmap string Entry) s r :
  decode raw = Some s -> fromstring s = Some r ->
  (forall a,
      attrib r !! "timestamp" = Some a ->
      Py.int (Py.rstrip "s" a) 10 = None ->
      __init__ decode fromstring raw host now cfg reg
      = (reg, Err ValueError))
  /\ (forall reg1 self,
        __init__ decode fromstring raw host now cfg reg = (reg1, Ok self) ->
        attrib r !! "timestamp" = None
        \/ exists a n, attrib r !! "timestamp" = Some a
                       /\ Py.int (Py.rstrip "s" a) 10 = Some n)
  /\ Py.int (Py.rstrip "s" "12h") 10 = None
  /\ Py.int (Py.rstrip "s" "") 10 = None.
Proof.
  intros Hd Hf. repeat split.
  - intros a Ha Hbad. unfold __init__. rewrite Hd, Hf, Ha.
    cbn [default from_option id].
    by rewrite Hbad.
  - intros reg1 self. unfold __init__. rewrite Hd, Hf.
    destruct (attrib r !! "timestamp") as [a|]; [|by left].
    cbn [default from_option id].
    destruct (Py.int _ _) as [n|] eqn:Hn; [|discriminate].
    intros _. right. by exists a, n.
Qed.

Lemma init_requires_integer_timestamp_witness :
  __init__ Sample.decode (Sample.fromstring Sample.doc_bad_timestamp) []
           "10.0.0.7" 1762128000 ∅ Sample.reg_new
  = (Sample.reg_new, Err ValueError).
Proof.
  apply (proj1 (init_requires_integer_timestamp
                  Sample.decode (Sample.fromstring Sample.doc_bad_timestamp)
                  [] "10.0.0.7" 1762128000 ∅ Sample.reg_new ""
                  Sample.doc_bad_timestamp eq_refl eq_refl) "12h");
    reflexivity.
Defined.

(** ** The registry *)

Lemma set_label_lookup (key k : string) (v : option string)
      (reg : gmap string Entry) (e : Entry) :
  reg !! key = Some e ->
  set_label key k v reg !! key
  = Some (mkEntry (<[k := v]> (labels e)) (state e)).
Proof. intros H. unfold set_label. by rewrite lookup_alter_eq, H. Qed.

Lemma set_device_info_received_lookup (key : string)
      (reg : gmap string Entry) (e : Entry) :
  reg !! key = Some e ->
  set_device_info_received key reg !! key
  = Some (mkEntry (labels e)
                  (mkState true (network_info_received (state e)))).
Proof.
  intros H. unfold set_device_info_received. by rewrite lookup_alter_eq, H.
Qed.

Lemma set_network_info_received_lookup (key : string)
      (reg : gmap string Entry) (e : Entry) :
  reg !! key = Some e ->
  set_network_info_received key reg !! key
  = Some (mkEntry (labels e)
                  (mkState (device_info_received (state e)) true)).
Proof.
  intros H. unfold set_network_info_received.
  by rewrite lookup_alter_eq, H.
Qed.

Lemma device_info_registry (p p' : EagleParse) (reg r3 : gmap string Entry)
      (k : string) (e : Entry) :
  _parse_device_info p reg = (r3, Ok p') ->
  _state p = Some k -> _labels p = Some k -> reg !! k = Some e ->
  match ET.find_descendant (root p) "DeviceInfo" with
  | None => r3 = reg
  | Some di =>
      r3 !! k
      = Some (mkEntry (device_info_labels di (labels e))
                (mkState true (network_info_received (state e))))
  end.
Proof.
  unfold _parse_device_info. intros H Hs Hl He.
  destruct (ET.find_descendant _ _) as [di|]; [|by injection H as <- _].
  rewrite Hs, Hl in H. injection H as <- _.
  pose proof (set_device_info_received_lookup _ _ _ He) as H1.
  pose proof (set_label_lookup k "fw_version"
    (ET.text_or_default (ET.find di "FWVersion") None) _ _ H1) as H2.
  pose proof (set_label_lookup k "hw_version"
    (ET.text_or_default (ET.find di "HWVersion") None) _ _ H2) as H3.
  pose proof (set_label_lookup k "manufacturer"
    (ET.text_or_default (ET.find di "Manufacturer") None) _ _ H3) as H4.
  pose proof (set_label_lookup k "model_id"
    (ET.text_or_default (ET.find di "ModelId") None) _ _ H4) as H5.
  exact H5.
Qed.

Lemma network_info_registry (p p' : EagleParse) (r3 r4 : gmap string Entry)
      (k : string) (e : Entry) :
  _parse_network_info p r3 = (r4, Ok p') ->
  _state p = Some k -> r3 !! k = Some e ->
  match ET.find_descendant (root p) "NetworkInfo" with
  | None => r4 = r3
  | Some _ =>
      r4 !! k
      = Some (mkEntry (labels e)
                      (mkState (device_info_received (state e)) true))
  end.
Proof.
  unfold _parse_network_info. intros H Hs He.
  destruct (ET.find_descendant _ _) as [ni|]; [|by injection H as <- _].
  rewrite Hs in H.
  pose proof (set_network_info_received_lookup _ _ _ He) as H1.
  destruct (ET.text_or_default _ _); [|by injection H as <- _].
  destruct (Py.int _ _); [|discriminate]. by injection H as <- _.
Qed.

(** The entry of the payload's device once [parse] has succeeded. *)
Lemma parse_registry (self self' : EagleParse) (reg reg' : gmap string Entry)
      (k : string) (e : Entry) :
  parse self reg = (reg', Ok self') ->
  _state self = Some k -> _labels self = Some k -> reg !! k = Some e ->
  root self' = root self /\ _labels self' = Some k /\ _state self' = Some k
  /\ exists e',
      reg' !! k = Some e'
      /\ labels e'
         = match ET.find_descendant (root self) "DeviceInfo" with
           | Some di => device_info_labels di (labels e)
           | None => labels e
           end
      /\ device_info_received (state e')
         = match ET.find_descendant (root self) "DeviceInfo" with
           | Some _ => true
           | None => device_info_received (state e)
           end
      /\ network_info_received (state e')
         = match ET.find_descendant (root self) "NetworkInfo" with
           | Some _ => true
           | None => network_info_received (state e)
           end.
Proof.
  intros H Hs Hl He.
  destruct (parse_ok_steps _ _ _ _ H) as (p1 & p2 & r3 & H1 & H2 & H3 & H4).
  destruct (demand_frame _ _ H1) as (Hr1 & Hl1 & Hs1 & _).
  destruct (summation_frame _ _ H2) as (Hr2 & Hl2 & Hs2 & _).
  destruct (network_info_frame _ _ _ _ H4) as (Hr4 & Hl4 & Hs4 & _).
  rewrite Hr1 in Hr2. rewrite Hl1, Hl in Hl2. rewrite Hs1, Hs in Hs2.
  rewrite Hr2 in Hr4. rewrite Hl2 in Hl4. rewrite Hs2 in Hs4.
  repeat split; try done.
  pose proof (device_info_registry _ _ _ _ _ _ H3 Hs2 Hl2 He) as Hd.
  rewrite Hr2 in Hd.
  destruct (ET.find_descendant (root self) "DeviceInfo") as [di|].
  - pose proof (network_info_registry _ _ _ _ _ _ H4 Hs2 Hd) as Hn.
    rewrite Hr2 in Hn.
    destruct (ET.find_descendant (root self) "NetworkInfo").
    + by eexists.
    + subst r3. by eexists.
  - subst r3.
    pose proof (network_info_registry _ _ _ _ _ _ H4 Hs2 He) as Hn.
    rewrite Hr2 in Hn.
    destruct (ET.find_descendant (root self) "NetworkInfo").
    + by eexists.
    + subst reg'. by eexists.
Qed.

(** The two ways [get_metric_labels] returns. *)
Lemma get_metric_labels_cases (self : EagleParse)
      (reg reg' : gmap string Entry) (ml : metric_labels) :
  get_metric_labels self reg = (reg', Ok ml) ->
  (ml = Empty /\ reg' = reg
   /\ (_labels self = None
       \/ exists ks e, _state self = Some ks /\ reg !! ks = Some e
                       /\ (device_info_received (state e) = false
                           \/ network_info_received (state e) = false)))
  \/ exists kl ks e e',
      _labels self = Some kl /\ _state self = Some ks
      /\ reg !! ks = Some e
      /\ device_info_received (state e) = true
      /\ network_info_received (state e) = true
      /\ reg' = match meter_mac_id self with
                | Some id =>
                    if negb (String.eqb id "")
                       && negb (String.eqb id meter_sentinel)
                    then set_label kl "meter_mac_id" (Some id) reg
                    else reg
                | None => reg
                end
      /\ reg' !! kl = Some e'
      /\ ml = Bundle (_metric self) (labels e') (timestamp self).
Proof.
  unfold get_metric_labels, meter_mac_id.
  destruct (_labels self) as [kl|]; [|intros [= <- <-]; left; tauto].
  destruct (_state self) as [ks|]; [|discriminate].
  destruct (reg !! ks) as [e|] eqn:He; [|discriminate].
  destruct (device_info_received (state e)) eqn:Hdv.
  2:{ intros [= <- <-]. left. do 2 (split; [done|]). right.
      exists ks, e. tauto. }
  destruct (network_info_received (state e)) eqn:Hnw.
  2:{ intros [= <- <-]. left. do 2 (split; [done|]). right.
      exists ks, e. tauto. }
  cbn [negb orb].
  match goal with
  | |- context [?r !! kl] => destruct (r !! kl) as [e'|] eqn:He'
  end; [|discriminate].
  intros [= <- <-]. right. exists kl, ks, e, e'. by repeat split.
Qed.

Lemma parse_frame (self self' : EagleParse) (reg reg' : gmap string Entry) :
  parse self reg = (reg', Ok self') ->
  root self' = root self /\ _labels self' = _labels self
  /\ _state self' = _state self.
Proof.
  intros H.
  destruct (parse_ok_steps _ _ _ _ H) as (p1 & p2 & r3 & H1 & H2 & _ & H4).
  destruct (demand_frame _ _ H1) as (Hr1 & Hl1 & Hs1 & _).
  destruct (summation_frame _ _ H2) as (Hr2 & Hl2 & Hs2 & _).
  destruct (network_info_frame _ _ _ _ H4) as (Hr4 & Hl4 & Hs4 & _).
  repeat split; congruence.
Qed.

Lemma publish_ok_steps (self : EagleParse) (reg reg' : gmap string Entry)
      (ml : metric_labels) (calls : list gauge_set) :
  publish self reg = (reg', Ok (ml, calls)) ->
  exists rp self',
    parse self reg = (rp, Ok self')
    /\ get_metric_labels self' rp = (reg', Ok ml)
    /\ gauge_calls ml = Ok calls.
Proof.
  unfold publish. intros H.
  destruct (parse self reg) as [rp [self'|]] eqn:Hp; [|discriminate].
  destruct (get_metric_labels self' rp) as [r [ml'|]] eqn:Hm;
    [|discriminate].
  destruct (gauge_calls ml') as [cs|] eqn:Hg; [|discriminate].
  cbn [rbind] in H. injection H as <- <- <-. by exists rp, self'.
Qed.

Lemma init_ok decode fromstring raw host now cfg
      (reg reg1 : gmap string Entry) (self : EagleParse) :
  __init__ decode fromstring raw host now cfg reg = (reg1, Ok self) ->
  _state self = _labels self /\ _metric self = ∅
  /\ match _labels self with
     | None => reg1 = reg
     | Some k =>
         is_Some (reg1 !! k)
         /\ (is_Some (reg !! k) -> reg1 = reg)
         /\ (reg !! k = None ->
             exists l, reg1 = <[k := mkEntry l (mkState false false)]> reg)
     end.
Proof.
  intros H.
  destruct (decode raw) as [s|] eqn:Hd;
    [|unfold __init__ in H; by rewrite Hd in H].
  destruct (fromstring s) as [r|] eqn:Hf;
    [|unfold __init__ in H; by rewrite Hd, Hf in H].
  destruct (Py.int (Py.rstrip "s" (default "0" (attrib r !! "timestamp")))
                   10) as [n|] eqn:Hn;
    [|unfold __init__ in H; by rewrite Hd, Hf, Hn in H].
  destruct (init_parsed decode fromstring raw host now cfg reg s r n
                        Hd Hf Hn)
    as (reg1' & self0 & Hi & _ & _ & Hm & _ & Hst & Hk).
  rewrite Hi in H. injection H as <- <-. do 2 (split; [done|]).
  destruct (_labels self0); [|done]. tauto.
Qed.

Lemma meter_merge_entry (id : string) (b : bool) (kl : string)
      (reg : gmap string Entry) (e e' : Entry) :
  reg !! kl = Some e ->
  (if b then set_label kl "meter_mac_id" (Some id) reg else reg) !! kl
  = Some e' ->
  state e' = state e
  /\ labels e' = if b then <["meter_mac_id" := Some id]> (labels e)
                 else labels e.
Proof.
  intros He. destruct b.
  - rewrite (set_label_lookup _ _ _ _ _ He). by intros [= <-].
  - rewrite He. by intros [= <-].
Qed.

(** ** Meter identity *)

(** C9.  Whenever [get_metric_labels] returns a non-empty bundle, it has
    looked up the meter identity, and it has stored it under
    [meter_mac_id] in the device's registry labels exactly when the
    identity is there, non-empty and different from
    ["0x0000000000000000"]; this holds for every registry, so on every
    such publish and not only the first; for the all-zero identity, the
    empty one and a missing one the registry is left as it is. *)
Theorem meter_identity_label (self : EagleParse)
        (reg reg' : gmap string Entry) m l t :
  get_metric_labels self reg = (reg', Ok (Bundle m l t)) ->
  exists kl e',
    _labels self = Some kl /\ reg' !! kl = Some e' /\ l = labels e'
    /\ (forall id,
          meter_mac_id self = Some id ->
          id <> "" -> id <> "0x0000000000000000" ->
          reg' = set_label kl "meter_mac_id" (Some id) reg
          /\ labels e' !! "meter_mac_id" = Some (Some id))
    /\ (meter_mac_id self = None \/ meter_mac_id self = Some ""
        \/ meter_mac_id self = Some "0x0000000000000000" ->
        reg' = reg).
Proof.
  intros H.
  destruct (get_metric_labels_cases _ _ _ _ H)
    as [[? _]|(kl & ks & e & e' & Hl & _ & _ & _ & _ & Hr & He' & Hb)];
    [discriminate|].
  injection Hb as -> -> ->. exists kl, e'. do 3 (split; [done|]). split.
  - intros id Hid Hne Hns. rewrite Hid in Hr.
    destruct (String.eqb_spec id ""); [done|].
    destruct (String.eqb_spec id meter_sentinel); [done|].
    cbn [negb andb] in Hr. split; [done|].
    rewrite Hr in He'. unfold set_label in He'.
    rewrite lookup_alter_eq in He'.
    destruct (reg !! kl) as [e0|]; [|discriminate].
    injection He' as <-. cbn. apply lookup_insert_eq.
  - intros [Hm|[Hm|Hm]]; rewrite Hm in Hr; exact Hr.
Qed.

Lemma meter_identity_label_witness :
  exists reg' m l t,
    get_metric_labels (Sample.parser Sample.doc_demand) Sample.reg_ready
    = (reg', Ok (Bundle m l t))
    /\ l !! "meter_mac_id" = Some (Some "0x00135003007c27b4").
Proof.
  eexists _, _, _, _. split; [reflexivity|].
  destruct (meter_identity_label
              (Sample.parser Sample.doc_demand) Sample.reg_ready
              _ _ _ _ eq_refl)
    as (kl & e' & _ & _ & Hl & Hadd & _).
  rewrite Hl.
  by apply (Hadd "0x00135003007c27b4").
Defined.

(** ** Gating *)

Lemma device_info_labels_lookup (di : Element)
      (l : gmap string (option string)) :
  device_info_labels di l !! "fw_version"
  = Some (ET.text_or_default (ET.find di "FWVersion") None)
  /\ device_info_labels di l !! "hw_version"
     = Some (ET.text_or_default (ET.find di "HWVersion") None)
  /\ device_info_labels di l !! "manufacturer"
     = Some (ET.text_or_default (ET.find di "Manufacturer") None)
  /\ device_info_labels di l !! "model_id"
     = Some (ET.text_or_default (ET.find di "ModelId") None).
Proof. unfold device_info_labels. repeat split; by simplify_map_eq. Qed.

(** C1.  For a payload that was constructed and published without an
    exception: the bundle is non-empty exactly when the device identity
    was resolved and both flags of its registry entry are true; when the
    bundle is empty nothing is sent to the gauges, and the registry entry
    of a resolved device still holds the four labels of this payload's
    device-info section; and a payload for a device not in the registry
    before, lacking a device-info or a network-info section (so one with
    an instantaneous-demand section only), gives the empty bundle. *)
Theorem metric_bundle_gating decode fromstring raw host now cfg
        (reg reg1 reg2 : gmap string Entry) (self : EagleParse)
        (ml : metric_labels) (calls : list gauge_set) :
  __init__ decode fromstring raw host now cfg reg = (reg1, Ok self) ->
  publish self reg1 = (reg2, Ok (ml, calls)) ->
  (ml <> Empty
   <-> exists k e,
      _labels self = Some k /\ reg2 !! k = Some e
      /\ device_info_received (state e) = true
      /\ network_info_received (state e) = true)
  /\ (ml = Empty ->
      calls = []
      /\ forall k di,
          _labels self = Some k ->
          ET.find_descendant (root self) "DeviceInfo" = Some di ->
          exists e,
            reg2 !! k = Some e
            /\ device_info_received (state e) = true
            /\ labels e !! "fw_version"
               = Some (ET.text_or_default (ET.find di "FWVersion") None)
            /\ labels e !! "hw_version"
               = Some (ET.text_or_default (ET.find di "HWVersion") None)
            /\ labels e !! "manufacturer"
               = Some (ET.text_or_default (ET.find di "Manufacturer") None)
            /\ labels e !! "model_id"
               = Some (ET.text_or_default (ET.find di "ModelId") None))
  /\ (forall k,
        _labels self = Some k -> reg !! k = None ->
        ET.find_descendant (root self) "DeviceInfo" = None
        \/ ET.find_descendant (root self) "NetworkInfo" = None ->
        ml = Empty).
Proof.
  intros Hi Hpub.
  destruct (init_ok _ _ _ _ _ _ _ _ _ Hi) as (Hst & _ & Hk).
  destruct (publish_ok_steps _ _ _ _ _ Hpub) as (rp & self' & Hp & Hg & Hc).
  destruct (parse_frame _ _ _ _ Hp) as (Hr' & Hl' & Hs').
  destruct (_labels self) as [k|] eqn:Hl.
  2:{ destruct (get_metric_labels_cases _ _ _ _ Hg)
        as [(-> & -> & _)|(kl & ? & ? & ? & Hkl & _)]; [|congruence].
      injection Hc as <-. repeat split; try done.
      by intros (? & ? & ? & _). }
  destruct Hk as ([e1 He1] & Hold & Hnew).
  rewrite Hst in Hs'.
  destruct (parse_registry _ _ _ _ _ _ Hp Hst Hl He1)
    as (_ & _ & _ & ep & Hep & Hlab & Hdev & Hnet).
  destruct (get_metric_labels_cases _ _ _ _ Hg)
    as [(-> & -> & [Hn|(ks & e & Hks & He & Hfl)])
       |(kl & ks & e & e' & Hkl & Hks & He & Hd & Hn & Hr2 & He' & ->)].
  - congruence.
  - assert (ks = k) as -> by congruence.
    assert (e = ep) as -> by congruence.
    injection Hc as <-. repeat split; try done.
    + intros (k0 & e0 & [= <-] & He0 & Hd0 & Hn0).
      assert (e0 = ep) as -> by congruence.
      destruct Hfl; congruence.
    + intros k0 di [= <-] Hdi. exists ep. rewrite Hdi in Hlab, Hdev.
      split; [done|]. split; [done|]. rewrite Hlab.
      apply device_info_labels_lookup.
  - assert (ks = k) as -> by congruence.
    assert (kl = k) as -> by congruence.
    assert (e = ep) as -> by congruence.
    assert (Hste : state e' = state ep).
    { destruct (meter_mac_id self') as [id|].
      - rewrite Hr2 in He'.
        by destruct (meter_merge_entry _ _ _ _ _ _ Hep He').
      - congruence. }
    repeat split; try done.
    + intros _. exists k, e'. rewrite Hste. by repeat split.
    + intros k0 [= <-] Hfresh Habs.
      destruct (Hnew Hfresh) as [l0 ->].
      rewrite lookup_insert_eq in He1. injection He1 as <-.
      destruct Habs as [Ha|Ha]; rewrite Ha in *; cbn in *; congruence.
Qed.

Lemma metric_bundle_gating_witness :
  exists reg1 self reg2 e,
    __init__ Sample.decode (Sample.fromstring Sample.doc_device_info) []
             "10.0.0.7" 1762128000 ∅ ∅ = (reg1, Ok self)
    /\ publish self reg1 = (reg2, Ok (Empty, []))
    /\ reg2 !! Sample.mac = Some e
    /\ labels e !! "fw_version" = Some (Some "2.0.21")
    /\ labels e !! "model_id" = Some None.
Proof.
  eassert (Hi : __init__ Sample.decode
                  (Sample.fromstring Sample.doc_device_info) []
                  "10.0.0.7" 1762128000 ∅ ∅ = (_, Ok _))
    by (vm_compute; reflexivity).
  match type of Hi with
  | _ = (?r, Ok ?p) =>
      eassert (Hp : publish p r = (_, Ok (_, _)))
        by (vm_compute; reflexivity)
  end.
  destruct (metric_bundle_gating _ _ _ _ _ _ _ _ _ _ _ _ Hi Hp)
    as (_ & Hacc & _).
  destruct (Hacc eq_refl) as [_ Hlab].
  destruct (Hlab Sample.mac _ eq_refl eq_refl)
    as (e & He & _ & Hfw & _ & _ & Hm).
  eexists _, _, _, e. split; [exact Hi|]. split; [exact Hp|].
  split; [exact He|]. split; [exact Hfw | exact Hm].
Defined.

(** ** Failures *)

Lemma metric_complete_empty : metric_complete ∅.
Proof. split; intros d; by rewrite lookup_empty. Qed.

Lemma metric_complete_insert (m : gmap string (gmap string num))
      (k : string) (v : gmap string num) :
  metric_complete m ->
  (k = "current_summation" ->
   is_Some (v !! "summation_delivered")
   /\ is_Some (v !! "summation_received")) ->
  (k = "instantaneous_demand" -> is_Some (v !! "demand")) ->
  metric_complete (<[k := v]> m).
Proof.
  intros [Hs Hd] Hks Hkd. split; intros d; rewrite lookup_insert;
    case_decide; try (intros [= <-]); auto.
Qed.

Lemma demand_metric_complete (self p : EagleParse) :
  _parse_instantaneous_demand self = Ok p ->
  metric_complete (_metric self) -> metric_complete (_metric p).
Proof.
  unfold _parse_instantaneous_demand.
  destruct (ET.find_descendant _ _); [|by intros [= <-]].
  repeat step_bind; try discriminate.
  destruct (_ || _); [discriminate|]. intros [= <-] Hm. cbn.
  apply metric_complete_insert; [done | discriminate |].
  intros _. by rewrite lookup_singleton_eq.
Qed.

Lemma summation_metric_complete (self p : EagleParse) :
  _parse_current_summation self = Ok p ->
  metric_complete (_metric self) -> metric_complete (_metric p).
Proof.
  unfold _parse_current_summation.
  destruct (ET.or_else _ _); [|by intros [= <-]].
  repeat step_bind; try discriminate. intros [= <-] Hm. cbn.
  apply metric_complete_insert; [done | | discriminate].
  intros _. split; by simplify_map_eq.
Qed.

Lemma network_info_metric_complete (self p : EagleParse)
      (reg reg' : gmap string Entry) :
  _parse_network_info self reg = (reg', Ok p) ->
  metric_complete (_metric self) -> metric_complete (_metric p).
Proof.
  unfold _parse_network_info.
  destruct (ET.find_descendant _ _); [|by intros [= _ <-]].
  destruct (_state self); [|discriminate].
  destruct (ET.text_or_default _ _); [|by intros [= _ <-]].
  destruct (Py.int _ _); [|discriminate]. intros [= _ <-] Hm. cbn.
  apply metric_complete_insert; [done | discriminate | discriminate].
Qed.

Lemma gauge_calls_total (m : gmap string (gmap string num))
      (l : gmap string (option string)) (t : Z) :
  metric_complete m -> exists calls, gauge_calls (Bundle m l t) = Ok calls.
Proof.
  intros [Hs Hd]. unfold gauge_calls.
  destruct (m !! "current_summation") as [d|].
  - destruct (Hs d eq_refl) as [[a ->] [b ->]]. cbn [rbind].
    destruct (m !! "instantaneous_demand") as [d'|]; [|by eexists].
    destruct (Hd d' eq_refl) as [c ->]. by eexists.
  - cbn [rbind].
    destruct (m !! "instantaneous_demand") as [d'|]; [|by eexists].
    destruct (Hd d' eq_refl) as [c ->]. by eexists.
Qed.

Lemma get_metric_labels_total (self : EagleParse) (reg : gmap string Entry) :
  _state self = _labels self ->
  (forall k, _labels self = Some k -> is_Some (reg !! k)) ->
  exists reg' ml, get_metric_labels self reg = (reg', Ok ml).
Proof.
  intros Hst Hk. unfold get_metric_labels. rewrite Hst.
  destruct (_labels self) as [k|]; [|by eexists _, _].
  destruct (Hk k eq_refl) as [e He]. rewrite He.
  destruct (_ || _); [by eexists _, _|].
  destruct (ET.text_or_default _ _) as [id|].
  - destruct (_ && _).
    + rewrite (set_label_lookup _ _ _ _ _ He). by eexists _, _.
    + rewrite He. by eexists _, _.
  - rewrite He. by eexists _, _.
Qed.

Lemma device_info_same_document (p q : EagleParse)
      (reg : gmap string Entry) :
  root p = root q -> _state p = _state q -> _labels p = _labels q ->
  fst (_parse_device_info p reg) = fst (_parse_device_info q reg).
Proof.
  intros Hr Hs Hl. unfold _parse_device_info. rewrite Hr, Hs, Hl.
  destruct (ET.find_descendant _ _); [|done].
  destruct (_state q); [|done]. by destruct (_labels q).
Qed.

(** Where a failing [parse] leaves the registry. *)
Lemma parse_failure (self : EagleParse) (reg reg' : gmap string Entry)
      (e : exn) :
  parse self reg = (reg', Err e) -> _state self = _labels self ->
  reg' = reg
  \/ (e = ValueError
      /\ exists ni ls k,
          ET.find_descendant (root self) "NetworkInfo" = Some ni
          /\ ET.text_or_default (ET.find ni "LinkStrength") None = Some ls
          /\ Py.int ls 16 = None
          /\ _state self = Some k
          /\ reg' = set_network_info_received
                      k (fst (_parse_device_info self reg))).
Proof.
  unfold parse. intros H Hst.
  destruct (_parse_instantaneous_demand self) as [p1|] eqn:H1;
    [|injection H as <- _; by left].
  destruct (_parse_current_summation p1) as [p2|] eqn:H2;
    [|injection H as <- _; by left].
  destruct (demand_frame _ _ H1) as (Hr1 & Hl1 & Hs1 & _).
  destruct (summation_frame _ _ H2) as (Hr2 & Hl2 & Hs2 & _).
  assert (Hr : root p2 = root self) by congruence.
  assert (Hs : _state p2 = _state self) by congruence.
  assert (Hl : _labels p2 = _labels self) by congruence.
  pose proof (device_info_same_document p2 self reg Hr Hs Hl) as Hdi.
  destruct (device_info_result p2 reg)
    as [[r3 H3]|[[H3 _]|[r3 [H3 Hnone]]]]; rewrite H3 in H, Hdi.
  - cbn [fst] in Hdi. subst r3. revert H. unfold _parse_network_info.
    rewrite Hr, Hs.
    destruct (ET.find_descendant (root self) "NetworkInfo") as [ni|] eqn:Hni;
      [|discriminate].
    destruct (_state self) as [k|] eqn:Hk.
    + destruct (ET.text_or_default _ _) as [ls|] eqn:Hls; [|discriminate].
      destruct (Py.int ls 16) eqn:Hint; [discriminate|].
      intros [= <- <-]. right. split; [done|]. by exists ni, ls, k.
    + intros [= <- <-]. left.
      unfold _parse_device_info. rewrite Hk.
      destruct (ET.find_descendant (root self) "DeviceInfo"); reflexivity.
  - injection H as <- _. by left.
  - exfalso. assert (Hs0 : _state p2 = None) by congruence.
    unfold _parse_device_info in H3. rewrite Hs0 in H3.
    destruct (ET.find_descendant _ _); discriminate.
Qed.

Lemma publish_failure decode fromstring raw host now cfg
      (reg reg1 reg2 : gmap string Entry) (self : EagleParse) (e : exn) :
  __init__ decode fromstring raw host now cfg reg = (reg1, Ok self) ->
  publish self reg1 = (reg2, Err e) ->
  parse self reg1 = (reg2, Err e).
Proof.
  intros Hi Hp.
  destruct (init_ok _ _ _ _ _ _ _ _ _ Hi) as (Hst & Hm & Hk).
  unfold publish in Hp.
  destruct (parse self reg1) as [rp [self'|e']] eqn:Hparse;
    [|by injection Hp as <- <-].
  exfalso.
  destruct (parse_frame _ _ _ _ Hparse) as (_ & Hl' & Hs').
  destruct (get_metric_labels_total self' rp) as (r & ml & Hg).
  - congruence.
  - intros k Hk'. rewrite Hl' in Hk'. rewrite Hk' in Hk, Hst.
    destruct Hk as ([e1 He1] & _).
    destruct (parse_registry _ _ _ _ _ _ Hparse Hst Hk' He1)
      as (_ & _ & _ & ep & Hep & _). by exists ep.
  - rewrite Hg in Hp.
    assert (Hc : exists calls, gauge_calls ml = Ok calls).
    { destruct ml as [|m l t]; [by eexists|].
      apply gauge_calls_total.
      destruct (bundle_timestamp _ _ _ _ _ _ Hg) as [_ ->].
      destruct (parse_ok_steps _ _ _ _ Hparse)
        as (p1 & p2 & r3 & H1 & H2 & _ & H4).
      eapply network_info_metric_complete; [exact H4|].
      eapply summation_metric_complete; [exact H2|].
      eapply demand_metric_complete; [exact H1|].
      rewrite Hm. apply metric_complete_empty. }
    destruct Hc as [calls Hc]. rewrite Hc in Hp. discriminate.
Qed.




(** ** Payloads without a device identity *)

(** Without a device identity and without info sections, [parse] leaves
    the registry alone and the bundle is empty. *)
Lemma anonymous_payload (self : EagleParse) (reg reg' : gmap string Entry)
      (r : result EagleParse) :
  _labels self = None ->
  ET.find_descendant (root self) "DeviceInfo" = None ->
  ET.find_descendant (root self) "NetworkInfo" = None ->
  parse self reg = (reg', r) ->
  reg' = reg
  /\ forall self', r = Ok self' ->
                   get_metric_labels self' reg = (reg, Ok Empty).
Proof.
  intros Hl Hdi Hni. unfold parse.
  destruct (_parse_instantaneous_demand self) as [p1|] eqn:H1;
    [|by intros [= <- <-]].
  destruct (_parse_current_summation p1) as [p2|] eqn:H2;
    [|by intros [= <- <-]].
  destruct (demand_frame _ _ H1) as (Hr1 & Hl1 & _).
  destruct (summation_frame _ _ H2) as (Hr2 & Hl2 & _).
  unfold _parse_device_info. rewrite Hr2, Hr1, Hdi.
  unfold _parse_network_info. rewrite Hr2, Hr1, Hni.
  intros [= <- <-]. split; [done|].
  intros self' [= <-]. unfold get_metric_labels.
  by rewrite Hl2, Hl1, Hl.
Qed.

(** C8, at the failing input.  A document without [DeviceMacId] that has a
    [DeviceInfo] section is constructed without a device, and [publish]
    then raises [AttributeError] where the claim promises an empty
    bundle. *)
Theorem anonymous_device_info_raises :
  exists self,
    __init__ Sample.decode (Sample.fromstring Sample.doc_anonymous_info) []
             "10.0.0.7" 1762128000 ∅ Sample.reg_new
    = (Sample.reg_new, Ok self)
    /\ _labels self = None
    /\ ET.find_descendant (root self) "DeviceMacId" = None
    /\ publish self Sample.reg_new = (Sample.reg_new, Err AttributeError).
Proof.
  eexists. split; [vm_compute; reflexivity|]. by repeat split.
Qed.

(** * Further properties of the decoder *)

Lemma triple_eta {A B C} (x : A * B * C) :
  x = (fst (fst x), snd (fst x), snd x).
Proof. by destruct x as [[a b] c]. Qed.

(** ** The registry only grows *)

Lemma entry_extends_refl (e : Entry) : entry_extends e e.
Proof. by repeat split. Qed.

Lemma registry_extends_refl (reg : gmap string Entry) :
  registry_extends reg reg.
Proof. intros k e He. exists e. split; [done | apply entry_extends_refl]. Qed.

Lemma registry_extends_trans (r1 r2 r3 : gmap string Entry) :
  registry_extends r1 r2 -> registry_extends r2 r3 -> registry_extends r1 r3.
Proof.
  intros H12 H23 k e He.
  destruct (H12 k e He) as (e2 & He2 & (Hd & Hn & Hl)).
  destruct (H23 k e2 He2) as (e3 & He3 & (Hd' & Hn' & Hl')).
  exists e3. split; [done|]. repeat split; auto.
Qed.

Lemma registry_extends_alter (f : Entry -> Entry) (key : string)
      (reg : gmap string Entry) :
  (forall e, entry_extends e (f e)) ->
  registry_extends reg (alter f key reg).
Proof.
  intros Hf k e He. rewrite lookup_alter. case_decide as Hk.
  - subst k. rewrite He. by exists (f e).
  - exists e. split; [done | apply entry_extends_refl].
Qed.

Lemma set_label_extends (key k : string) (v : option string)
      (reg : gmap string Entry) :
  registry_extends reg (set_label key k v reg).
Proof.
  apply registry_extends_alter. intros e. repeat split; try done.
  intros l Hl. cbn. rewrite lookup_insert. by case_decide.
Qed.

Lemma set_device_info_received_extends (key : string)
      (reg : gmap string Entry) :
  registry_extends reg (set_device_info_received key reg).
Proof. apply registry_extends_alter. intros e. by repeat split. Qed.

Lemma set_network_info_received_extends (key : string)
      (reg : gmap string Entry) :
  registry_extends reg (set_network_info_received key reg).
Proof. apply registry_extends_alter. intros e. by repeat split. Qed.

Lemma registry_extends_insert_fresh (key : string) (e0 : Entry)
      (reg : gmap string Entry) :
  reg !! key = None -> registry_extends reg (<[key := e0]> reg).
Proof.
  intros Hfresh k e He. exists e. split; [|apply entry_extends_refl].
  rewrite lookup_insert_ne; [done | congruence].
Qed.

Lemma device_info_extends (self : EagleParse) (reg : gmap string Entry) :
  registry_extends reg (fst (_parse_device_info self reg)).
Proof.
  unfold _parse_device_info.
  destruct (ET.find_descendant _ _); [|apply registry_extends_refl].
  destruct (_state self); [|apply registry_extends_refl].
  destruct (_labels self); cbn [fst].
  - repeat (eapply registry_extends_trans; [|apply set_label_extends]).
    apply set_device_info_received_extends.
  - apply set_device_info_received_extends.
Qed.

Lemma network_info_extends (self : EagleParse) (reg : gmap string Entry) :
  registry_extends reg (fst (_parse_network_info self reg)).
Proof.
  unfold _parse_network_info.
  destruct (ET.find_descendant _ _); [|apply registry_extends_refl].
  destruct (_state self); [|apply registry_extends_refl].
  destruct (ET.text_or_default _ _);
    [|apply set_network_info_received_extends].
  destruct (Py.int _ _); apply set_network_info_received_extends.
Qed.

Lemma parse_extends (self : EagleParse) (reg : gmap string Entry) :
  registry_extends reg (fst (parse self reg)).
Proof.
  unfold parse.
  destruct (_parse_instantaneous_demand self); [|apply registry_extends_refl].
  destruct (_parse_current_summation _) as [p2|];
    [|apply registry_extends_refl].
  pose proof (device_info_extends p2 reg) as Hd.
  destruct (_parse_device_info p2 reg) as [r3 [p3|]]; [|done].
  eapply registry_extends_trans; [exact Hd|]. apply network_info_extends.
Qed.

Lemma get_metric_labels_extends (self : EagleParse)
      (reg : gmap string Entry) :
  registry_extends reg (fst (get_metric_labels self reg)).
Proof.
  unfold get_metric_labels.
  destruct (_labels self); [|apply registry_extends_refl].
  destruct (_state self); [|apply registry_extends_refl].
  destruct (reg !! _); [|apply registry_extends_refl].
  destruct (_ || _); [apply registry_extends_refl|].
  assert (He : forall r : gmap string Entry,
             registry_extends reg r ->
             registry_extends reg
               (fst (match r !! s with
                     | Some e' =>
                         (r, Ok (Bundle (_metric self) (labels e')
                                        (timestamp self)))
                     | None => (r, Err KeyError)
                     end))).
  { intros r Hr. by destruct (r !! s). }
  apply He.
  destruct (ET.text_or_default _ _); [|apply registry_extends_refl].
  destruct (_ && _); [apply set_label_extends | apply registry_extends_refl].
Qed.

Lemma publish_extends (self : EagleParse) (reg : gmap string Entry) :
  registry_extends reg (fst (publish self reg)).
Proof.
  unfold publish. pose proof (parse_extends self reg) as Hp.
  destruct (parse self reg) as [rp [self'|]]; [|done].
  pose proof (get_metric_labels_extends self' rp) as Hg.
  destruct (get_metric_labels self' rp) as [r [ml|]]; cbn [fst] in *;
    by eapply registry_extends_trans.
Qed.

Lemma init_extends decode fromstring raw host now cfg
      (reg : gmap string Entry) :
  registry_extends
    reg (fst (__init__ decode fromstring raw host now cfg reg)).
Proof.
  unfold __init__.
  destruct (decode raw); [|apply registry_extends_refl].
  destruct (fromstring _); [|apply registry_extends_refl].
  destruct (Py.int _ _); [|apply registry_extends_refl].
  destruct (ET.text_or_default _ _) as [k|]; [|apply registry_extends_refl].
  destruct (String.eqb k ""); [apply registry_extends_refl|]. cbn [fst].
  destruct (reg !! k) eqn:Hk; [apply registry_extends_refl|].
  by apply registry_extends_insert_fresh.
Qed.

(** X1.  Whatever a payload is and however its processing ends, [ingest]
    leaves every registry entry in place: no entry is deleted, a flag that
    was true stays true, and every label key stays a key. *)
Theorem ingest_registry_extends decode fromstring raw host now cfg
        (reg reg' : gmap string Entry) (calls : list gauge_set) (status : Z) :
  ingest decode fromstring raw host now cfg reg = (reg', calls, status) ->
  registry_extends reg reg'.
Proof.
  unfold ingest. intros H.
  pose proof (init_extends decode fromstring raw host now cfg reg) as Hi.
  destruct (__init__ _ _ _ _ _ _ _) as [r1 [p|]]; cbn [fst] in Hi.
  - pose proof (publish_extends p r1) as Hp.
    destruct (publish p r1) as [r2 [[ml cs]|]]; cbn [fst] in Hp;
      injection H as <- _ _; by eapply registry_extends_trans.
  - by injection H as <- _ _.
Qed.

Lemma ingest_registry_extends_witness :
  registry_extends
    Sample.reg_ready
    (fst (fst (ingest Sample.decode (Sample.fromstring Sample.doc_bad_link)
                      [] "10.0.0.7" 1762128000 ∅ Sample.reg_ready))).
Proof.
  exact (ingest_registry_extends
           Sample.decode (Sample.fromstring Sample.doc_bad_link) []
           "10.0.0.7" 1762128000 ∅ Sample.reg_ready _ _ _
           (triple_eta _)).
Defined.

(** ** Other devices are left alone *)

Lemma set_label_other (key k l : string) (v : option string)
      (reg : gmap string Entry) :
  key <> k -> set_label key l v reg !! k = reg !! k.
Proof. intros H. unfold set_label. by rewrite lookup_alter_ne. Qed.

Lemma device_info_other (self : EagleParse) (reg : gmap string Entry)
      (k : string) :
  _state self <> Some k -> _labels self <> Some k ->
  fst (_parse_device_info self reg) !! k = reg !! k.
Proof.
  intros Hs Hl. unfold _parse_device_info.
  destruct (ET.find_descendant _ _); [|done].
  destruct (_state self) as [ks|]; [|done].
  assert (ks <> k) by congruence.
  destruct (_labels self) as [kl|]; cbn [fst].
  - assert (kl <> k) by congruence.
    rewrite !set_label_other by done.
    unfold set_device_info_received. by rewrite lookup_alter_ne.
  - unfold set_device_info_received. by rewrite lookup_alter_ne.
Qed.

Lemma network_info_other (self : EagleParse) (reg : gmap string Entry)
      (k : string) :
  _state self <> Some k ->
  fst (_parse_network_info self reg) !! k = reg !! k.
Proof.
  intros Hs. unfold _parse_network_info.
  destruct (ET.find_descendant _ _); [|done].
  destruct (_state self) as [ks|]; [|done].
  assert (ks <> k) by congruence.
  assert (Hn : set_network_info_received ks reg !! k = reg !! k).
  { unfold set_network_info_received. by rewrite lookup_alter_ne. }
  destruct (ET.text_or_default _ _); [|done]. by destruct (Py.int _ _).
Qed.

Lemma parse_other (self : EagleParse) (reg : gmap string Entry)
      (k : string) :
  _state self <> Some k -> _labels self <> Some k ->
  fst (parse self reg) !! k = reg !! k.
Proof.
  intros Hs Hl. unfold parse.
  destruct (_parse_instantaneous_demand self) as [p1|] eqn:H1; [|done].
  destruct (_parse_current_summation p1) as [p2|] eqn:H2; [|done].
  destruct (demand_frame _ _ H1) as (_ & Hl1 & Hs1 & _).
  destruct (summation_frame _ _ H2) as (_ & Hl2 & Hs2 & _).
  assert (Hs' : _state p2 <> Some k) by congruence.
  assert (Hl' : _labels p2 <> Some k) by congruence.
  pose proof (device_info_other p2 reg k Hs' Hl') as Hd.
  destruct (device_info_result p2 reg)
    as [[r3 H3]|[[H3 _]|[r3 [H3 _]]]]; rewrite H3 in Hd |- *;
    cbn [fst] in *; try done.
  by rewrite network_info_other.
Qed.

Lemma get_metric_labels_other (self : EagleParse)
      (reg : gmap string Entry) (k : string) :
  _labels self <> Some k ->
  fst (get_metric_labels self reg) !! k = reg !! k.
Proof.
  intros Hl. unfold get_metric_labels.
  destruct (_labels self) as [kl|]; [|done].
  assert (kl <> k) by congruence.
  destruct (_state self) as [ks|]; [|done].
  destruct (reg !! ks); [|done].
  destruct (_ || _); [done|].
  destruct (ET.text_or_default _ _) as [id|].
  - destruct (_ && _).
    + destruct (set_label kl _ _ reg !! kl); cbn [fst];
        by rewrite set_label_other.
    + by destruct (reg !! kl).
  - by destruct (reg !! kl).
Qed.

Lemma publish_other (self : EagleParse) (reg : gmap string Entry)
      (k : string) :
  _state self <> Some k -> _labels self <> Some k ->
  fst (publish self reg) !! k = reg !! k.
Proof.
  intros Hs Hl. unfold publish.
  pose proof (parse_other self reg k Hs Hl) as Hp.
  destruct (parse self reg) as [rp [self'|]] eqn:Hparse; [|done].
  destruct (parse_frame _ _ _ _ Hparse) as (_ & Hl' & _).
  assert (Hl'' : _labels self' <> Some k) by congruence.
  pose proof (get_metric_labels_other self' rp k Hl'') as Hg.
  destruct (get_metric_labels self' rp) as [r [ml|]]; cbn [fst] in *;
    congruence.
Qed.

(** What a constructed parser knows about its document. *)
Lemma init_device decode fromstring raw host now cfg
      (reg reg1 : gmap string Entry) (self : EagleParse) :
  __init__ decode fromstring raw host now cfg reg = (reg1, Ok self) ->
  decode raw = Some (raw_xml self)
  /\ fromstring (raw_xml self) = Some (root self)
  /\ _labels self = payload_device (root self)
  /\ _state self = payload_device (root self)
  /\ (forall k, payload_device (root self) <> Some k ->
                reg1 !! k = reg !! k).
Proof.
  unfold __init__, payload_device.
  destruct (decode raw) as [s|]; [|discriminate].
  destruct (fromstring s) as [r|] eqn:Hf; [|discriminate].
  destruct (Py.int _ _); [|discriminate].
  destruct (ET.text_or_default _ _) as [id|] eqn:Hid.
  - destruct (String.eqb id "") eqn:He.
    + intros [= <- <-]. cbn [root raw_xml _labels _state].
      by rewrite Hid, He.
    + intros [= <- <-]. cbn [root raw_xml _labels _state].
      rewrite Hid, He. repeat split; try done.
      intros k Hk. destruct (reg !! id); [done|].
      rewrite lookup_insert_ne; [done | congruence].
  - intros [= <- <-]. cbn [root raw_xml _labels _state]. by rewrite Hid.
Qed.

(** X2.  [ingest] changes the registry only at the device the payload is
    attributed to: a key whose entry differs afterwards is the non-empty
    text of the document's first [DeviceMacId]; in particular a payload
    that does not decode or parse, or names no device, changes nothing. *)
Theorem ingest_touches_only_its_device decode fromstring raw host now cfg
        (reg reg' : gmap string Entry) (calls : list gauge_set) (status : Z)
        (k : string) :
  ingest decode fromstring raw host now cfg reg = (reg', calls, status) ->
  reg' !! k <> reg !! k ->
  exists s r,
    decode raw = Some s /\ fromstring s = Some r
    /\ payload_device r = Some k.
Proof.
  unfold ingest. intros H Hne.
  destruct (__init__ decode fromstring raw host now cfg reg)
    as [r1 [p|e]] eqn:Hi.
  - destruct (init_device _ _ _ _ _ _ _ _ _ Hi) as (Hd & Hf & Hl & Hs & Ho).
    exists (raw_xml p), (root p). do 2 (split; [done|]).
    destruct (decide (payload_device (root p) = Some k)) as [|Hk]; [done|].
    exfalso. apply Hne.
    pose proof (publish_other p r1 k) as Hp.
    rewrite Hs, Hl in Hp. specialize (Hp Hk Hk).
    rewrite <- (Ho k Hk), <- Hp.
    by destruct (publish p r1) as [r2 [[ml cs]|]]; injection H as <- _ _.
  - apply init_failure in Hi. subst r1. by injection H as <- _ _.
Qed.

Lemma ingest_touches_only_its_device_witness :
  exists s r,
    Sample.decode [] = Some s
    /\ Sample.fromstring Sample.doc_device_info s = Some r
    /\ payload_device r = Some Sample.mac.
Proof.
  apply (ingest_touches_only_its_device
           Sample.decode (Sample.fromstring Sample.doc_device_info) []
           "10.0.0.7" 1762128000 ∅ Sample.reg_new _ _ _ Sample.mac
           (triple_eta _)).
  intros Heq.
  apply (f_equal (fmap (fun e => device_info_received (state e)))) in Heq.
  vm_compute in Heq. discriminate.
Defined.

(** ** What reaches the gauges *)

Lemma network_info_metric (self p : EagleParse)
      (reg reg' : gmap string Entry) :
  _parse_network_info self reg = (reg', Ok p) ->
  _metric p = _metric self
  \/ exists v, _metric p = <["network_info"
                            := {["link_strength" := PyInt v]}]>
                             (_metric self).
Proof.
  unfold _parse_network_info.
  destruct (ET.find_descendant _ _); [|intros [= _ <-]; by left].
  destruct (_state self); [|discriminate].
  destruct (ET.text_or_default _ _); [|intros [= _ <-]; by left].
  destruct (Py.int _ _) as [v|]; [|discriminate].
  intros [= _ <-]. right. by exists v.
Qed.

(** A section that is there and parsed has all its sub-fields. *)
Lemma demand_ok_fields (self p : EagleParse) (sec : Element) :
  _parse_instantaneous_demand self = Ok p ->
  ET.find_descendant (root self) "InstantaneousDemand" = Some sec ->
  exists raw m d ts,
    demand_fields (root self) raw m d ts
    /\ within_bound (scaled raw m d)
    /\ p = set_metric (set_timestamp self (utc2000_to_epoch ts))
             "instantaneous_demand"
             {["demand" := PyFloat (scaled raw m d)]}.
Proof.
  intros H Hs.
  destruct (field_hex sec "Demand") as [raw|] eqn:Hraw;
    [|unfold _parse_instantaneous_demand in H; by rewrite Hs, Hraw in H].
  destruct (field_hex sec "Multiplier") as [m|] eqn:Hm;
    [|unfold _parse_instantaneous_demand in H;
      by rewrite Hs, Hraw, Hm in H].
  destruct (field_hex sec "Divisor") as [d|] eqn:Hd;
    [|unfold _parse_instantaneous_demand in H;
      by rewrite Hs, Hraw, Hm, Hd in H].
  destruct (field_int16 sec "TimeStamp") as [ts|] eqn:Hts;
    [|unfold _parse_instantaneous_demand in H;
      by rewrite Hs, Hraw, Hm, Hd, Hts in H].
  assert (Hf : demand_fields (root self) raw m d ts) by (by exists sec).
  exists raw, m, d, ts. split; [done|].
  rewrite (demand_decoded _ _ _ _ _ Hf) in H.
  destruct (_ || _) eqn:Hout; [discriminate|]. injection H as <-.
  split; [|done].
  unfold within_bound. unfold Qgtb in Hout.
  apply orb_false_elim in Hout as [Hhi Hlo].
  apply negb_false_iff in Hhi, Hlo.
  by apply Qle_bool_iff in Hhi, Hlo.
Qed.

Lemma summation_ok_fields (self p : EagleParse) (sec : Element) :
  _parse_current_summation self = Ok p ->
  summation_section (root self) = Some sec ->
  exists sd sr m d ts, summation_fields (root self) sd sr m d ts.
Proof.
  intros H Hs. pose proof Hs as Hs'. unfold summation_section in Hs'.
  unfold _parse_current_summation in H. rewrite Hs' in H.
  destruct (field_hex sec "SummationDelivered") as [sd|] eqn:Hsd;
    [|discriminate].
  destruct (field_hex sec "SummationReceived") as [sr|] eqn:Hsr;
    [|discriminate].
  destruct (field_hex sec "Multiplier") as [m|] eqn:Hm; [|discriminate].
  destruct (field_hex sec "Divisor") as [d|] eqn:Hd; [|discriminate].
  destruct (field_int16 sec "TimeStamp") as [ts|] eqn:Hts; [|discriminate].
  exists sd, sr, m, d, ts. by exists sec.
Qed.

(** The two metric groups [publish] reads, after a successful [parse] of
    a freshly constructed parser. *)
Lemma parse_metric_groups (self self' : EagleParse)
      (reg reg' : gmap string Entry) :
  parse self reg = (reg', Ok self') -> _metric self = ∅ ->
  (summation_section (root self) = None ->
   _metric self' !! "current_summation" = None)
  /\ (forall sd sr m d ts,
        summation_fields (root self) sd sr m d ts ->
        _metric self' !! "current_summation"
        = Some (<["summation_delivered" := PyFloat (scaled sd m d)]>
                  {["summation_received" := PyFloat (scaled sr m d)]}))
  /\ (ET.find_descendant (root self) "InstantaneousDemand" = None ->
      _metric self' !! "instantaneous_demand" = None)
  /\ (forall raw m d ts,
        demand_fields (root self) raw m d ts ->
        _metric self' !! "instantaneous_demand"
        = Some {["demand" := PyFloat (scaled raw m d)]}).
Proof.
  intros H Hm0.
  destruct (parse_ok_steps _ _ _ _ H) as (p1 & p2 & r3 & H1 & H2 & _ & H4).
  destruct (demand_frame _ _ H1) as (Hr1 & _).
  assert (Hlk : forall k, k <> "network_info" ->
                          _metric self' !! k = _metric p2 !! k).
  { intros k Hk. destruct (network_info_metric _ _ _ _ H4) as [->|[v ->]];
      [done | by rewrite lookup_insert_ne]. }
  rewrite !Hlk by discriminate. clear Hlk H4.
  split; [|split; [|split]].
  - intros Hs. rewrite summation_absent in H2 by (by rewrite Hr1).
    injection H2 as <-.
    destruct (ET.find_descendant (root self) "InstantaneousDemand")
      as [sec|] eqn:Hd.
    + destruct (demand_ok_fields _ _ _ H1 Hd) as (? & ? & ? & ? & _ & _ & ->).
      cbn. by rewrite lookup_insert_ne, Hm0.
    + rewrite demand_absent in H1 by done. injection H1 as <-.
      by rewrite Hm0.
  - intros sd sr m d ts Hf. rewrite <- Hr1 in Hf.
    rewrite (summation_decoded _ _ _ _ _ _ Hf) in H2. injection H2 as <-.
    cbn. apply lookup_insert_eq.
  - intros Hd. rewrite demand_absent in H1 by done. injection H1 as <-.
    destruct (summation_section (root self)) as [sec|] eqn:Hs.
    + destruct (summation_ok_fields _ _ _ H2 Hs)
        as (sd & sr & m & d & ts & Hf).
      rewrite (summation_decoded _ _ _ _ _ _ Hf) in H2. injection H2 as <-.
      cbn. by rewrite lookup_insert_ne, Hm0.
    + rewrite summation_absent in H2 by done. injection H2 as <-.
      by rewrite Hm0.
  - intros raw m d ts Hf.
    rewrite (demand_decoded _ _ _ _ _ Hf) in H1.
    destruct (_ || _); [discriminate|]. injection H1 as <-.
    destruct (summation_section (root self)) as [sec|] eqn:Hs.
    + assert (Hs1 : summation_section
                      (root (set_metric (set_timestamp self
                                           (utc2000_to_epoch ts))
                               "instantaneous_demand"
                               {["demand" := PyFloat (scaled raw m d)]}))
                    = Some sec) by done.
      destruct (summation_ok_fields _ _ _ H2 Hs1)
        as (sd & sr & m' & d' & ts' & Hf').
      rewrite (summation_decoded _ _ _ _ _ _ Hf') in H2. injection H2 as <-.
      cbn. rewrite lookup_insert_ne by discriminate. apply lookup_insert_eq.
    + rewrite summation_absent in H2 by done. injection H2 as <-.
      cbn. apply lookup_insert_eq.
Qed.

Lemma gauge_calls_labels (m : gmap string (gmap string num))
      (l : gmap string (option string)) (t : Z) (calls : list gauge_set) :
  gauge_calls (Bundle m l t) = Ok calls ->
  Forall (fun c => call_labels c = l) calls.
Proof.
  unfold gauge_calls.
  destruct (m !! "current_summation") as [d|].
  - destruct (d !! "summation_delivered"); [|discriminate].
    destruct (d !! "summation_received"); [|discriminate]. cbn [rbind].
    destruct (m !! "instantaneous_demand") as [d'|].
    + destruct (d' !! "demand"); [|discriminate]. intros [= <-].
      by repeat constructor.
    + intros [= <-]. by repeat constructor.
  - cbn [rbind]. destruct (m !! "instantaneous_demand") as [d'|].
    + destruct (d' !! "demand"); [|discriminate]. intros [= <-].
      by repeat constructor.
    + intros [= <-]. constructor.
Qed.

(** X3.  [ingest] sets a gauge only for a gated device: when a call is
    made, the document named a device, that device's entry has both flags
    true afterwards, and every call carries the labels that entry then
    holds. *)
Theorem ingest_gauges_only_when_gated decode fromstring raw host now cfg
        (reg reg' : gmap string Entry) (calls : list gauge_set)
        (status : Z) :
  ingest decode fromstring raw host now cfg reg = (reg', calls, status) ->
  calls <> [] ->
  exists s r k e,
    decode raw = Some s /\ fromstring s = Some r
    /\ payload_device r = Some k /\ reg' !! k = Some e
    /\ device_info_received (state e) = true
    /\ network_info_received (state e) = true
    /\ Forall (fun c => call_labels c = labels e) calls.
Proof.
  unfold ingest. intros H Hne.
  destruct (__init__ decode fromstring raw host now cfg reg)
    as [r1 [p|]] eqn:Hi; [|by injection H as _ <- _].
  destruct (publish p r1) as [r2 [[ml cs]|]] eqn:Hp;
    [|by injection H as _ <- _].
  injection H as <- <- _.
  destruct (init_device _ _ _ _ _ _ _ _ _ Hi) as (Hd & Hf & Hl & Hs & _).
  destruct (publish_ok_steps _ _ _ _ _ Hp) as (rp & p' & Hparse & Hg & Hc).
  destruct (parse_frame _ _ _ _ Hparse) as (_ & Hl' & Hs').
  destruct (get_metric_labels_cases _ _ _ _ Hg)
    as [(-> & _)|(kl & ks & e & e' & Hkl & Hks & He & Hdv & Hnw & Hr2
                  & He' & ->)];
    [by injection Hc as <-|].
  assert (ks = kl) as -> by congruence.
  exists (raw_xml p), (root p), kl, e'.
  do 2 (split; [done|]). split; [congruence|]. split; [done|].
  assert (Hste : state e' = state e).
  { destruct (meter_mac_id p') as [id|].
    - rewrite Hr2 in He'. by destruct (meter_merge_entry _ _ _ _ _ _ He He').
    - congruence. }
  rewrite Hste. do 2 (split; [done|]). by eapply gauge_calls_labels.
Qed.

Lemma ingest_gauges_only_when_gated_witness :
  exists s r k e,
    Sample.decode [] = Some s
    /\ Sample.fromstring Sample.doc_demand s = Some r
    /\ payload_device r = Some k
    /\ fst (fst (ingest Sample.decode (Sample.fromstring Sample.doc_demand)
                        [] "10.0.0.7" 1762128000 ∅ Sample.reg_ready))
       !! k = Some e
    /\ device_info_received (state e) = true
    /\ network_info_received (state e) = true
    /\ Forall (fun c => call_labels c = labels e)
              (snd (fst (ingest Sample.decode
                                (Sample.fromstring Sample.doc_demand) []
                                "10.0.0.7" 1762128000 ∅
                                Sample.reg_ready))).
Proof.
  apply (ingest_gauges_only_when_gated
           Sample.decode (Sample.fromstring Sample.doc_demand) []
           "10.0.0.7" 1762128000 ∅ Sample.reg_ready _ _ _ (triple_eta _)).
  intros Heq. apply (f_equal length) in Heq. vm_compute in Heq.
  discriminate.
Defined.

(** X4.  Link strength is decoded but never published: a document with
    neither a summation section nor an instantaneous-demand section makes
    no gauge call, whatever else it carries and whether or not the device
    is gated. *)
Theorem no_gauge_without_energy_section decode fromstring raw host now cfg
        (reg reg' : gmap string Entry) (calls : list gauge_set)
        (status : Z) (s : string) (r : Element) :
  ingest decode fromstring raw host now cfg reg = (reg', calls, status) ->
  decode raw = Some s -> fromstring s = Some r ->
  summation_section r = None ->
  ET.find_descendant r "InstantaneousDemand" = None ->
  calls = [].
Proof.
  unfold ingest. intros H Hd Hf Hsum Hdem.
  destruct (__init__ decode fromstring raw host now cfg reg)
    as [r1 [p|]] eqn:Hi; [|by injection H as _ <- _].
  destruct (publish p r1) as [r2 [[ml cs]|]] eqn:Hp;
    [|by injection H as _ <- _].
  injection H as _ <- _.
  destruct (init_device _ _ _ _ _ _ _ _ _ Hi) as (Hd' & Hf' & _).
  assert (Hr : root p = r) by congruence.
  destruct (init_ok _ _ _ _ _ _ _ _ _ Hi) as (_ & Hm0 & _).
  destruct (publish_ok_steps _ _ _ _ _ Hp) as (rp & p' & Hparse & Hg & Hc).
  destruct ml as [|m l t]; [by injection Hc as <-|].
  destruct (bundle_timestamp _ _ _ _ _ _ Hg) as [_ ->].
  destruct (parse_metric_groups _ _ _ _ Hparse Hm0) as (Hs0 & _ & Hd0 & _).
  rewrite Hr in Hs0, Hd0. unfold gauge_calls in Hc.
  rewrite (Hs0 Hsum), (Hd0 Hdem) in Hc. by injection Hc as <-.
Qed.

Lemma no_gauge_without_energy_section_witness :
  snd (fst (ingest Sample.decode
                   (Sample.fromstring Sample.doc_network_info) []
                   "10.0.0.7" 1762128000 ∅ Sample.reg_ready)) = [].
Proof.
  apply (no_gauge_without_energy_section
           Sample.decode (Sample.fromstring Sample.doc_network_info) []
           "10.0.0.7" 1762128000 ∅ Sample.reg_ready _ _ _ ""
           Sample.doc_network_info (triple_eta _)); reflexivity.
Defined.

(** X5.  What a published bundle sends to the gauges: for a parser that
    starts without metrics, the two summation gauges first, delivered
    then received, then the demand gauge, each set to its raw reading
    times the multiplier over the divisor (0 read as 1), all with the
    labels of the bundle; a section that is absent contributes no call. *)
Theorem publish_sets_scaled_values (self : EagleParse)
        (reg reg' : gmap string Entry) m l t (calls : list gauge_set) :
  publish self reg = (reg', Ok (Bundle m l t, calls)) ->
  _metric self = ∅ ->
  (forall sd sr mu dv ts raw mu' dv' ts',
      summation_fields (root self) sd sr mu dv ts ->
      demand_fields (root self) raw mu' dv' ts' ->
      calls = [(summation_delivered_gauge, PyFloat (scaled sd mu dv), l);
               (summation_received_gauge, PyFloat (scaled sr mu dv), l);
               (instantaneous_demand_gauge,
                PyFloat (scaled raw mu' dv'), l)])
  /\ (forall sd sr mu dv ts,
        summation_fields (root self) sd sr mu dv ts ->
        ET.find_descendant (root self) "InstantaneousDemand" = None ->
        calls = [(summation_delivered_gauge, PyFloat (scaled sd mu dv), l);
                 (summation_received_gauge, PyFloat (scaled sr mu dv), l)])
  /\ (forall raw mu dv ts,
        demand_fields (root self) raw mu dv ts ->
        summation_section (root self) = None ->
        calls = [(instantaneous_demand_gauge,
                  PyFloat (scaled raw mu dv), l)]).
Proof.
  intros Hp Hm0.
  destruct (publish_ok_steps _ _ _ _ _ Hp) as (rp & p' & Hparse & Hg & Hc).
  destruct (bundle_timestamp _ _ _ _ _ _ Hg) as [_ ->].
  destruct (parse_metric_groups _ _ _ _ Hparse Hm0)
    as (Hs0 & Hs1 & Hd0 & Hd1).
  unfold gauge_calls in Hc. repeat split.
  - intros sd sr mu dv ts raw mu' dv' ts' Hs Hd.
    rewrite (Hs1 _ _ _ _ _ Hs), (Hd1 _ _ _ _ Hd) in Hc.
    by injection Hc as <-.
  - intros sd sr mu dv ts Hs Hd.
    rewrite (Hs1 _ _ _ _ _ Hs), (Hd0 Hd) in Hc. by injection Hc as <-.
  - intros raw mu dv ts Hd Hs.
    rewrite (Hs0 Hs), (Hd1 _ _ _ _ Hd) in Hc. by injection Hc as <-.
Qed.

Lemma publish_sets_scaled_values_witness :
  exists reg' m l t calls,
    publish (Sample.parser Sample.doc_both) Sample.reg_ready
    = (reg', Ok (Bundle m l t, calls))
    /\ calls
       = [(summation_delivered_gauge,
           PyFloat (scaled 10000000 1 1000), l);
          (summation_received_gauge, PyFloat (scaled 0 1 1000), l);
          (instantaneous_demand_gauge, PyFloat (scaled 1 1 1000), l)].
Proof.
  pose (l := <["meter_mac_id" := Some "0x00135003007c27b4"]>
               (labels Sample.entry_ready)).
  assert (H : publish (Sample.parser Sample.doc_both) Sample.reg_ready
              = (set_label Sample.mac "meter_mac_id"
                           (Some "0x00135003007c27b4") Sample.reg_ready,
                 Ok (Bundle
                       (<["current_summation"
                          := <["summation_delivered"
                               := PyFloat (scaled 10000000 1 1000)]>
                               {["summation_received"
                                 := PyFloat (scaled 0 1 1000)]}]>
                          {["instantaneous_demand"
                            := {["demand" := PyFloat (scaled 1 1 1000)]}]})
                       l (utc2000_to_epoch 0x20),
                     [(summation_delivered_gauge,
                       PyFloat (scaled 10000000 1 1000), l);
                      (summation_received_gauge,
                       PyFloat (scaled 0 1 1000), l);
                      (instantaneous_demand_gauge,
                       PyFloat (scaled 1 1 1000), l)]))) by vm_refl.
  eexists _, _, _, _, _. split; [exact H|].
  apply (proj1 (publish_sets_scaled_values _ _ _ _ _ _ _ H eq_refl)
               10000000 0 1 1000 0x20 1 1 1000 0x10);
    eexists; repeat split; reflexivity.
Defined.

(** ** Reaching the publishable state *)

Lemma get_metric_labels_entry (self : EagleParse)
      (reg reg' : gmap string Entry) (ml : metric_labels) (k : string)
      (e : Entry) :
  get_metric_labels self reg = (reg', Ok ml) ->
  _labels self = Some k -> _state self = Some k -> reg !! k = Some e ->
  exists e',
    reg' !! k = Some e' /\ state e' = state e
    /\ (ml = Empty
        <-> device_info_received (state e) = false
            \/ network_info_received (state e) = false).
Proof.
  intros Hg Hl Hs He.
  destruct (get_metric_labels_cases _ _ _ _ Hg)
    as [(-> & -> & [Hn|(ks & e0 & Hks & He0 & Hfl)])
       |(kl & ks & e0 & e' & Hkl & Hks & He0 & Hd & Hn & Hr & He' & ->)].
  - congruence.
  - assert (ks = k) as -> by congruence.
    assert (e0 = e) as -> by congruence.
    exists e. by repeat split.
  - assert (ks = k) as -> by congruence.
    assert (kl = k) as -> by congruence.
    assert (e0 = e) as -> by congruence.
    exists e'. split; [done|].
    assert (Hste : state e' = state e).
    { destruct (meter_mac_id self) as [id|].
      - rewrite Hr in He'. by destruct (meter_merge_entry _ _ _ _ _ _ He He').
      - congruence. }
    split; [done|]. split; [discriminate|]. intros [|]; congruence.
Qed.

(** X6.  Two payloads of one device, published one after the other
    without an exception, the one carrying a device-info section and the
    other a network-info section, in either order: the second one returns
    a non-empty bundle, whatever the flags were before. *)
Theorem gating_opens_after_both_sections (self1 self2 : EagleParse)
        (reg reg2 reg4 : gmap string Entry) (k : string) (e : Entry)
        (ml1 ml2 : metric_labels) (calls1 calls2 : list gauge_set) :
  _labels self1 = Some k -> _state self1 = Some k ->
  _labels self2 = Some k -> _state self2 = Some k ->
  reg !! k = Some e ->
  publish self1 reg = (reg2, Ok (ml1, calls1)) ->
  publish self2 reg2 = (reg4, Ok (ml2, calls2)) ->
  (is_Some (ET.find_descendant (root self1) "DeviceInfo")
   /\ is_Some (ET.find_descendant (root self2) "NetworkInfo"))
  \/ (is_Some (ET.find_descendant (root self1) "NetworkInfo")
      /\ is_Some (ET.find_descendant (root self2) "DeviceInfo")) ->
  ml2 <> Empty.
Proof.
  intros Hl1 Hs1 Hl2 Hs2 He Hp1 Hp2 Hsec.
  destruct (publish_ok_steps _ _ _ _ _ Hp1) as (rp1 & p1 & Hpa1 & Hg1 & _).
  destruct (publish_ok_steps _ _ _ _ _ Hp2) as (rp2 & p2 & Hpa2 & Hg2 & _).
  destruct (parse_registry _ _ _ _ _ _ Hpa1 Hs1 Hl1 He)
    as (_ & Hl1' & Hs1' & ep1 & Hep1 & _ & Hd1 & Hn1).
  destruct (get_metric_labels_entry _ _ _ _ _ _ Hg1 Hl1' Hs1' Hep1)
    as (e2 & He2 & Hst2 & _).
  destruct (parse_registry _ _ _ _ _ _ Hpa2 Hs2 Hl2 He2)
    as (_ & Hl2' & Hs2' & ep2 & Hep2 & _ & Hd2 & Hn2).
  destruct (get_metric_labels_entry _ _ _ _ _ _ Hg2 Hl2' Hs2' Hep2)
    as (e4 & _ & _ & Hempty).
  rewrite Hst2 in Hd2, Hn2. intros Hml. apply Hempty in Hml.
  destruct Hsec as [[[di Hdi] [ni Hni]]|[[ni Hni] [di Hdi]]].
  - rewrite Hdi in Hd1. rewrite Hni in Hn2. rewrite Hd1 in Hd2.
    destruct (ET.find_descendant (root self2) "DeviceInfo");
      destruct Hml; congruence.
  - rewrite Hni in Hn1. rewrite Hdi in Hd2. rewrite Hn1 in Hn2.
    destruct (ET.find_descendant (root self2) "NetworkInfo");
      destruct Hml; congruence.
Qed.

Lemma gating_opens_after_both_sections_witness :
  let reg2 := fst (_parse_device_info
                     (Sample.parser Sample.doc_device_info)
                     Sample.reg_new) in
  let ml2 := Bundle {["network_info" := {["link_strength" := PyInt 100]}]}
                    (device_info_labels Sample.device_info
                                        (labels Sample.entry_new))
                    1700000000 in
  publish (Sample.parser Sample.doc_device_info) Sample.reg_new
  = (reg2, Ok (Empty, []))
  /\ publish (Sample.parser Sample.doc_network_info) reg2
     = (set_network_info_received Sample.mac reg2, Ok (ml2, []))
  /\ ml2 <> Empty.
Proof.
  intros reg2 ml2.
  assert (H1 : publish (Sample.parser Sample.doc_device_info)
                       Sample.reg_new = (reg2, Ok (Empty, [])))
    by vm_refl.
  assert (H2 : publish (Sample.parser Sample.doc_network_info) reg2
               = (set_network_info_received Sample.mac reg2,
                  Ok (ml2, []))) by vm_refl.
  split; [exact H1|]. split; [exact H2|].
  apply (gating_opens_after_both_sections
           (Sample.parser Sample.doc_device_info)
           (Sample.parser Sample.doc_network_info)
           Sample.reg_new reg2 _ Sample.mac Sample.entry_new _ _ _ _
           eq_refl eq_refl eq_refl eq_refl eq_refl H1 H2).
  left. split; eexists; reflexivity.
Defined.

(** ** Exceptions *)

(** X7.  The dictionary reads never fail.  After a successful
    construction, an exception of [publish] is always one raised by
    [parse]: [get_metric_labels] finds the device's state and labels, and
    [publish] finds every sub-metric it reads, so [KeyError] is never
    raised; nor is [ZeroDivisionError]. *)
Theorem publish_reads_never_fail decode fromstring raw host now cfg
        (reg reg1 reg2 : gmap string Entry) (self : EagleParse) (e : exn) :
  __init__ decode fromstring raw host now cfg reg = (reg1, Ok self) ->
  publish self reg1 = (reg2, Err e) ->
  parse self reg1 = (reg2, Err e)
  /\ e <> KeyError /\ e <> ZeroDivisionError.
Proof.
  intros Hi Hp.
  pose proof (publish_failure _ _ _ _ _ _ _ _ _ _ _ Hi Hp) as Hparse.
  split; [done|].
  assert (Hkind : e = AttributeError \/ e = TypeError \/ e = ValueError
                  \/ is_demand_error e).
  { unfold parse in Hparse.
    destruct (_parse_instantaneous_demand self) as [p1|e1] eqn:H1.
    2:{ injection Hparse as _ <-.
        destruct (demand_error_cases _ _ H1)
          as [[-> | [-> | ->]]|(? & ? & ? & ? & _ & _ & ->)]; cbn; tauto. }
    destruct (_parse_current_summation p1) as [p2|e2] eqn:H2.
    2:{ injection Hparse as _ <-.
        destruct (summation_error_cases _ _ H2) as [-> | [-> | ->]];
          tauto. }
    destruct (device_info_result p2 reg1)
      as [[r3 H3]|[[H3 _]|[r3 [H3 _]]]]; rewrite H3 in Hparse.
    - destruct (network_info_error _ _ _ _ Hparse) as [-> | ->]; tauto.
    - injection Hparse as _ <-. tauto.
    - injection Hparse as _ <-. tauto. }
  split; intros ->; destruct Hkind as [|[|[|]]]; done.
Qed.

Lemma publish_reads_never_fail_witness :
  parse (mkEagleParse "" ∅ None None Sample.doc_anonymous_info 1700000000)
        Sample.reg_new
  = (Sample.reg_new, Err AttributeError)
  /\ AttributeError <> KeyError /\ AttributeError <> ZeroDivisionError.
Proof.
  apply (publish_reads_never_fail
           Sample.decode (Sample.fromstring Sample.doc_anonymous_info) []
           "10.0.0.7" 1762128000 ∅ Sample.reg_new); vm_refl.
Defined.

(** ** Construction: timestamp and registry entry *)

(** X8.  A document without a root [timestamp] attribute is constructed
    with the wall-clock time as its timestamp, and so is one whose
    attribute reads as 0; the constructor cannot fail on such a document
    once it is decoded and parsed. *)
Theorem init_timestamp_fallback decode fromstring raw host now cfg
        (reg : gmap string Entry) (s : string) (r : Element) :
  decode raw = Some s -> fromstring s = Some r ->
  attrib r !! "timestamp" = None
  \/ (exists a, attrib r !! "timestamp" = Some a
                /\ Py.int (Py.rstrip "s" a) 10 = Some 0) ->
  exists reg1 self,
    __init__ decode fromstring raw host now cfg reg = (reg1, Ok self)
    /\ timestamp self = now /\ root self = r.
Proof.
  intros Hd Hf Ha.
  destruct (init_parsed decode fromstring raw host now cfg reg s r 0)
    as (reg1 & self & Hi & Hr & _ & _ & Ht & _); [done | done | |].
  { destruct Ha as [->|(a & -> & Hint)]; [reflexivity | exact Hint]. }
  by exists reg1, self.
Qed.

Lemma init_timestamp_fallback_witness :
  exists reg1 self,
    __init__ Sample.decode (Sample.fromstring Sample2.doc_no_timestamp) []
             "10.0.0.7" 1762128000 ∅ ∅ = (reg1, Ok self)
    /\ timestamp self = 1762128000.
Proof.
  destruct (init_timestamp_fallback
              Sample.decode (Sample.fromstring Sample2.doc_no_timestamp)
              [] "10.0.0.7" 1762128000 ∅ ∅ "" _ eq_refl eq_refl)
    as (reg1 & self & Hi & Ht & _); [by left|].
  by exists reg1, self.
Defined.

(** X9.  First sight of a device.  When the document names a device that
    has no registry entry, the constructor adds one entry, for that
    device, with both flags false; its labels are [device_mac_id] and
    [client_host], overridden and extended by the operator's labels for
    that device when there are any. *)
Theorem init_registers_new_device decode fromstring raw host now cfg
        (reg : gmap string Entry) (s : string) (r : Element) (n : Z)
        (k : string) :
  decode raw = Some s -> fromstring s = Some r ->
  Py.int (Py.rstrip "s" (default "0" (attrib r !! "timestamp"))) 10
  = Some n ->
  payload_device r = Some k -> reg !! k = None ->
  exists self e,
    __init__ decode fromstring raw host now cfg reg
    = (<[k := e]> reg, Ok self)
    /\ _labels self = Some k /\ _state self = Some k
    /\ state e = mkState false false
    /\ labels e
       = default ∅ (cfg !! k)
         ∪ <["device_mac_id" := Some k]> {["client_host" := Some host]}
    /\ (forall extra l v,
          cfg !! k = Some extra -> extra !! l = Some v ->
          labels e !! l = Some v)
    /\ (cfg !! k = None ->
        labels e !! "device_mac_id" = Some (Some k)
        /\ labels e !! "client_host" = Some (Some host)).
Proof.
  intros Hd Hf Hn Hk Hfresh. unfold payload_device in Hk.
  destruct (ET.text_or_default _ _) as [id|] eqn:Hid; [|discriminate].
  destruct (String.eqb id "") eqn:He; [discriminate|]. injection Hk as ->.
  unfold __init__. rewrite Hd, Hf, Hn, Hid, He, Hfresh.
  eexists _, _. split; [reflexivity|]. cbn [_labels _state state labels].
  do 3 (split; [done|]).
  split; [by destruct (cfg !! k)|]. split.
  - intros extra l v -> Hv. by apply lookup_union_Some_l.
  - intros ->. split; by simplify_map_eq.
Qed.

Lemma init_registers_new_device_witness :
  exists self e,
    __init__ Sample.decode (Sample.fromstring Sample.doc_device_info) []
             "10.0.0.7" 1762128000 Sample2.opt_labels ∅
    = (<[Sample.mac := e]> ∅, Ok self)
    /\ labels e !! "client_host" = Some (Some "meter-1")
    /\ labels e !! "site" = Some (Some "garage").
Proof.
  destruct (init_registers_new_device
              Sample.decode (Sample.fromstring Sample.doc_device_info) []
              "10.0.0.7" 1762128000 Sample2.opt_labels ∅ ""
              Sample.doc_device_info 1700000000 Sample.mac)
    as (self & e & Hi & _ & _ & _ & _ & Hover & _);
    [reflexivity | reflexivity | vm_refl | vm_refl | apply lookup_empty |].
  exists self, e. split; [exact Hi|].
  split; apply (Hover _ _ _ (lookup_singleton_eq _ _)); vm_refl.
Defined.

Lemma init_known_device decode fromstring raw host now cfg
      (reg : gmap string Entry) (s : string) (r : Element) :
  decode raw = Some s -> fromstring s = Some r ->
  (forall k, payload_device r = Some k -> is_Some (reg !! k)) ->
  fst (__init__ decode fromstring raw host now cfg reg) = reg.
Proof.
  intros Hd Hf Hk. unfold __init__, payload_device in *. rewrite Hd, Hf.
  destruct (Py.int _ _); [|done].
  destruct (ET.text_or_default _ _) as [id|]; [|done].
  destruct (String.eqb id ""); [done|]. cbn [fst].
  by destruct (Hk id eq_refl) as [e ->].
Qed.

(** X10.  The constructor leaves the registry as it is unless the
    document names a device without an entry: for a known device neither
    [client_host] nor the operator's labels are refreshed, whatever the
    sender's address and the configuration are now; and a [DeviceMacId]
    without text names no device. *)
Theorem init_keeps_known_registry decode fromstring raw host now cfg
        (reg : gmap string Entry) (s : string) (r : Element) :
  decode raw = Some s -> fromstring s = Some r ->
  (forall k, payload_device r = Some k -> is_Some (reg !! k)) ->
  fst (__init__ decode fromstring raw host now cfg reg) = reg
  /\ (ET.text_or_default (ET.find_descendant r "DeviceMacId") None
      = Some "" ->
      forall reg1 self,
        __init__ decode fromstring raw host now cfg reg = (reg1, Ok self) ->
        _labels self = None /\ _state self = None).
Proof.
  intros Hd Hf Hk. split; [by eapply init_known_device|].
  unfold __init__. rewrite Hd, Hf. intros ->.
  destruct (Py.int _ _); [|discriminate]. by intros reg1 self [= _ <-].
Qed.

Lemma init_keeps_known_registry_witness :
  fst (__init__ Sample.decode (Sample.fromstring Sample.doc_device_info) []
                "192.168.1.50" 1762128000 Sample2.opt_labels
                Sample.reg_new)
  = Sample.reg_new.
Proof.
  apply (init_keeps_known_registry
           Sample.decode (Sample.fromstring Sample.doc_device_info) []
           "192.168.1.50" 1762128000 Sample2.opt_labels Sample.reg_new
           "" Sample.doc_device_info eq_refl eq_refl).
  intros k Hk. vm_compute in Hk. injection Hk as <-.
  exists Sample.entry_new. reflexivity.
Defined.

(** ** Where the summation section is looked for *)

Lemma find_none_all {A} (f : A -> bool) (l : list A) :
  (forall x, In x l -> f x = false) -> List.find f l = None.
Proof.
  induction l as [|a l IH]; intros H; [done|]. simpl.
  rewrite (H a) by (by left). apply IH. intros x Hx. apply H. by right.
Qed.

Lemma find_some_any {A} (f : A -> bool) (l : list A) (x : A) :
  In x l -> f x = true -> is_Some (List.find f l).
Proof.
  induction l as [|a l IH]; intros Hin Hx; [done|]. simpl.
  destruct (f a) eqn:Ha; [by eexists|].
  destruct Hin as [->|Hin]; [congruence | by apply IH].
Qed.

(** X11.  The summation section is looked up among the children of the
    root only: a document none of whose root children is tagged
    [CurrentSummationDelivered] or [CurrentSummation] is left without
    summation metrics and without an error, even when such a section sits
    deeper; an [InstantaneousDemand] element is found at any depth. *)
Theorem summation_direct_children_only (self : EagleParse) :
  (forall c, In c (children (root self)) ->
             tag c <> "CurrentSummationDelivered"
             /\ tag c <> "CurrentSummation") ->
  _parse_current_summation self = Ok self
  /\ (forall sec,
        In sec (ET.descendants (root self)) ->
        tag sec = "InstantaneousDemand" ->
        is_Some (ET.find_descendant (root self) "InstantaneousDemand")).
Proof.
  intros Htags. split.
  - apply summation_absent. unfold summation_section, ET.find.
    rewrite !find_none_all; [done | |];
      intros c Hc; destruct (Htags c Hc) as [H1 H2]; unfold ET.has_tag;
      by apply String.eqb_neq.
  - intros sec Hin Htag. unfold ET.find_descendant.
    apply (find_some_any _ _ sec Hin). unfold ET.has_tag.
    by apply String.eqb_eq.
Qed.

Lemma summation_direct_children_only_witness :
  _parse_current_summation (Sample.parser Sample2.doc_nested_summation)
  = Ok (Sample.parser Sample2.doc_nested_summation).
Proof.
  apply summation_direct_children_only.
  intros c [<-|[]]. split; discriminate.
Defined.

(** X12.  Empty summation elements.  A [CurrentSummationDelivered] that
    has children is the section used, whatever else is there.  One
    without children is passed over: with no [CurrentSummation] beside it
    the payload has no summation and no error, while a [CurrentSummation]
    without children is taken as the section and raises
    [AttributeError] on its first sub-field. *)
Theorem empty_summation_elements (self : EagleParse) :
  (forall a c cs,
      ET.find (root self) "CurrentSummationDelivered" = Some a ->
      children a = c :: cs ->
      summation_section (root self) = Some a)
  /\ (forall a,
        ET.find (root self) "CurrentSummationDelivered" = Some a ->
        children a = [] ->
        ET.find (root self) "CurrentSummation" = None ->
        _parse_current_summation self = Ok self)
  /\ (forall b,
        ET.find (root self) "CurrentSummation" = Some b ->
        children b = [] ->
        (forall a, ET.find (root self) "CurrentSummationDelivered" = Some a ->
                   children a = []) ->
        _parse_current_summation self = Err AttributeError).
Proof.
  repeat split.
  - intros a c cs Ha Hc. unfold summation_section, ET.or_else, ET.truthy.
    by rewrite Ha, Hc.
  - intros a Ha Hc Hb. apply summation_absent.
    unfold summation_section, ET.or_else, ET.truthy. by rewrite Ha, Hc.
  - intros b Hb Hc Ha.
    assert (Hs : ET.or_else
                   (ET.find (root self) "CurrentSummationDelivered")
                   (ET.find (root self) "CurrentSummation") = Some b).
    { unfold ET.or_else, ET.truthy.
      destruct (ET.find (root self) "CurrentSummationDelivered") as [a|];
        [|done]. by rewrite (Ha a eq_refl). }
    unfold _parse_current_summation. rewrite Hs.
    unfold field_hex at 1, ET.find at 1. by rewrite Hc.
Qed.

Lemma empty_summation_elements_witness :
  _parse_current_summation (Sample.parser Sample2.doc_empty_delivered)
  = Ok (Sample.parser Sample2.doc_empty_delivered)
  /\ _parse_current_summation (Sample.parser Sample2.doc_empty_summation)
     = Err AttributeError.
Proof.
  split.
  - by apply (proj1 (proj2 (empty_summation_elements
                              (Sample.parser Sample2.doc_empty_delivered)))
                    (Sample.node "CurrentSummationDelivered" [])).
  - apply (proj2 (proj2 (empty_summation_elements
                           (Sample.parser Sample2.doc_empty_summation)))
                 (Sample.node "CurrentSummation" [])); try reflexivity.
    intros a Ha. discriminate Ha.
Defined.

(** ** Required sub-fields *)

Lemma field_hex_ok_text (sec : Element) (name : string) (v : Z) :
  field_hex sec name = Ok v ->
  exists f t, ET.find sec name = Some f /\ text f = Some t.
Proof.
  unfold field_hex. destruct (ET.find sec name) as [f|]; [|discriminate].
  destruct (text f) as [t|] eqn:Ht; [|discriminate]. by exists f, t.
Qed.

Lemma field_int16_ok_text (sec : Element) (name : string) (v : Z) :
  field_int16 sec name = Ok v ->
  exists f t, ET.find sec name = Some f /\ text f = Some t.
Proof.
  unfold field_int16. destruct (ET.find sec name) as [f|]; [|discriminate].
  destruct (text f) as [t|] eqn:Ht; [|discriminate]. by exists f, t.
Qed.

(** X13.  An instantaneous-demand section needs all of [Demand],
    [Multiplier], [Divisor] and [TimeStamp]: when one of them is missing
    or has no text, the section parser raises [AttributeError],
    [TypeError] or [ValueError], also when the reading would have been
    out of range, and records nothing. *)
Theorem demand_needs_all_fields (self : EagleParse) (sec : Element)
        (name : string) :
  ET.find_descendant (root self) "InstantaneousDemand" = Some sec ->
  In name ["Demand"; "Multiplier"; "Divisor"; "TimeStamp"] ->
  ET.find sec name = None
  \/ (exists f, ET.find sec name = Some f /\ text f = None) ->
  exists e,
    _parse_instantaneous_demand self = Err e
    /\ (e = AttributeError \/ e = TypeError \/ e = ValueError).
Proof.
  intros Hs Hname Hmiss.
  assert (Hno : forall raw m d ts, ~ demand_fields (root self) raw m d ts).
  { intros raw m d ts (sec' & Hs' & Hraw & Hm & Hd & Hts).
    assert (sec' = sec) as -> by congruence.
    assert (Hall : exists f t, ET.find sec name = Some f /\ text f = Some t).
    { destruct Hname as [<-|[<-|[<-|[<-|[]]]]];
        eauto using field_hex_ok_text, field_int16_ok_text. }
    destruct Hall as (f & t & Hf & Ht).
    destruct Hmiss as [Hn|(f' & Hf' & Ht')]; congruence. }
  destruct (_parse_instantaneous_demand self) as [p|e] eqn:H.
  - destruct (demand_ok_fields _ _ _ H Hs) as (raw & m & d & ts & Hf & _).
    by destruct (Hno _ _ _ _ Hf).
  - exists e. split; [done|].
    destruct (demand_error_cases _ _ H)
      as [He|(raw & m & d & ts & Hf & _)]; [done|].
    by destruct (Hno _ _ _ _ Hf).
Qed.

Lemma demand_needs_all_fields_witness :
  exists e,
    _parse_instantaneous_demand
      (Sample.parser Sample2.doc_demand_no_divisor) = Err e
    /\ (e = AttributeError \/ e = TypeError \/ e = ValueError).
Proof.
  eapply (demand_needs_all_fields _ _ "Divisor").
  - reflexivity.
  - right. right. by left.
  - by left.
Defined.

(** X14.  A summation section needs all of [SummationDelivered],
    [SummationReceived], [Multiplier], [Divisor] and [TimeStamp]: when
    one of them is missing or has no text, the section parser raises
    [AttributeError], [TypeError] or [ValueError]. *)
Theorem summation_needs_all_fields (self : EagleParse) (sec : Element)
        (name : string) :
  summation_section (root self) = Some sec ->
  In name ["SummationDelivered"; "SummationReceived"; "Multiplier";
           "Divisor"; "TimeStamp"] ->
  ET.find sec name = None
  \/ (exists f, ET.find sec name = Some f /\ text f = None) ->
  exists e,
    _parse_current_summation self = Err e
    /\ (e = AttributeError \/ e = TypeError \/ e = ValueError).
Proof.
  intros Hs Hname Hmiss.
  destruct (_parse_current_summation self) as [p|e] eqn:H.
  - exfalso.
    destruct (summation_ok_fields _ _ _ H Hs)
      as (sd & sr & m & d & ts & sec' & Hs' & Hsd & Hsr & Hm & Hd & Hts).
    assert (sec' = sec) as -> by congruence.
    assert (Hall : exists f t, ET.find sec name = Some f /\ text f = Some t).
    { destruct Hname as [<-|[<-|[<-|[<-|[<-|[]]]]]];
        eauto using field_hex_ok_text, field_int16_ok_text. }
    destruct Hall as (f & t & Hf & Ht).
    destruct Hmiss as [Hn|(f' & Hf' & Ht')]; congruence.
  - exists e. split; [done|]. by eapply summation_error_cases.
Qed.

Lemma summation_needs_all_fields_witness :
  exists e,
    _parse_current_summation (Sample.parser Sample2.doc_empty_summation)
    = Err e
    /\ (e = AttributeError \/ e = TypeError \/ e = ValueError).
Proof.
  eapply (summation_needs_all_fields _ _ "TimeStamp").
  - reflexivity.
  - do 4 right. by left.
  - by left.
Defined.

(** ** Device-info labels *)

(** X15.  A device-info section rewrites all four of its labels: each of
    [fw_version], [hw_version], [manufacturer] and [model_id] becomes the
    text of its sub-field, the empty string when the sub-field has no
    text, and [None] when the sub-field is missing, also when the label
    had a value before; the other labels and the network-info flag are
    kept, and the device-info flag is set. *)
Theorem device_info_rewrites_labels (self : EagleParse)
        (reg : gmap string Entry) (k : string) (e : Entry) (di : Element) :
  _labels self = Some k -> _state self = Some k -> reg !! k = Some e ->
  ET.find_descendant (root self) "DeviceInfo" = Some di ->
  exists reg' e',
    _parse_device_info self reg = (reg', Ok self)
    /\ reg' !! k = Some e'
    /\ state e' = mkState true (network_info_received (state e))
    /\ (forall label sub,
          In (label, sub) [("fw_version", "FWVersion");
                           ("hw_version", "HWVersion");
                           ("manufacturer", "Manufacturer");
                           ("model_id", "ModelId")] ->
          labels e' !! label
          = Some (match ET.find di sub with
                  | Some f => Some (default "" (text f))
                  | None => None
                  end))
    /\ (forall l,
          ~ In l ["fw_version"; "hw_version"; "manufacturer"; "model_id"] ->
          labels e' !! l = labels e !! l).
Proof.
  intros Hl Hs He Hdi.
  destruct (device_info_result self reg)
    as [[reg' H]|[[_ Hn]|[reg' [_ Hn]]]]; [|congruence | congruence].
  pose proof (device_info_registry _ _ _ _ _ _ H Hs Hl He) as Hr.
  rewrite Hdi in Hr.
  eexists reg', _. split; [done|]. split; [exact Hr|].
  cbn [state labels]. split; [done|]. split.
  - intros label sub Hin.
    destruct (device_info_labels_lookup di (labels e))
      as (Hfw & Hhw & Hma & Hmo).
    destruct Hin as [[= <- <-]|[[= <- <-]|[[= <- <-]|[[= <- <-]|[]]]]];
      [rewrite Hfw | rewrite Hhw | rewrite Hma | rewrite Hmo];
      unfold ET.text_or_default; by destruct (ET.find di _) as [[? ? [] ?]|].
  - intros l Hnot. unfold device_info_labels.
    rewrite !lookup_insert_ne; [done | | | |];
      intros <-; apply Hnot; cbn; tauto.
Qed.

Lemma device_info_rewrites_labels_witness :
  exists reg' e',
    _parse_device_info (Sample.parser Sample2.doc_device_info_partial)
                       {[Sample.mac := Sample2.entry_labelled]}
    = (reg', Ok (Sample.parser Sample2.doc_device_info_partial))
    /\ reg' !! Sample.mac = Some e'
    /\ labels Sample2.entry_labelled !! "fw_version" = Some (Some "2.0.21")
    /\ labels e' !! "fw_version" = Some None
    /\ labels e' !! "hw_version" = Some (Some "1.2.7").
Proof.
  destruct (device_info_rewrites_labels
              (Sample.parser Sample2.doc_device_info_partial)
              {[Sample.mac := Sample2.entry_labelled]} Sample.mac
              Sample2.entry_labelled _ eq_refl eq_refl
              (lookup_singleton_eq _ _) eq_refl)
    as (reg' & e' & H & He' & _ & Hlab & _).
  exists reg', e'. split; [exact H|]. split; [exact He'|].
  split; [vm_refl|]. split.
  - apply (Hlab "fw_version" "FWVersion"). by left.
  - apply (Hlab "hw_version" "HWVersion"). right. by left.
Defined.

(** ** Hexadecimal fields at and beyond their limits *)

Lemma int16_of_prefixed_digits (ds : string) (u : Z) :
  ds <> EmptyString -> hex_unsigned ds 0 = Some u ->
  Py.int ("0x" ++ ds) 16 = Some u.
Proof.
  intros Hne H. rewrite <- (int16_of_hex_digits ds u Hne H).
  change ("0x" ++ ds) with (String "0" (String "x" ds)).
  destruct ds as [|c ds]; [done|].
  simpl in H. destruct (hex_digit c) as [d|] eqn:Hc; [|discriminate].
  destruct (hex_digit_table _ _ Hc) as (_ & _ & Hu & Hs & Hp & Hm & _).
  unfold Py.int.
  replace (Py.lstrip (String "0" (String "x" (String c ds))))
    with (String "0" (String "x" (String c ds))) by reflexivity.
  replace (Py.lstrip (String c ds)) with (String c ds)
    by (simpl; by rewrite Hs).
  replace (Py.strip_sign (String "0" (String "x" (String c ds))))
    with (1, String "0" (String "x" (String c ds))) by reflexivity.
  replace (Py.strip_sign (String c ds)) with (1, String c ds)
    by (destruct c as [[] [] [] [] [] [] [] []]; try reflexivity;
        congruence).
  replace (Py.strip_prefix 16 (String "0" (String "x" (String c ds))))
    with (String c ds);
    [|destruct c as [[] [] [] [] [] [] [] []]; try reflexivity;
      discriminate].
  destruct ds as [|x ds]; [by destruct c as [[] [] [] [] [] [] [] []]|].
  simpl in H. destruct (hex_digit x) as [dx|] eqn:Hx; [|discriminate].
  destruct (hex_digit_table _ _ Hx) as (_ & _ & _ & _ & _ & _ & Hx1 & Hx2).
  assert (Hxx : (Ascii.eqb x "x" || Ascii.eqb x "X")%bool = false).
  { destruct (Ascii.eqb_spec x "x"); [done|].
    by destruct (Ascii.eqb_spec x "X"). }
  replace (Py.strip_prefix 16 (String c (String x ds)))
    with (String c (String x ds)); [done|].
  destruct c as [[] [] [] [] [] [] [] []]; try reflexivity.
  unfold Py.strip_prefix. by rewrite Hxx.
Qed.

(** X16.  The first two characters of the argument of
    [convert_hex_to_int] are dropped without being looked at, and an
    argument of fewer than three characters, the bare prefix ["0x"]
    included, raises [ValueError]. *)
Theorem convert_hex_to_int_prefix (hex_num : string) :
  (forall a b rest,
      hex_num = String a (String b rest) ->
      convert_hex_to_int hex_num = convert_hex_to_int ("0x" ++ rest))
  /\ ((String.length hex_num <= 2)%nat ->
      convert_hex_to_int hex_num = Err ValueError).
Proof.
  split.
  - by intros a b rest ->.
  - intros Hlen. destruct hex_num as [|a [|b [|c s]]]; try reflexivity.
    simpl in Hlen. lia.
Qed.

Lemma convert_hex_to_int_prefix_witness :
  convert_hex_to_int "0x" = Err ValueError
  /\ convert_hex_to_int "zz10" = convert_hex_to_int "0x10".
Proof.
  split.
  - apply convert_hex_to_int_prefix. simpl. lia.
  - by apply (proj1 (convert_hex_to_int_prefix "zz10")
                    "z"%char "z"%char "10").
Defined.

(** X17.  Patterns wider than 32 bits are not wrapped: for hexadecimal
    digits denoting [u >= 2^32], [convert_hex_to_int] returns [u - 2^32],
    which is not negative, and which is outside the signed 32-bit range
    as soon as [u >= 2^32 + 2^31]. *)
Theorem convert_hex_to_int_wide_pattern (ds : string) (u : Z) :
  ds <> EmptyString -> hex_unsigned ds 0 = Some u -> 2 ^ 32 <= u ->
  convert_hex_to_int ("0x" ++ ds) = Ok (u - 2 ^ 32)
  /\ 0 <= u - 2 ^ 32
  /\ (2 ^ 32 + 2 ^ 31 <= u -> 2 ^ 31 <= u - 2 ^ 32).
Proof.
  intros Hne H Hu. rewrite (convert_hex_to_int_digits ds u Hne H).
  destruct (Z.ltb_spec u (2 ^ 31)); [lia|]. repeat split; lia.
Qed.

Lemma convert_hex_to_int_wide_pattern_witness :
  convert_hex_to_int "0x1ffffffff" = Ok 0xffffffff.
Proof.
  by apply (convert_hex_to_int_wide_pattern "1ffffffff" 0x1ffffffff).
Defined.

Lemma field_int16_prefixed (sec f : Element) (name ds : string) (u : Z) :
  ET.find sec name = Some f -> text f = Some ("0x" ++ ds) ->
  ds <> EmptyString -> hex_unsigned ds 0 = Some u ->
  field_int16 sec name = Ok u /\ 0 <= u.
Proof.
  intros Hf Ht Hne H. unfold field_int16.
  rewrite Hf, Ht, (int16_of_prefixed_digits _ _ Hne H). split; [done|].
  by apply (hex_unsigned_lower _ _ _ H).
Qed.

(** X18.  Link strength is read without sign: for a [LinkStrength] of
    ["0x"] and hexadecimal digits denoting [u], the network-info step
    stores the integer [u] itself and sets the network-info flag, where
    [convert_hex_to_int] would return [u - 2^32] for a pattern with the
    top bit set. *)
Theorem link_strength_is_unsigned (self : EagleParse)
        (reg : gmap string Entry) (k : string) (ni f : Element)
        (ds : string) (u : Z) :
  _state self = Some k ->
  ET.find_descendant (root self) "NetworkInfo" = Some ni ->
  ET.find ni "LinkStrength" = Some f -> text f = Some ("0x" ++ ds) ->
  ds <> EmptyString -> hex_unsigned ds 0 = Some u ->
  _parse_network_info self reg
  = (set_network_info_received k reg,
     Ok (set_metric self "network_info" {["link_strength" := PyInt u]}))
  /\ 0 <= u
  /\ (2 ^ 31 <= u < 2 ^ 32 ->
      convert_hex_to_int ("0x" ++ ds) = Ok (u - 2 ^ 32)
      /\ u - 2 ^ 32 < 0).
Proof.
  intros Hs Hni Hf Ht Hne H. split; [|split].
  - unfold _parse_network_info. rewrite Hs, Hni, Hf.
    unfold ET.text_or_default. rewrite Ht.
    by rewrite (int16_of_prefixed_digits _ _ Hne H).
  - by apply (hex_unsigned_lower _ _ _ H).
  - intros Hu. rewrite (convert_hex_to_int_digits ds u Hne H).
    destruct (Z.ltb_spec u (2 ^ 31)); [lia|]. split; [done | lia].
Qed.

Lemma link_strength_is_unsigned_witness :
  exists reg' p,
    _parse_network_info (Sample.parser Sample2.doc_high_bit)
                        Sample.reg_new = (reg', Ok p)
    /\ _metric p !! "network_info"
       = Some {["link_strength" := PyInt 0xffffffff]}.
Proof.
  destruct (link_strength_is_unsigned
              (Sample.parser Sample2.doc_high_bit) Sample.reg_new
              Sample.mac _ _ "ffffffff" 0xffffffff
              eq_refl eq_refl eq_refl eq_refl) as (H & _);
    [discriminate | reflexivity |].
  eexists _, _. split; [exact H|]. reflexivity.
Defined.

(** X19.  Section timestamps are read without sign: when the
    instantaneous-demand section is parsed and its [TimeStamp] is ["0x"]
    and hexadecimal digits denoting [u], the payload timestamp becomes
    [u + 946684800], never earlier than the year 2000, whatever the top
    bit of the pattern is. *)
Theorem demand_timestamp_is_unsigned (self p : EagleParse)
        (sec f : Element) (ds : string) (u : Z) :
  _parse_instantaneous_demand self = Ok p ->
  ET.find_descendant (root self) "InstantaneousDemand" = Some sec ->
  ET.find sec "TimeStamp" = Some f -> text f = Some ("0x" ++ ds) ->
  ds <> EmptyString -> hex_unsigned ds 0 = Some u ->
  timestamp p = u + 946684800 /\ 946684800 <= timestamp p.
Proof.
  intros Hp Hs Hf Ht Hne H.
  pose proof (demand_timestamp _ _ Hp) as Hts. rewrite Hs in Hts.
  destruct Hts as (ts & Hts & ->).
  destruct (field_int16_prefixed _ _ _ _ _ Hf Ht Hne H) as [Hu H0].
  assert (ts = u) as -> by congruence.
  unfold utc2000_to_epoch. lia.
Qed.

Lemma demand_timestamp_is_unsigned_witness :
  exists p,
    _parse_instantaneous_demand (Sample.parser Sample2.doc_high_bit) = Ok p
    /\ timestamp p = 0xf0000000 + 946684800.
Proof.
  eassert (Hp : _parse_instantaneous_demand
                  (Sample.parser Sample2.doc_high_bit) = Ok _)
    by (vm_compute; reflexivity).
  eexists. split; [exact Hp|].
  apply (demand_timestamp_is_unsigned _ _ _ _ "f0000000" 0xf0000000 Hp
           eq_refl eq_refl eq_refl); [discriminate | reflexivity].
Defined.

(** ** A payload received twice *)

Lemma parse_result_independent (self : EagleParse)
      (reg reg' : gmap string Entry) :
  snd (parse self reg) = snd (parse self reg').
Proof.
  unfold parse.
  destruct (_parse_instantaneous_demand self) as [p1|]; [|done].
  destruct (_parse_current_summation p1) as [p2|]; [|done].
  unfold _parse_device_info.
  destruct (ET.find_descendant (root p2) "DeviceInfo").
  - destruct (_state p2) eqn:Hs; [|done].
    destruct (_labels p2); [|done].
    unfold _parse_network_info. rewrite Hs.
    destruct (ET.find_descendant (root p2) "NetworkInfo"); [|done].
    destruct (ET.text_or_default _ _); [|done]. by destruct (Py.int _ _).
  - unfold _parse_network_info.
    destruct (ET.find_descendant (root p2) "NetworkInfo"); [|done].
    destruct (_state p2); [|done].
    destruct (ET.text_or_default _ _); [|done]. by destruct (Py.int _ _).
Qed.

Lemma init_result_independent decode fromstring raw host host' now cfg cfg'
      (reg reg' : gmap string Entry) :
  snd (__init__ decode fromstring raw host now cfg reg)
  = snd (__init__ decode fromstring raw host' now cfg' reg').
Proof.
  unfold __init__.
  destruct (decode raw); [|done]. destruct (fromstring _); [|done].
  destruct (Py.int _ _); [|done].
  destruct (ET.text_or_default _ _); [|done]. by destruct (String.eqb _ _).
Qed.

Lemma entry_eq (e1 e2 : Entry) :
  labels e1 = labels e2 ->
  device_info_received (state e1) = device_info_received (state e2) ->
  network_info_received (state e1) = network_info_received (state e2) ->
  e1 = e2.
Proof.
  destruct e1 as [l1 [d1 n1]], e2 as [l2 [d2 n2]]. cbn. by intros -> -> ->.
Qed.

Lemma device_info_labels_again (di : Element)
      (l : gmap string (option string)) :
  device_info_labels di (device_info_labels di l) = device_info_labels di l.
Proof.
  apply map_eq. intros i. unfold device_info_labels.
  rewrite !lookup_insert. by repeat case_decide.
Qed.

Lemma device_info_labels_meter (di : Element) (v : option string)
      (l : gmap string (option string)) :
  device_info_labels di (<["meter_mac_id" := v]> (device_info_labels di l))
  = <["meter_mac_id" := v]> (device_info_labels di l).
Proof.
  apply map_eq. intros i. unfold device_info_labels.
  rewrite !lookup_insert. repeat case_decide; congruence.
Qed.

(** Parsing again over a registry whose entry for the device is the one
    the first parse made, with or without the meter label, changes
    nothing. *)
Lemma parse_again (self self' : EagleParse) (reg rp R : gmap string Entry)
      (k : string) (e ep eR : Entry) :
  parse self reg = (rp, Ok self') ->
  _state self = Some k -> _labels self = Some k -> reg !! k = Some e ->
  rp !! k = Some ep -> R !! k = Some eR ->
  state eR = state ep ->
  (labels eR = labels ep
   \/ exists v, labels eR = <["meter_mac_id" := v]> (labels ep)) ->
  parse self R = (R, Ok self').
Proof.
  intros Hp Hs Hl He Hep HeR Hst Hlab.
  pose proof (parse_result_independent self R reg) as Hsnd.
  rewrite Hp in Hsnd. cbn [snd] in Hsnd.
  destruct (parse self R) as [R2 res] eqn:Hp2. cbn [snd] in Hsnd. subst res.
  f_equal. apply map_eq. intros i.
  destruct (decide (i = k)) as [->|Hi].
  2:{ pose proof (parse_other self R i) as Ho. rewrite Hp2 in Ho.
      apply Ho; congruence. }
  destruct (parse_registry _ _ _ _ _ _ Hp Hs Hl He)
    as (_ & _ & _ & ep' & Hep' & Hl1 & Hd1 & Hn1).
  assert (ep' = ep) as -> by congruence.
  destruct (parse_registry _ _ _ _ _ _ Hp2 Hs Hl HeR)
    as (_ & _ & _ & e2 & He2 & Hl2 & Hd2 & Hn2).
  rewrite He2, HeR. f_equal. rewrite Hst in Hd2, Hn2.
  apply entry_eq.
  - rewrite Hl2.
    destruct (ET.find_descendant (root self) "DeviceInfo") as [di|]; [|done].
    destruct Hlab as [->|[v ->]]; rewrite Hl1.
    + apply device_info_labels_again.
    + apply device_info_labels_meter.
  - rewrite Hst, Hd2, Hd1.
    by destruct (ET.find_descendant (root self) "DeviceInfo").
  - rewrite Hst, Hn2, Hn1.
    by destruct (ET.find_descendant (root self) "NetworkInfo").
Qed.

Lemma set_label_again (key l : string) (v : option string)
      (reg : gmap string Entry) :
  set_label key l v (set_label key l v reg) = set_label key l v reg.
Proof.
  apply map_eq. intros i. unfold set_label.
  destruct (decide (key = i)) as [->|Hne];
    [|by rewrite !lookup_alter_ne].
  rewrite !lookup_alter_eq. destruct (reg !! i) as [[lb st]|]; [|done].
  cbn. by rewrite insert_insert_eq.
Qed.

Lemma get_metric_labels_again (self : EagleParse)
      (reg R : gmap string Entry) (ml : metric_labels) (k : string) :
  get_metric_labels self reg = (R, Ok ml) ->
  _labels self = Some k -> _state self = Some k ->
  get_metric_labels self R = (R, Ok ml).
Proof.
  intros Hg Hl Hs.
  destruct (get_metric_labels_cases _ _ _ _ Hg)
    as [(_ & -> & _)
       |(kl & ks & e & e' & Hkl & Hks & He & Hd & Hn & Hr & He' & ->)];
    [done|].
  assert (ks = k) as -> by congruence.
  assert (kl = k) as -> by congruence.
  unfold meter_mac_id in Hr.
  destruct (ET.text_or_default (ET.find_descendant (root self) "MeterMacId")
                               None) as [id|] eqn:Hid;
    [|by rewrite Hr in Hg |- *].
  destruct (negb (String.eqb id "")
            && negb (String.eqb id meter_sentinel)) eqn:Hv;
    [|by rewrite Hr in Hg |- *].
  pose proof He' as He''. rewrite Hr in He''.
  rewrite (set_label_lookup _ _ _ _ _ He) in He''. injection He'' as <-.
  unfold get_metric_labels. rewrite Hl, Hs, He'. cbn [state].
  rewrite Hd, Hn. cbn [negb orb]. rewrite Hid, Hv.
  assert (HRR : set_label k "meter_mac_id" (Some id) R = R)
    by (rewrite Hr; apply set_label_again).
  by rewrite HRR, He'.
Qed.

Lemma device_info_lookup (self : EagleParse) (reg : gmap string Entry)
      (k : string) (e : Entry) :
  _state self = Some k -> _labels self = Some k -> reg !! k = Some e ->
  fst (_parse_device_info self reg) !! k
  = Some (match ET.find_descendant (root self) "DeviceInfo" with
          | Some di =>
              mkEntry (device_info_labels di (labels e))
                      (mkState true (network_info_received (state e)))
          | None => e
          end).
Proof.
  intros Hs Hl He.
  destruct (device_info_result self reg)
    as [[reg' H]|[[_ Hn]|[reg' [_ Hn]]]]; [|congruence | congruence].
  pose proof (device_info_registry _ _ _ _ _ _ H Hs Hl He) as Hr.
  rewrite H. cbn [fst].
  destruct (ET.find_descendant (root self) "DeviceInfo"); [done|].
  by subst reg'.
Qed.

(** The registry after a link-strength failure is a fixed point of the
    two info steps. *)
Lemma info_steps_again (self : EagleParse) (reg : gmap string Entry)
      (k : string) (e : Entry) :
  _state self = Some k -> _labels self = Some k -> reg !! k = Some e ->
  let after r :=
    set_network_info_received k (fst (_parse_device_info self r)) in
  after (after reg) = after reg.
Proof.
  intros Hs Hl He after. apply map_eq. intros i. unfold after.
  destruct (decide (i = k)) as [->|Hi].
  - pose proof (device_info_lookup self reg k e Hs Hl He) as H1.
    pose proof (set_network_info_received_lookup _ _ _ H1) as H2.
    pose proof (device_info_lookup self _ k _ Hs Hl H2) as H3.
    pose proof (set_network_info_received_lookup _ _ _ H3) as H4.
    rewrite H4, H2. f_equal.
    destruct (ET.find_descendant (root self) "DeviceInfo") as [di|];
      [|done].
    cbn. f_equal. apply device_info_labels_again.
  - assert (Hki : k <> i) by congruence.
    unfold set_network_info_received.
    repeat first [rewrite lookup_alter_ne by done
                 | rewrite device_info_other by congruence].
    done.
Qed.

Lemma publish_again (self : EagleParse) (reg R : gmap string Entry)
      (k : string) (e : Entry)
      (res : result (metric_labels * list gauge_set)) :
  _state self = Some k -> _labels self = Some k -> reg !! k = Some e ->
  publish self reg = (R, res) ->
  publish self R = (R, res).
Proof.
  intros Hs Hl He Hp. unfold publish in Hp |- *.
  destruct (parse self reg) as [rp [self'|er]] eqn:Hparse.
  - destruct (parse_frame _ _ _ _ Hparse) as (_ & Hl' & Hs').
    rewrite Hl in Hl'. rewrite Hs in Hs'.
    destruct (parse_registry _ _ _ _ _ _ Hparse Hs Hl He)
      as (_ & _ & _ & ep & Hep & _).
    destruct (get_metric_labels self' rp) as [r [ml|eg]] eqn:Hg.
    + injection Hp as <- <-.
      destruct (get_metric_labels_entry _ _ _ _ _ _ Hg Hl' Hs' Hep)
        as (eR & HeR & Hst & _).
      assert (Hlab : labels eR = labels ep
                     \/ exists v, labels eR
                                  = <["meter_mac_id" := v]> (labels ep)).
      { destruct (get_metric_labels_cases _ _ _ _ Hg)
          as [(_ & -> & _)
             |(kl & ks & e0 & e' & Hkl & _ & _ & _ & _ & Hr & He' & _)].
        - left. congruence.
        - assert (kl = k) as -> by congruence. rewrite Hr in HeR.
          destruct (meter_mac_id self') as [id|]; [|left; congruence].
          destruct (meter_merge_entry _ _ _ _ _ _ Hep HeR) as [_ Hm].
          destruct (_ && _); [right; by eexists | by left]. }
      rewrite (parse_again _ _ _ _ _ _ _ _ _ Hparse Hs Hl He Hep HeR
                           Hst Hlab).
      by rewrite (get_metric_labels_again _ _ _ _ _ Hg Hl' Hs').
    + exfalso.
      destruct (get_metric_labels_total self' rp) as (r' & ml & Hg');
        [congruence | | congruence].
      intros k' Hk'. assert (k' = k) as -> by congruence. by exists ep.
  - injection Hp as <- <-.
    assert (Hst : _state self = _labels self) by congruence.
    pose proof (parse_result_independent self rp reg) as Hsnd.
    rewrite Hparse in Hsnd. cbn [snd] in Hsnd.
    destruct (parse self rp) as [R2 res2] eqn:Hp2. cbn [snd] in Hsnd.
    subst res2. f_equal.
    destruct (parse_failure _ _ _ _ Hparse Hst)
      as [->|(_ & ni & ls & k1 & _ & _ & _ & Hk1 & ->)];
      [congruence|].
    assert (k1 = k) as -> by congruence.
    destruct (parse_failure _ _ _ _ Hp2 Hst)
      as [->|(_ & ni' & ls' & k2 & _ & _ & _ & Hk2 & ->)]; [done|].
    assert (k2 = k) as -> by congruence.
    apply (info_steps_again self reg k e Hs Hl He).
Qed.

Lemma publish_anonymous (self : EagleParse) (reg reg' : gmap string Entry) :
  _labels self = None -> _state self = None ->
  fst (publish self reg) = reg
  /\ snd (publish self reg) = snd (publish self reg').
Proof.
  intros Hl Hs. split.
  - apply map_eq. intros i. apply publish_other; congruence.
  - unfold publish.
    pose proof (parse_result_independent self reg reg') as Hsnd.
    destruct (parse self reg) as [rp [p|]] eqn:Hp;
      destruct (parse self reg') as [rp' [p'|]] eqn:Hp';
      cbn [snd] in Hsnd |- *; try discriminate; [|congruence].
    injection Hsnd as <-.
    destruct (parse_frame _ _ _ _ Hp) as (_ & Hl' & _).
    unfold get_metric_labels. by rewrite Hl', Hl.
Qed.

(** X20.  A payload received twice.  Handing [ingest] the same buffer
    again, at the same clock reading, on the registry the first call
    left, leaves that registry as it is and makes the same gauge calls,
    whatever the sender's address and the operator's labels are the
    second time. *)
Theorem ingest_twice decode fromstring raw host host' now cfg cfg'
        (reg reg' : gmap string Entry) (calls : list gauge_set)
        (status : Z) :
  ingest decode fromstring raw host now cfg reg = (reg', calls, status) ->
  ingest decode fromstring raw host' now cfg' reg' = (reg', calls, status).
Proof.
  unfold ingest. intros H.
  pose proof (init_result_independent decode fromstring raw host host' now
                cfg cfg' reg reg') as Hsnd.
  destruct (__init__ decode fromstring raw host now cfg reg)
    as [r1 [p|ei]] eqn:Hi; cbn [snd] in Hsnd.
  2:{ apply init_failure in Hi. subst r1. injection H as <- <- <-.
      destruct (__init__ decode fromstring raw host' now cfg' reg)
        as [r1' [p'|ei']] eqn:Hi'; cbn [snd] in Hsnd; [discriminate|].
      apply init_failure in Hi'. by subst r1'. }
  destruct (init_device _ _ _ _ _ _ _ _ _ Hi) as (Hd & Hf & Hl & Hs & _).
  destruct (init_ok _ _ _ _ _ _ _ _ _ Hi) as (_ & _ & Hk).
  assert (Hreg' : reg' = fst (publish p r1)).
  { by destruct (publish p r1) as [r2 [[ml cs]|]]; injection H as <- _ _. }
  assert (Hfst : fst (__init__ decode fromstring raw host' now cfg' reg')
                 = reg').
  { apply (init_known_device _ _ _ _ _ _ _ _ _ Hd Hf).
    intros k Hpk. rewrite Hpk in Hl. rewrite Hl in Hk.
    destruct Hk as ([e1 He1] & _).
    destruct (publish_extends p r1 k e1 He1) as (e' & He' & _).
    rewrite Hreg'. by exists e'. }
  destruct (__init__ decode fromstring raw host' now cfg' reg')
    as [r1' [p'|]] eqn:Hi'; cbn [snd fst] in Hsnd, Hfst; [|discriminate].
  injection Hsnd as <-. subst r1'.
  assert (Hagain : publish p reg' = (reg', snd (publish p r1))).
  { destruct (_labels p) as [k|] eqn:Hlp.
    - destruct Hk as ([e1 He1] & _). rewrite Hreg'.
      apply (publish_again p r1 _ k e1); [congruence | done | done |].
      by destruct (publish p r1).
    - destruct (publish_anonymous p r1 reg') as [Hf1 Hs1];
        [done | congruence |].
      destruct (publish_anonymous p reg' r1) as [Hf2 Hs2];
        [done | congruence |].
      rewrite Hf1 in Hreg'. subst r1.
      destruct (publish p reg') as [a b] eqn:E. cbn [fst snd] in *.
      congruence. }
  rewrite Hagain.
  destruct (publish p r1) as [r2 [[ml cs]|]]; cbn [snd];
    by injection H as _ <- <-.
Qed.

Lemma ingest_twice_witness :
  let first :=
    ingest Sample.decode (Sample.fromstring Sample.doc_both) []
           "10.0.0.7" 1762128000 ∅ Sample.reg_ready in
  ingest Sample.decode (Sample.fromstring Sample.doc_both) []
         "192.168.1.50" 1762128000 Sample2.opt_labels (fst (fst first))
  = (fst (fst first), snd (fst first), snd first).
Proof.
  exact (ingest_twice Sample.decode (Sample.fromstring Sample.doc_both) []
                      "10.0.0.7" "192.168.1.50" 1762128000 ∅
                      Sample2.opt_labels Sample.reg_ready _ _ _
                      (triple_eta _)).
Defined.

(** ** The network-info flag *)

(** X21.  A network-info section marks the device as seen whatever its
    link strength is: with the section present, the network-info flag of
    the device's entry is true after the step, also when [LinkStrength]
    is missing and also when it makes the step raise; labels and the
    device-info flag are left as they were, and only a link strength that
    was read is stored as a metric. *)
Theorem network_info_sets_flag_first (self : EagleParse)
        (reg : gmap string Entry) (k : string) (e : Entry) (ni : Element) :
  _state self = Some k -> reg !! k = Some e ->
  ET.find_descendant (root self) "NetworkInfo" = Some ni ->
  fst (_parse_network_info self reg) !! k
  = Some (mkEntry (labels e)
                  (mkState (device_info_received (state e)) true))
  /\ (ET.find ni "LinkStrength" = None ->
      _parse_network_info self reg
      = (set_network_info_received k reg, Ok self))
  /\ (forall f t,
        ET.find ni "LinkStrength" = Some f -> text f = Some t ->
        Py.int t 16 = None ->
        _parse_network_info self reg
        = (set_network_info_received k reg, Err ValueError)).
Proof.
  intros Hs He Hni.
  pose proof (set_network_info_received_lookup _ _ _ He) as Hlk.
  unfold _parse_network_info. rewrite Hs, Hni. repeat split.
  - destruct (ET.text_or_default _ _); [|done]. by destruct (Py.int _ _).
  - by intros ->.
  - intros f t -> Ht Hint. unfold ET.text_or_default. by rewrite Ht, Hint.
Qed.

Lemma network_info_sets_flag_first_witness :
  _parse_network_info (Sample.parser Sample.doc_bad_link) Sample.reg_new
  = (set_network_info_received Sample.mac Sample.reg_new, Err ValueError).
Proof.
  apply (proj2 (proj2 (network_info_sets_flag_first
                         (Sample.parser Sample.doc_bad_link)
                         Sample.reg_new Sample.mac Sample.entry_new
                         (Sample.network_info "strong")
                         eq_refl (lookup_singleton_eq _ _) eq_refl))
               (Sample.leaf "LinkStrength" "strong") "strong");
    reflexivity.
Defined.
